(** * Quiz-chain solver: a shallow embedding of [solver.py] and its properties.

    The development follows the layout of the source file:
    normalisation helpers, scraping helpers (spreadsheet heuristic and secret
    extraction), the inference call, the submission client and the
    multi-step chain loop [solve_quiz].

    Modelling conventions.
    - A Python [str] is a [string] whose characters are code points below 256
      (Latin-1); [strip], [lower], [\s], [\w] and [\d] classify those code
      points as CPython does.  Code points above 255 are outside the model.
    - Python [int] is [Z]; Python [float] is the kernel's binary64 [float];
      an [int64] cell of a table is a [Z] that arithmetic wraps around.
    - A Python [dict] is an association list in insertion order.
    - Exceptions are values of type [exn]; a call that may raise returns an
      [Exc].
    - Functions of third-party libraries (json, httpx, BeautifulSoup, pandas,
      urllib) are fields of the classes [PyLib] and [Net]; the code of the
      repository itself is translated definition by definition. *)

From Stdlib Require Import Bool Arith ZArith List Ascii String Lia.
From Stdlib Require Import DecimalString.
From Stdlib Require Import Floats.PrimFloat Floats.SpecFloat Floats.FloatOps.
Import ListNotations.

Open Scope string_scope.
Open Scope list_scope.
Open Scope Z_scope.

(* ================================================================= *)
(** ** Python strings *)

Module PyStr.

Definition code (c : ascii) : nat := nat_of_ascii c.

Definition in_range (lo hi : nat) (c : ascii) : bool :=
  (Nat.leb lo (code c) && Nat.leb (code c) hi)%bool.

(** [str.isspace] on one code point below 256: TAB, LF, VT, FF, CR,
    FS, GS, RS, US, SPACE, NEL and NBSP.  Python's [\s] is the same set. *)
Definition is_space (c : ascii) : bool :=
  (in_range 9 13 c || in_range 28 32 c
   || Nat.eqb (code c) 133 || Nat.eqb (code c) 160)%bool.

Definition is_digit (c : ascii) : bool := in_range 48 57 c.
Definition is_upper_ascii (c : ascii) : bool := in_range 65 90 c.
Definition is_lower_ascii (c : ascii) : bool := in_range 97 122 c.
Definition is_alpha_ascii (c : ascii) : bool :=
  (is_upper_ascii c || is_lower_ascii c)%bool.

(** Latin-1 code points above 127 that are alphanumeric for Python
    ([str.isalnum]): the ordinal indicators, micro sign, superscript digits,
    vulgar fractions and the accented letters. *)
Definition is_alnum_latin1_high (c : ascii) : bool :=
  (Nat.eqb (code c) 170 || in_range 178 179 c || Nat.eqb (code c) 181
   || in_range 185 186 c || in_range 188 190 c
   || in_range 192 214 c || in_range 216 246 c || in_range 248 255 c)%bool.

(** Python's [\w] on a [str] pattern: alphanumeric or underscore. *)
Definition is_word (c : ascii) : bool :=
  (is_alpha_ascii c || is_digit c || Nat.eqb (code c) 95
   || is_alnum_latin1_high c)%bool.

Definition is_ascii (c : ascii) : bool := Nat.ltb (code c) 128.

(** [str.lower] on one code point below 256. *)
Definition lower_char (c : ascii) : ascii :=
  if (is_upper_ascii c || in_range 192 214 c || in_range 216 222 c)%bool
  then ascii_of_nat (code c + 32) else c.

Fixpoint lower (s : string) : string :=
  match s with
  | EmptyString => EmptyString
  | String c s' => String (lower_char c) (lower s')
  end.

Fixpoint lstrip (s : string) : string :=
  match s with
  | EmptyString => EmptyString
  | String c s' => if is_space c then lstrip s' else s
  end.

(** [rstrip] keeps a character when it is not a space or when something
    survives to its right. *)
Fixpoint rstrip (s : string) : string :=
  match s with
  | EmptyString => EmptyString
  | String c s' =>
      match rstrip s' with
      | EmptyString => if is_space c then EmptyString else String c EmptyString
      | r => String c r
      end
  end.

Definition strip (s : string) : string := rstrip (lstrip s).

Definition startswith (p s : string) : bool := String.prefix p s.

Fixpoint contains (p s : string) : bool :=
  if String.prefix p s then true
  else match s with
       | EmptyString => false
       | String _ s' => contains p s'
       end.

Definition endswith (p s : string) : bool :=
  let n := String.length s in
  let k := String.length p in
  (Nat.leb k n && String.eqb (String.substring (n - k) k s) p)%bool.

(** [s[:n]] for [n >= 0]. *)
Definition take (n : nat) (s : string) : string := String.substring 0 n s.

(** Truth value of a string. *)
Definition nonempty (s : string) : bool :=
  match s with EmptyString => false | _ => true end.

End PyStr.

(* ================================================================= *)
(** ** Python values, exceptions and results *)

(** The values that flow through the solver: what [json.loads] produces,
    plus what the heuristics build from them. *)
#[warnings="-register-all"]
Inductive Value : Type :=
| VNone
| VBool (b : bool)
| VInt (z : Z)
| VFloat (f : float)
| VStr (s : string)
| VList (l : list Value)
| VDict (d : list (string * Value)).

(** A raised exception: its class name and [str(e)]. *)
Record exn : Type := mkExn { exn_class : string; exn_str : string }.

Inductive Exc (A : Type) : Type :=
| Ok (a : A)
| Raise (e : exn).
Arguments Ok {A} a.
Arguments Raise {A} e.

Definition rbind {A B} (r : Exc A) (k : A -> Exc B) : Exc B :=
  match r with Ok a => k a | Raise e => Raise e end.

(** Truth value of a Python object ([if x:], [not x]). *)
Definition truthy (v : Value) : bool :=
  match v with
  | VNone => false
  | VBool b => b
  | VInt z => negb (z =? 0)
  | VFloat f => negb (PrimFloat.eqb f PrimFloat.zero)
  | VStr s => PyStr.nonempty s
  | VList l => match l with [] => false | _ => true end
  | VDict d => match d with [] => false | _ => true end
  end.

(** *** Dictionaries *)

Definition Dict := list (string * Value).

Fixpoint dict_get (k : string) (d : Dict) : option Value :=
  match d with
  | [] => None
  | (k', v) :: d' => if String.eqb k' k then Some v else dict_get k d'
  end.

Definition dict_mem (k : string) (d : Dict) : bool :=
  match dict_get k d with Some _ => true | None => false end.

(** [d[k] = v]: an existing key keeps its position, a new key goes last. *)
Fixpoint dict_set (k : string) (v : Value) (d : Dict) : Dict :=
  match d with
  | [] => [(k, v)]
  | (k', v') :: d' =>
      if String.eqb k' k then (k', v) :: d' else (k', v') :: dict_set k v d'
  end.

Definition dict_keys (d : Dict) : list string := map fst d.

(* ================================================================= *)
(** ** Regular expressions

    The patterns of [solver.py] are sequences of single-character atoms with
    a greedy quantifier, word boundaries and one capture group.  [match_here]
    is the backtracking matcher of Python's [re] restricted to such
    patterns: a greedy atom first takes as many characters as it can and
    gives them back one at a time while the rest of the pattern fails. *)

Module Re.

Inductive atom : Type :=
| Chr (p : ascii -> bool)               (* one character of the class *)
| Opt (p : ascii -> bool)               (* [p?] *)
| Rep (p : ascii -> bool) (min : nat)   (* [p{min,}], so [p*] and [p+] *)
| WordB                                 (* [\b] *)
| Eos                                   (* end of the subject *)
| GOpen                                 (* [(] of group 1 *)
| GClose.                               (* [)] of group 1 *)

Definition pattern := list atom.

Definition word_opt (c : option ascii) : bool :=
  match c with Some a => PyStr.is_word a | None => false end.

(** [\b] holds between [prev] and [next] when exactly one of them is a
    word character; the outside of the subject counts as a non-word. *)
Definition at_boundary (prev : option ascii) (s : list ascii) : bool :=
  xorb (word_opt prev) (word_opt (hd_error s)).

(** The greedy loop of [p{min,}]: [n] characters are taken so far and [k]
    matches the rest of the pattern.  One more character is tried first;
    when the rest fails after it, the loop stops here if [n] is enough. *)
Fixpoint rep_loop (k : option ascii -> list ascii -> option (list ascii))
    (p : ascii -> bool) (min n : nat) (prev : option ascii) (s : list ascii)
    {struct s} : option (list ascii) :=
  let stop := if Nat.leb min n then k prev s else None in
  match s with
  | c :: s' =>
      if p c then
        match rep_loop k p min (S n) (Some c) s' with
        | Some r => Some r
        | None => stop
        end
      else stop
  | [] => stop
  end.

(** [match_here pat prev g cap s]: match [pat] at the current position.
    [prev] is the character before it, [s] the rest of the subject, [g] the
    rest of the subject where group 1 was opened and [cap] the text of
    group 1 once closed.  The answer is group 1 of the first match in
    backtracking order. *)
Fixpoint match_here (pat : pattern) (prev : option ascii)
    (g cap s : list ascii) {struct pat} : option (list ascii) :=
  match pat with
  | [] => Some cap
  | Chr p :: pat' =>
      match s with
      | c :: s' => if p c then match_here pat' (Some c) g cap s' else None
      | [] => None
      end
  | Opt p :: pat' =>
      let skip := match_here pat' prev g cap s in
      match s with
      | c :: s' =>
          if p c then
            match match_here pat' (Some c) g cap s' with
            | Some r => Some r
            | None => skip
            end
          else skip
      | [] => skip
      end
  | Rep p min :: pat' =>
      rep_loop (fun prev' s' => match_here pat' prev' g cap s') p min 0 prev s
  | WordB :: pat' =>
      if at_boundary prev s then match_here pat' prev g cap s else None
  | Eos :: pat' =>
      match s with
      | [] => match_here pat' prev g cap s
      | _ :: _ => None
      end
  | GOpen :: pat' => match_here pat' prev s cap s
  | GClose :: pat' =>
      match_here pat' prev g (firstn (List.length g - List.length s) g) s
  end.

(** Scan the start positions from left to right. *)
Fixpoint search_from (pat : pattern) (prev : option ascii) (s : list ascii)
    : option (list ascii) :=
  match match_here pat prev s [] s with
  | Some r => Some r
  | None =>
      match s with
      | [] => None
      | c :: s' => search_from pat (Some c) s'
      end
  end.

(** [re.search(pat, text)], giving [m.group(1)] when there is a match. *)
Definition search (pat : pattern) (text : string) : option string :=
  option_map string_of_list_ascii
    (search_from pat None (list_ascii_of_string text)).

(** [re.fullmatch(pat, text)] as a truth value. *)
Definition fullmatch (pat : pattern) (text : string) : bool :=
  match match_here (pat ++ [Eos]) None [] [] (list_ascii_of_string text) with
  | Some _ => true
  | None => false
  end.

(** [re.sub(pat, repl, text)] for a pattern written inside one group and
    that cannot match the empty string: [skip] counts the characters of
    the match that are still to be dropped. *)
Fixpoint sub_from (pat : pattern) (repl : list ascii) (skip : nat)
    (prev : option ascii) (s : list ascii) : list ascii :=
  match s with
  | [] => []
  | c :: s' =>
      match skip with
      | S k => sub_from pat repl k (Some c) s'
      | O =>
          match match_here pat prev s [] s with
          | Some m => repl ++ sub_from pat repl (List.length m - 1) (Some c) s'
          | None => c :: sub_from pat repl 0 (Some c) s'
          end
      end
  end.

Definition sub (pat : pattern) (repl text : string) : string :=
  string_of_list_ascii
    (sub_from pat (list_ascii_of_string repl) 0 None
       (list_ascii_of_string text)).

(** Character classes. *)
Definition lit (c : ascii) : ascii -> bool := Ascii.eqb c.
(** A literal letter under [re.IGNORECASE]. *)
Definition lit_i (c : ascii) : ascii -> bool :=
  fun x => Ascii.eqb (PyStr.lower_char x) (PyStr.lower_char c).
Definition any_char : ascii -> bool := fun _ => true.

(** *** What it means for a pattern to match

    [Matches pat prev g cap s r]: some way of matching [pat] at the
    position whose rest is [s] leaves [r] in group 1.  A quantified atom
    may take any run of its class that is long enough; no order among the
    ways of matching is imposed. *)

(** The character before the position reached after [run]. *)
Definition last_prev (run : list ascii) (prev : option ascii) : option ascii :=
  match rev run with
  | [] => prev
  | c :: _ => Some c
  end.

Inductive Matches : pattern -> option ascii -> list ascii -> list ascii ->
                    list ascii -> list ascii -> Prop :=
| M_nil : forall prev g cap s, Matches [] prev g cap s cap
| M_chr : forall p pat prev g cap c s r,
    p c = true -> Matches pat (Some c) g cap s r ->
    Matches (Chr p :: pat) prev g cap (c :: s) r
| M_opt_take : forall p pat prev g cap c s r,
    p c = true -> Matches pat (Some c) g cap s r ->
    Matches (Opt p :: pat) prev g cap (c :: s) r
| M_opt_skip : forall p pat prev g cap s r,
    Matches pat prev g cap s r ->
    Matches (Opt p :: pat) prev g cap s r
| M_rep : forall p min pat prev g cap run s r,
    forallb p run = true -> (min <= List.length run)%nat ->
    Matches pat (last_prev run prev) g cap s r ->
    Matches (Rep p min :: pat) prev g cap (run ++ s) r
| M_wordb : forall pat prev g cap s r,
    at_boundary prev s = true -> Matches pat prev g cap s r ->
    Matches (WordB :: pat) prev g cap s r
| M_eos : forall pat prev g cap r,
    Matches pat prev g cap [] r ->
    Matches (Eos :: pat) prev g cap [] r
| M_open : forall pat prev g cap s r,
    Matches pat prev s cap s r ->
    Matches (GOpen :: pat) prev g cap s r
| M_close : forall pat prev g cap s r,
    Matches pat prev g (firstn (List.length g - List.length s) g) s r ->
    Matches (GClose :: pat) prev g cap s r.

(** The pattern matches somewhere in the subject. *)
Definition occurs_in (pat : pattern) (subject : list ascii) : Prop :=
  exists pre suf r,
    subject = pre ++ suf /\ Matches pat (last_prev pre None) suf [] suf r.

Definition occurs (pat : pattern) (text : string) : Prop :=
  occurs_in pat (list_ascii_of_string text).

End Re.

(* ================================================================= *)
(** ** Tables and the library interface *)

(** A pandas column by dtype: [select_dtypes("number")] keeps the integer
    and floating columns and drops every other dtype (object, bool, ...). *)
Inductive Column : Type :=
| IntColumn (xs : list Z)
| FloatColumn (xs : list float)
| ObjectColumn (xs : list Value).

(** A [DataFrame]: named columns in column order and the number of rows.
    pandas gives every column [df_nrows] cells and, when it reads a file,
    distinct column names. *)
Record DataFrame : Type := mkDataFrame {
  df_columns : list (string * Column);
  df_nrows : nat
}.

(** An HTTP response as the solver reads it. *)
Record Response : Type := mkResponse {
  status_code : Z;
  text : string;        (* [resp.text] *)
  content : string      (* [resp.content], the raw bytes *)
}.

(** The functions of the Python standard library and of the third-party
    packages that [solver.py] calls. *)
Class PyLib : Type := {
  (** [json.loads(s)]; raises on malformed input. *)
  json_loads : string -> Exc Value;
  (** [json.dumps(v)]. *)
  json_dumps : Value -> Exc string;
  (** [str(v)]. *)
  py_str : Value -> string;
  (** [urllib.parse.urljoin(base, href)]. *)
  urljoin : Value -> string -> Exc string;
  (** [BeautifulSoup(html, "html.parser").get_text("\n")]. *)
  soup_get_text : string -> string;
  (** The [href] of every [<a href=...>] of the page, in document order. *)
  soup_anchor_hrefs : string -> list string;
  (** [bytes.decode()]. *)
  bytes_decode : string -> Exc string;
  (** [pd.read_csv(io.StringIO(s))] and [pd.read_excel(io.BytesIO(b))]. *)
  read_csv : string -> Exc DataFrame;
  read_excel : string -> Exc DataFrame;
  (** [Series.sum()] of a float64 column. *)
  float_sum : list float -> float
}.

(** The module-level configuration read from the environment.
    [MAX_CHAIN_STEPS] is the default of the parameter [max_steps] of
    [solve_quiz].  The timeouts ([DEFAULT_HTTP_TIMEOUT] and the 60 seconds
    of the inference call) are not modelled: a request that times out is a
    request that raises. *)
Record Config : Type := mkConfig {
  AIPIPE_TOKEN : option string;
  AIPIPE_URL : option string;
  ANALYSIS_SUBMIT_URL : string;
  MAX_CHAIN_STEPS : Z
}.

(** [not x] for the value of [os.getenv]. *)
Definition env_unset (x : option string) : bool :=
  match x with Some s => negb (PyStr.nonempty s) | None => true end.

(* ================================================================= *)
(** ** Builtin conversions *)

Fixpoint concat_str (l : list string) : string :=
  match l with
  | [] => EmptyString
  | s :: l' => String.append s (concat_str l')
  end.

Definition digit_val (c : ascii) : Z := Z.of_nat (nat_of_ascii c) - 48.

(** The value of a string of decimal digits, most significant first. *)
Fixpoint digits_val (acc : Z) (s : string) : option Z :=
  match s with
  | EmptyString => Some acc
  | String c s' =>
      if PyStr.is_digit c then digits_val (10 * acc + digit_val c) s'
      else None
  end.

Definition ValueError (msg : string) : exn := mkExn "ValueError" msg.

(** [str(n)] for an integer. *)
Definition py_str_int (n : Z) : string := NilZero.string_of_int (Z.to_int n).

(** [repr(s)] for a string without quote, backslash or control character
    (the keys and literals of this program). *)
Definition py_repr_str (s : string) : string :=
  String.append "'" (String.append s "'").

(** [sys.get_int_max_str_digits()]: the interpreter's default. *)
Definition INT_MAX_STR_DIGITS : Z := 4300.

(** The digits of an integer literal: the sign is not counted. *)
Definition int_literal_digits (s : string) : string :=
  match s with
  | String "-" ds | String "+" ds => ds
  | _ => s
  end.

(** The two errors of [int(s)]. *)
Definition int_limit_error (n : Z) : exn :=
  ValueError
    (concat_str
       ["Exceeds the limit (4300 digits) for integer string conversion: ";
        "value has "; py_str_int n;
        " digits; use sys.set_int_max_str_digits() to increase the limit"]).

Definition int_literal_error (s : string) : exn :=
  ValueError
    (String.append "invalid literal for int() with base 10: "
       (py_repr_str s)).

(** [int(s)] on an optionally signed, non-empty string of digits (the only
    strings [_attempt_number] passes to it); anything else raises.  Python
    integers are unbounded, but the conversion refuses a literal of more
    than [INT_MAX_STR_DIGITS] digits. *)
Definition py_int (s : string) : Exc Z :=
  let digits (ds : string) : option Z :=
    match ds with
    | EmptyString => None
    | _ => digits_val 0 ds
    end in
  let r :=
    match s with
    | String "-" ds => option_map Z.opp (digits ds)
    | String "+" ds => digits ds
    | _ => digits s
    end in
  match r with
  | Some z =>
      let n := Z.of_nat (String.length (int_literal_digits s)) in
      if INT_MAX_STR_DIGITS <? n then Raise (int_limit_error n) else Ok z
  | None => Raise (int_literal_error s)
  end.

(** A decimal literal cut at its point. *)
Fixpoint split_point (s : string) : option (string * string) :=
  match s with
  | EmptyString => None
  | String c r =>
      if Ascii.eqb c "." then Some (EmptyString, r)
      else match split_point r with
           | Some (ip, fp) => Some (String c ip, fp)
           | None => None
           end
  end.

(** The minus sign of a literal, and what follows it. *)
Definition literal_sign (s : string) : bool * string :=
  match s with
  | String "-" r => (true, r)
  | _ => (false, s)
  end.

(** The double nearest to [n / 10^k], ties to even, with the given sign:
    the correctly rounded quotient of the two integers. *)
Definition decimal_to_float (negative : bool) (n : Z) (k : nat) : float :=
  SF2Prim
    (SFdiv prec emax
       (match n with
        | Zpos p => S754_finite negative p 0
        | _ => S754_zero negative
        end)
       (S754_finite false (Z.to_pos (10 ^ Z.of_nat k)) 0)).

(** [float(s)] on a literal of the shape [-?\d+\.\d+] (the only strings
    [_attempt_number] passes to it): the correctly rounded double, which is
    infinite beyond the range of the doubles.  The other forms that
    [float] reads or refuses are not modelled; they give NaN here. *)
Definition py_float (s : string) : float :=
  let '(negative, body) := literal_sign s in
  match split_point body with
  | Some (ip, fp) =>
      match ip, fp, digits_val 0 (String.append ip fp) with
      | String _ _, String _ _, Some n =>
          decimal_to_float negative n (String.length fp)
      | _, _, _ => nan
      end
  | None => nan
  end.

(** [int(f)] on a float: truncation towards zero; infinities and NaN
    raise. *)
Definition py_int_of_float (f : float) : Exc Z :=
  match Prim2SF f with
  | S754_zero _ => Ok 0
  | S754_infinity _ =>
      Raise (mkExn "OverflowError" "cannot convert float infinity to integer")
  | S754_nan => Raise (ValueError "cannot convert float NaN to integer")
  | S754_finite sign m e =>
      let mag := if 0 <=? e then Z.pos m * 2 ^ e else Z.pos m / 2 ^ (- e) in
      Ok (if sign then - mag else mag)
  end.

(* ================================================================= *)
(** ** Normalization helpers *)

Section Normalization.
Context {L : PyLib}.

(** [_attempt_json_parse]: [None] stands both for a parse failure and for
    the JSON value [null]. *)
Definition _attempt_json_parse (value : string) : Value :=
  match json_loads value with
  | Ok j => j
  | Raise _ => VNone
  end.

Definition INT_RE : Re.pattern :=
  [Re.Opt (Re.lit "-"); Re.Rep PyStr.is_digit 1].
Definition FLOAT_RE : Re.pattern :=
  [Re.Opt (Re.lit "-"); Re.Rep PyStr.is_digit 1; Re.Chr (Re.lit ".");
   Re.Rep PyStr.is_digit 1].

Definition _attempt_number (value : string) : option Value :=
  if Re.fullmatch INT_RE (PyStr.strip value) then
    match py_int (PyStr.strip value) with
    | Ok z => Some (VInt z)
    | Raise _ => None
    end
  else if Re.fullmatch FLOAT_RE (PyStr.strip value) then
    Some (VFloat (py_float (PyStr.strip value)))
  else None.

Definition str_in (v : string) (l : list string) : bool :=
  existsb (String.eqb v) l.

Definition _attempt_boolean (value : string) : option bool :=
  let v := PyStr.lower (PyStr.strip value) in
  if str_in v ["true"; "yes"; "y"] then Some true
  else if str_in v ["false"; "no"; "n"] then Some false
  else None.

(** [isinstance(v, (str, int, float, bool))]. *)
Definition is_scalar (v : Value) : bool :=
  match v with
  | VStr _ | VInt _ | VFloat _ | VBool _ => true
  | _ => false
  end.

Definition _flatten_answer_object (obj : Dict) : Value :=
  match dict_get "answer" obj with
  | Some v =>
      if is_scalar v then v
      else match json_dumps v with
           | Ok s => VStr s
           | Raise _ => VStr (py_str v)
           end
  | None =>
      VDict
        (fold_left
           (fun cleaned kv =>
              let '(k, v) := kv in
              if is_scalar v then dict_set k v cleaned
              else dict_set k (VStr (py_str v)) cleaned)
           obj [])
  end.

Definition _normalize_answer_for_submission (answer : Value) : Value :=
  match answer with
  | VInt _ | VFloat _ | VBool _ => answer
  | VDict d => _flatten_answer_object d
  | VStr a =>
      let s := PyStr.strip a in
      match _attempt_boolean s with
      | Some b => VBool b
      | None =>
          match _attempt_number s with
          | Some n => n
          | None =>
              match _attempt_json_parse s with
              | VNone =>
                  if (PyStr.startswith "data:" s
                      && PyStr.contains ";base64," s)%bool
                  then VStr s
                  else VStr s
              | VDict j => _flatten_answer_object j
              | j => j
              end
          end
      end
  | _ => VStr (py_str answer)
  end.

End Normalization.

(* ================================================================= *)
(** ** Scraping helpers: the secret extractor *)

(** [[A-Za-z0-9_\-]]. *)
Definition token_char (c : ascii) : bool :=
  (PyStr.is_alpha_ascii c || PyStr.is_digit c
   || Ascii.eqb c "_" || Ascii.eqb c "-")%bool.

(** [[A-Za-z0-9_\-{}]]. *)
Definition secret_char (c : ascii) : bool :=
  (token_char c || Ascii.eqb c "{" || Ascii.eqb c "}")%bool.

(** [[:\s]]. *)
Definition colon_or_space (c : ascii) : bool :=
  (Ascii.eqb c ":" || PyStr.is_space c)%bool.

(** [r"(tds\{[^}]+\})"] with [re.IGNORECASE]. *)
Definition TDS_RE : Re.pattern :=
  [Re.GOpen;
   Re.Chr (Re.lit_i "t"); Re.Chr (Re.lit_i "d"); Re.Chr (Re.lit_i "s");
   Re.Chr (Re.lit "{");
   Re.Rep (fun c => negb (Ascii.eqb c "}")) 1;
   Re.Chr (Re.lit "}");
   Re.GClose].

(** [r"\b([A-Za-z0-9_\-]{6,})\b"]. *)
Definition TOKEN_RE : Re.pattern :=
  [Re.WordB; Re.GOpen; Re.Rep token_char 6; Re.GClose; Re.WordB].

(** [r"secret[:\s]*([A-Za-z0-9_\-{}]{4,})"] with [re.IGNORECASE]. *)
Definition SECRET_RE : Re.pattern :=
  [Re.Chr (Re.lit_i "s"); Re.Chr (Re.lit_i "e"); Re.Chr (Re.lit_i "c");
   Re.Chr (Re.lit_i "r"); Re.Chr (Re.lit_i "e"); Re.Chr (Re.lit_i "t");
   Re.Rep colon_or_space 0;
   Re.GOpen; Re.Rep secret_char 4; Re.GClose].

Definition _extract_secret_from_text (text : string) : option string :=
  if negb (PyStr.nonempty text) then None
  else
    match Re.search TDS_RE text with
    | Some m => Some m
    | None =>
        match Re.search TOKEN_RE text with
        | Some m => Some m
        | None =>
            match Re.search SECRET_RE text with
            | Some m => Some m
            | None => None
            end
        end
    end.

(* ================================================================= *)
(** ** Scraping helpers: the spreadsheet heuristic *)

Section Spreadsheet.
Context {L : PyLib}.

(** [df.select_dtypes("number").columns]: the names of the numeric
    columns, in column order. *)
Definition is_numeric (c : Column) : bool :=
  match c with
  | IntColumn _ | FloatColumn _ => true
  | ObjectColumn _ => false
  end.

Definition numeric_columns (df : DataFrame) : list string :=
  map fst (filter (fun nc => is_numeric (snd nc)) (df_columns df)).

(** [df[name]]: the column of that name. *)
Fixpoint column_named (name : string) (cols : list (string * Column))
    : option Column :=
  match cols with
  | [] => None
  | (n, c) :: cols' =>
      if String.eqb n name then Some c else column_named name cols'
  end.

Definition int_sum (xs : list Z) : Z := fold_left Z.add xs 0.

(** The [int64] that a two's-complement addition leaves for the integer
    [z]. *)
Definition wrap_int64 (z : Z) : Z := (z + 2 ^ 63) mod 2 ^ 64 - 2 ^ 63.

(** [int(series.sum())].  The sum of an [int64] column is an [int64]: it
    wraps around; the sum of a float column is the library's. *)
Definition int_of_column_sum (c : Column) : Exc Z :=
  match c with
  | IntColumn xs => Ok (wrap_int64 (int_sum xs))
  | FloatColumn xs => py_int_of_float (float_sum xs)
  | ObjectColumn _ =>
      Raise (mkExn "TypeError" "int() argument must be a number")
  end.

Definition cell_at (c : Column) (i : nat) : Value :=
  match c with
  | IntColumn xs => match nth_error xs i with Some z => VInt z | None => VNone end
  | FloatColumn xs => match nth_error xs i with Some f => VFloat f | None => VNone end
  | ObjectColumn xs => match nth_error xs i with Some v => v | None => VNone end
  end.

(** One row of [df.to_dict("records")]: a mapping from column name to the
    cell of that row. *)
Definition row_record (cols : list (string * Column)) (i : nat) : Dict :=
  fold_left (fun d nc => dict_set (fst nc) (cell_at (snd nc) i) d) cols [].

Definition to_dict_records (df : DataFrame) : list Dict :=
  map (row_record (df_columns df)) (seq 0 (df_nrows df)).

(** The part of [_download_and_process_file] after the table is parsed. *)
Definition process_table (df : DataFrame) (context_text : string) : Exc Value :=
  let generic := Ok (VList (map VDict (to_dict_records df))) in
  if PyStr.contains "sum" (PyStr.lower context_text) then
    match numeric_columns df with
    | name :: _ =>
        match column_named name (df_columns df) with
        | Some c => rbind (int_of_column_sum c) (fun z => Ok (VInt z))
        | None => Raise (mkExn "KeyError" (py_repr_str name))
        end
    | [] => generic
    end
  else generic.

End Spreadsheet.

(* ================================================================= *)
(** ** Effects: state passing with exceptions

    The coroutines of the source talk to the network.  A computation is a
    function from the state it runs in to the state it leaves and either a
    value or the exception it raised. *)

Definition M (S A : Type) : Type := S -> S * Exc A.

Definition ret {S A} (a : A) : M S A := fun s => (s, Ok a).
Definition raise {S A} (e : exn) : M S A := fun s => (s, Raise e).
Definition bind {S A B} (m : M S A) (k : A -> M S B) : M S B :=
  fun s =>
    match m s with
    | (s', Ok a) => k a s'
    | (s', Raise e) => (s', Raise e)
    end.
(** [try: m  except Exception as e: h e]. *)
Definition try_except {S A} (m : M S A) (h : exn -> M S A) : M S A :=
  fun s =>
    match m s with
    | (s', Ok a) => (s', Ok a)
    | (s', Raise e) => h e s'
    end.
Definition lift_exc {S A} (r : Exc A) : M S A := fun s => (s, r).

Declare Scope monad_scope.
Delimit Scope monad_scope with monad.
Notation "x <- m ;; k" := (bind m (fun x => k))
  (at level 61, m at next level, right associativity) : monad_scope.
Notation "m ;;; k" := (bind m (fun _ => k))
  (at level 61, right associativity) : monad_scope.
Open Scope monad_scope.

(** The network as the solver sees it through an [httpx.AsyncClient]:
    [W] is the state of the outside world. *)
Class Net (W : Type) : Type := {
  (** [await client.get(url, ...)]; raises on a network failure. *)
  http_get : Value -> M W Response;
  (** [await client.post(url, json=payload, headers=headers, ...)]. *)
  http_post : string -> list (string * string) -> Value -> M W Response
}.

(** The prompt keeps [page_text[:15000]]. *)
Definition PAGE_TEXT_LIMIT : nat := Z.to_nat 15000.

(** [resp.raise_for_status()]: httpx raises on every status outside 2xx. *)
Definition raise_for_status (resp : Response) : Exc unit :=
  if ((200 <=? status_code resp) && (status_code resp <? 300))%bool
  then Ok tt
  else Raise (mkExn "HTTPStatusError" "status outside 2xx").

Definition Exception (msg : string) : exn := mkExn "Exception" msg.

(** [type(v).__name__]. *)
Definition type_name (v : Value) : string :=
  match v with
  | VNone => "NoneType"
  | VBool _ => "bool"
  | VInt _ => "int"
  | VFloat _ => "float"
  | VStr _ => "str"
  | VList _ => "list"
  | VDict _ => "dict"
  end.

(** The exception of [v.attr] on a value without that attribute. *)
Definition AttributeError (v : Value) (attr : string) : exn :=
  mkExn "AttributeError"
    (String.append "'"
       (String.append (type_name v)
          (String.append "' object has no attribute "
             (py_repr_str attr)))).

(** The subscripts the solver uses: an integer index or a string key. *)
Inductive Subscript : Type :=
| SubInt (i : Z)
| SubStr (k : string).

(** [container[key]].  The text of a [KeyError] is the [repr] of the
    key. *)
Definition py_getitem (container : Value) (key : Subscript) : Exc Value :=
  match container, key with
  | VList l, SubInt i =>
      let n := Z.of_nat (List.length l) in
      let j := if i <? 0 then i + n else i in
      if ((0 <=? j) && (j <? n))%bool then
        match nth_error l (Z.to_nat j) with
        | Some v => Ok v
        | None => Raise (mkExn "IndexError" "list index out of range")
        end
      else Raise (mkExn "IndexError" "list index out of range")
  | VList _, SubStr _ =>
      Raise (mkExn "TypeError"
               "list indices must be integers or slices, not str")
  | VStr s, SubInt i =>
      let n := Z.of_nat (String.length s) in
      let j := if i <? 0 then i + n else i in
      if ((0 <=? j) && (j <? n))%bool then
        match String.get (Z.to_nat j) s with
        | Some c => Ok (VStr (String c EmptyString))
        | None => Raise (mkExn "IndexError" "string index out of range")
        end
      else Raise (mkExn "IndexError" "string index out of range")
  | VStr _, SubStr _ =>
      Raise (mkExn "TypeError" "string indices must be integers, not 'str'")
  | VDict d, SubStr k =>
      match dict_get k d with
      | Some v => Ok v
      | None => Raise (mkExn "KeyError" (py_repr_str k))
      end
  | VDict _, SubInt i => Raise (mkExn "KeyError" (py_str_int i))
  | (VNone | VBool _ | VInt _ | VFloat _), _ =>
      Raise (mkExn "TypeError"
               (String.append "'"
                  (String.append (type_name container)
                     "' object is not subscriptable")))
  end.

(** The double quote, for the literals that contain one. *)
Definition dq : string := String (ascii_of_nat 34) EmptyString.
Definition nl : string := String (ascii_of_nat 10) EmptyString.

(** [f"{v}"]. *)
Definition py_format {L : PyLib} (v : Value) : string :=
  match v with VStr s => s | _ => py_str v end.

(** [r"\n\s*\n\s*"], written inside a group for [Re.sub]. *)
Definition BLANK_LINES_RE : Re.pattern :=
  [Re.GOpen; Re.Chr (Re.lit (ascii_of_nat 10)); Re.Rep PyStr.is_space 0;
   Re.Chr (Re.lit (ascii_of_nat 10)); Re.Rep PyStr.is_space 0; Re.GClose].

(** [r"(\{[\s\S]*\})"]. *)
Definition JSON_OBJECT_RE : Re.pattern :=
  [Re.GOpen; Re.Chr (Re.lit "{"); Re.Rep Re.any_char 0; Re.Chr (Re.lit "}");
   Re.GClose].

Section Solver.
Context {L : PyLib} {W : Type} {N : Net W} (cfg : Config).

(* ----------------------------------------------------------------- *)
(** *** HTTP and scraping helpers *)

Definition _fetch_text (url : Value) : M W string :=
  resp <- http_get url ;;
  lift_exc (raise_for_status resp) ;;;
  let soup_text := soup_get_text (text resp) in
  ret (PyStr.strip
         (Re.sub BLANK_LINES_RE (String.append nl nl) soup_text)).

Definition _download_and_process_file (file_url : string)
    (context_text : string) : M W Value :=
  resp <- http_get (VStr file_url) ;;
  lift_exc (raise_for_status resp) ;;;
  let content := content resp in
  df <- (if PyStr.endswith ".csv" (PyStr.lower file_url) then
           decoded <- lift_exc (bytes_decode content) ;;
           lift_exc (read_csv decoded)
         else if (PyStr.endswith ".xls" (PyStr.lower file_url)
                  || PyStr.endswith ".xlsx" (PyStr.lower file_url))%bool then
           lift_exc (read_excel content)
         else raise (Exception "Unsupported file type for heuristic")) ;;
  lift_exc (process_table df context_text).

(* ----------------------------------------------------------------- *)
(** *** The inference call *)

Definition _call_aipipe (messages : Value) : M W Value :=
  if (env_unset (AIPIPE_TOKEN cfg) || env_unset (AIPIPE_URL cfg))%bool then
    raise (Exception "AIPIPE_TOKEN or AIPIPE_URL not set")
  else
    let token := match AIPIPE_TOKEN cfg with Some t => t | None => "" end in
    let url := match AIPIPE_URL cfg with Some u => u | None => "" end in
    let headers :=
      [("Authorization", String.append "Bearer " token);
       ("Content-Type", "application/json")] in
    let payload :=
      VDict [("model", VStr "openai/gpt-4.1-nano");
             ("messages", messages);
             ("temperature", VInt 0);
             ("max_tokens", VInt 1000)] in
    resp <- http_post url headers payload ;;
    lift_exc (raise_for_status resp) ;;;
    data <- lift_exc (json_loads (text resp)) ;;
    choices <-
      match data with
      | VDict d =>
          ret (match dict_get "choices" d with
               | Some c => c
               | None => VList []
               end)
      | _ => raise (AttributeError data "get")
      end ;;
    if negb (truthy choices) then ret (VStr "")
    else
      first <- lift_exc (py_getitem choices (SubInt 0)) ;;
      message <- lift_exc (py_getitem first (SubStr "message")) ;;
      lift_exc (py_getitem message (SubStr "content")).

Definition system_prompt : string :=
  "You are a helpful assistant that outputs a JSON with 'answer' and 'explanation'.".

Definition user_prompt (page_url : Value) (page_text : string) : string :=
  concat_str
    [nl; "URL: "; py_format page_url; nl; nl;
     "Page content:"; nl; PyStr.take PAGE_TEXT_LIMIT page_text; nl; nl;
     "Return ONLY JSON:"; nl;
     "{"; nl;
     "  "; dq; "answer"; dq; ": "; dq; "<value>"; dq; ","; nl;
     "  "; dq; "explanation"; dq; ": "; dq; "<short reasoning>"; dq; nl;
     "}"; nl].

Definition _solve_page_with_llm (page_url : Value) (page_text : string)
    : M W Value :=
  out <- _call_aipipe
           (VList [VDict [("role", VStr "system");
                          ("content", VStr system_prompt)];
                   VDict [("role", VStr "user");
                          ("content", VStr (user_prompt page_url page_text))]]) ;;
  assistant_output <-
    match out with
    | VStr s => ret (PyStr.strip s)
    | _ => raise (AttributeError out "strip")
    end ;;
  match json_loads assistant_output with
  | Ok j => ret j
  | Raise _ =>
      match Re.search JSON_OBJECT_RE assistant_output with
      | Some m =>
          match json_loads m with
          | Ok j => ret j
          | Raise _ => ret (VStr assistant_output)
          end
      | None => ret (VStr assistant_output)
      end
  end.

(* ----------------------------------------------------------------- *)
(** *** Submission to the grader *)

Record SubmitResult : Type := mkSubmitResult {
  sr_status_code : Z;
  sr_parsed : Value;
  sr_raw_text : string;
  sr_submitted_answer : Value
}.

Definition _submit_to_analysis (email secret : string) (url answer : Value)
    : M W SubmitResult :=
  let final_ans := _normalize_answer_for_submission answer in
  let payload :=
    VDict [("email", VStr email); ("secret", VStr secret);
           ("url", url); ("answer", final_ans)] in
  resp <- http_post (ANALYSIS_SUBMIT_URL cfg) [] payload ;;
  let parsed :=
    match json_loads (text resp) with
    | Ok j => j
    | Raise _ => VDict [("raw", VStr (text resp))]
    end in
  ret (mkSubmitResult (status_code resp) parsed (text resp) final_ans).

End Solver.

(* ================================================================= *)
(** ** The multi-step chain solver *)

(** One entry of [steps]: the keys of the Python dict, each absent
    ([None]) until the code assigns it. *)
Record StepRecord : Type := mkStep {
  step : Z;
  url : Value;
  method : option string;
  file_error : option string;
  raw_answer : option Value;
  submit_status : option Z;
  submitted_answer : option Value;
  submit_parsed : option Value;
  next_url : option Value;
  error : option string
}.

Definition new_record (step_no : Z) (current_url : Value) : StepRecord :=
  mkStep step_no current_url None None None None None None None None.

Definition set_method (m : string) (r : StepRecord) : StepRecord :=
  mkStep (step r) (url r) (Some m) (file_error r) (raw_answer r)
    (submit_status r) (submitted_answer r) (submit_parsed r) (next_url r)
    (error r).
Definition set_file_error (e : string) (r : StepRecord) : StepRecord :=
  mkStep (step r) (url r) (method r) (Some e) (raw_answer r)
    (submit_status r) (submitted_answer r) (submit_parsed r) (next_url r)
    (error r).
Definition set_raw_answer (a : Value) (r : StepRecord) : StepRecord :=
  mkStep (step r) (url r) (method r) (file_error r) (Some a)
    (submit_status r) (submitted_answer r) (submit_parsed r) (next_url r)
    (error r).
Definition set_submission (status : Z) (answer parsed : Value)
    (r : StepRecord) : StepRecord :=
  mkStep (step r) (url r) (method r) (file_error r) (raw_answer r)
    (Some status) (Some answer) (Some parsed) (next_url r) (error r).
Definition set_next_url (u : Value) (r : StepRecord) : StepRecord :=
  mkStep (step r) (url r) (method r) (file_error r) (raw_answer r)
    (submit_status r) (submitted_answer r) (submit_parsed r) (Some u)
    (error r).
Definition set_error (e : string) (r : StepRecord) : StepRecord :=
  mkStep (step r) (url r) (method r) (file_error r) (raw_answer r)
    (submit_status r) (submitted_answer r) (submit_parsed r) (next_url r)
    (Some e).

(** The dict returned by [solve_quiz]. *)
Record ChainResult : Type := mkChainResult {
  result : string;
  steps_done : Z;
  meets_required_steps : bool;
  steps : list StepRecord
}.

Definition is_none (v : Value) : bool :=
  match v with VNone => true | _ => false end.

(** [href.lower().endswith((".csv", ".xls", ".xlsx"))]. *)
Definition has_sheet_extension (href : string) : bool :=
  (PyStr.endswith ".csv" (PyStr.lower href)
   || PyStr.endswith ".xls" (PyStr.lower href)
   || PyStr.endswith ".xlsx" (PyStr.lower href))%bool.

(** The anchor loop: the first stripped [href] with a spreadsheet
    extension. *)
Fixpoint first_sheet_href (hrefs : list string) : option string :=
  match hrefs with
  | [] => None
  | h :: rest =>
      let href := PyStr.strip h in
      if has_sheet_extension href then Some href else first_sheet_href rest
  end.

Section Chain.
Context {L : PyLib} {W : Type} {N : Net W} (cfg : Config).

(** Step 5 of the loop body: the next URL named by the grader's parsed
    response, unwrapping one level of JSON nested in a string. *)
Definition next_url_of_parsed (parsed : Value) : Value :=
  match parsed with
  | VDict d =>
      let next_url :=
        match dict_get "url" d with Some v => v | None => VNone end in
      match next_url with
      | VStr s =>
          if PyStr.startswith "{" s then
            match json_loads s with
            | Ok (VDict nested) =>
                match dict_get "url" nested with Some v => v | None => VNone end
            | Ok _ => next_url
            | Raise _ => next_url
            end
          else next_url
      | _ => next_url
      end
  | _ => VNone
  end.

(** The body of the loop runs on the world and on the record it fills. *)
Definition St : Type := (W * StepRecord)%type.

Definition liftW {A} (m : M W A) : M St A :=
  fun s => let '(w', a) := m (fst s) in ((w', snd s), a).

Definition modify (f : StepRecord -> StepRecord) : M St unit :=
  fun s => ((fst s, f (snd s)), Ok tt).

(** The [try] block of one iteration; its value is [next_url]. *)
Definition iteration_body (email secret : string) (current_url : Value)
    : M St Value :=
  (* 1) fetch page text *)
  page_text <- liftW (_fetch_text current_url) ;;
  (* 2) detect downloadable file links *)
  resp2 <- liftW (http_get current_url) ;;
  file_link <-
    match first_sheet_href (soup_anchor_hrefs (text resp2)) with
    | Some href =>
        if PyStr.startswith "http" href then ret (Some href)
        else
          joined <- lift_exc (urljoin current_url href) ;;
          ret (Some joined)
    | None => ret None
    end ;;
  (* 3A) file heuristic *)
  answer <-
    match file_link with
    | Some link =>
        if PyStr.nonempty link then
          try_except
            (modify (set_method "file_heuristic") ;;;
             liftW (_download_and_process_file link page_text))
            (fun e => modify (set_file_error (exn_str e)) ;;; ret VNone)
        else ret VNone
    | None => ret VNone
    end ;;
  (* 3B) secret extraction *)
  answer <-
    (if is_none answer then
       match _extract_secret_from_text page_text with
       | Some extracted =>
           if PyStr.nonempty extracted then
             modify (set_method "extracted_secret") ;;; ret (VStr extracted)
           else ret answer
       | None => ret answer
       end
     else ret answer) ;;
  (* 3C) language model *)
  answer <-
    (if is_none answer then
       modify (set_method "aipipe") ;;;
       liftW (_solve_page_with_llm cfg current_url page_text)
     else ret answer) ;;
  modify (set_raw_answer answer) ;;;
  (* 4) submit *)
  submit_res <- liftW (_submit_to_analysis cfg email secret current_url answer) ;;
  modify (set_submission (sr_status_code submit_res)
            (sr_submitted_answer submit_res) (sr_parsed submit_res)) ;;;
  (* 5) next URL *)
  let next_url := next_url_of_parsed (sr_parsed submit_res) in
  modify (set_next_url next_url) ;;;
  ret next_url.

(** The [while] loop.  [fuel] bounds the number of iterations left; the
    loop guard itself is the one of the source.  The pause
    [asyncio.sleep(0.2)] between two iterations has no effect on the
    state and is left out. *)
Fixpoint chain_loop (fuel : nat) (email secret : string) (max_steps : Z)
    (current_url : Value) (step_no : Z) (steps : list StepRecord) (w : W)
    : W * list StepRecord :=
  match fuel with
  | O => (w, steps)
  | S fuel' =>
      if (truthy current_url && (step_no <? max_steps))%bool then
        let step_no := step_no + 1 in
        let record := new_record step_no current_url in
        match iteration_body email secret current_url (w, record) with
        | ((w', record), Ok next_url) =>
            let steps := steps ++ [record] in
            if negb (truthy next_url) then (w', steps)
            else chain_loop fuel' email secret max_steps next_url step_no
                   steps w'
        | ((w', record), Raise e) =>
            (w', steps ++ [set_error (exn_str e) record])
        end
      else (w, steps)
  end.

(** [s.get("submit_status", 500)]. *)
Definition status_or_500 (s : StepRecord) : Z :=
  match submit_status s with Some c => c | None => 500 end.

Definition solve_quiz (email secret : string) (url : Value)
    (required_min_steps max_steps : Z) (w : W) : W * ChainResult :=
  let '(w', steps) :=
    chain_loop (Z.to_nat max_steps) email secret max_steps url 0 [] w in
  let total := Z.of_nat (List.length steps) in
  let success := forallb (fun s => status_or_500 s <? 400) steps in
  (w', mkChainResult
         (if success then "chain_completed" else "chain_with_errors")
         total
         (required_min_steps <=? total)
         steps).

End Chain.

(* ================================================================= *)
(** ** The HTTP endpoint ([app.py])

    [quiz_endpoint] validates the request and then hands it to
    [solve_quiz].  Its model stops at that hand-over: it answers either
    with the error response the endpoint returns at once, or with the call
    of [solve_quiz] the endpoint makes, whose result it wraps in a response
    of status 200. *)

Inductive EndpointStep : Type :=
| Respond (status : Z) (error_message : string)
    (* [JSONResponse(status_code=status, content={"error": error_message})] *)
| Solve (email secret url : Value) (required_min_steps : Z).
    (* [await solve_quiz(email=..., secret=..., url=..., required_min_steps=...)] *)

(** [data.get(key)]. *)
Definition dict_get_or_none (key : string) (d : Dict) : Value :=
  match dict_get key d with Some v => v | None => VNone end.

(** [v != s] for a string [s]. *)
Definition differs_from_str (v : Value) (s : string) : bool :=
  match v with
  | VStr x => negb (String.eqb x s)
  | _ => true
  end.

Definition quiz_endpoint {L : PyLib} (QUIZ_SECRET : option string)
    (request_body : string) : Exc EndpointStep :=
  if env_unset QUIZ_SECRET then
    Ok (Respond 500 "Server misconfigured: QUIZ_SECRET not set")
  else
    match json_loads request_body with
    | Raise _ => Ok (Respond 400 "Invalid JSON payload")
    | Ok (VDict data) =>
        let email := dict_get_or_none "email" data in
        let secret := dict_get_or_none "secret" data in
        let url := dict_get_or_none "url" data in
        if negb (truthy email) then Ok (Respond 400 "Email missing")
        else if negb (truthy secret) then Ok (Respond 400 "Secret missing")
        else if negb (truthy url) then Ok (Respond 400 "URL missing")
        else if differs_from_str secret
                  (match QUIZ_SECRET with Some q => q | None => "" end)
        then Ok (Respond 403 "Invalid secret")
        else Ok (Solve email secret url 3)
    | Ok data => Raise (AttributeError data "get")
    end.

(* ================================================================= *)
(** ** Test doubles

    A small library and a few scripted networks, used to run the solver on
    concrete inputs.  [json_loads] knows the handful of documents the
    examples send; every other text is malformed for it. *)

Module Mock.

Definition bs : string := String (ascii_of_nat 92) EmptyString.

Definition url_next : string := "https://x/next".

(** [{"url": "https://x/next"}] *)
Definition body_next : string :=
  concat_str ["{"; dq; "url"; dq; ": "; dq; url_next; dq; "}"].

(** [{"url": "{\"url\": \"https://x/next\"}"}] *)
Definition body_nested : string :=
  concat_str ["{"; dq; "url"; dq; ": "; dq;
              "{"; bs; dq; "url"; bs; dq; ": "; bs; dq; url_next; bs; dq; "}";
              dq; "}"].

(** [{"correct": true}] *)
Definition body_correct : string :=
  concat_str ["{"; dq; "correct"; dq; ": true}"].

(** [{"choices": []}] *)
Definition body_no_choices : string :=
  concat_str ["{"; dq; "choices"; dq; ": []}"].

Definition JSONDecodeError : exn :=
  mkExn "JSONDecodeError" "Expecting value: line 1 column 1 (char 0)".

Definition loads (s : string) : Exc Value :=
  if String.eqb s body_next then Ok (VDict [("url", VStr url_next)])
  else if String.eqb s body_nested then Ok (VDict [("url", VStr body_next)])
  else if String.eqb s body_correct then Ok (VDict [("correct", VBool true)])
  else if String.eqb s body_no_choices then Ok (VDict [("choices", VList [])])
  else Raise JSONDecodeError.

Definition str (v : Value) : string :=
  match v with
  | VNone => "None"
  | VBool true => "True"
  | VBool false => "False"
  | VStr s => s
  | VList [] => "[]"
  | VDict [] => "{}"
  | _ => "<object>"
  end.

#[export] Instance lib : PyLib := {|
  json_loads := loads;
  json_dumps := fun _ => Raise (mkExn "TypeError" "not JSON serializable");
  py_str := str;
  urljoin := fun _ href => Ok href;
  soup_get_text := fun html => html;
  soup_anchor_hrefs := fun _ => [];
  bytes_decode := fun b => Ok b;
  read_csv := fun _ => Raise (mkExn "ParserError" "no table");
  read_excel := fun _ => Raise (mkExn "ValueError" "no table");
  float_sum := fun _ => PrimFloat.zero
|}.

Definition cfg : Config :=
  mkConfig (Some "token") (Some "https://llm.example/v1/chat")
    "https://tds-llm-analysis.s-anand.net/submit" 10.

Definition ConnectError : exn := mkExn "ConnectError" "All connection attempts failed".

(** No host can be reached. *)
Definition net_down : Net unit := {|
  http_get := fun _ => raise ConnectError;
  http_post := fun _ _ _ => raise ConnectError
|}.

(** Every page is [page]; every POST is answered by [reply]. *)
Definition net_fixed (page : string) (reply : Response) : Net unit := {|
  http_get := fun _ => ret (mkResponse 200 page page);
  http_post := fun _ _ _ => ret reply
|}.

Definition reply (status : Z) (body : string) : Response :=
  mkResponse status body body.

(** A network whose state counts the pages served: the first [n] GET
    requests are answered with [page], every later one fails. *)
Definition net_fails_after (n : nat) (page : string) (reply : Response)
    : Net nat := {|
  http_get := fun _ served =>
    if Nat.ltb served n then (S served, Ok (mkResponse 200 page page))
    else (served, Raise ConnectError);
  http_post := fun _ _ _ => ret reply
|}.

(** A table with one integer column [1, 2, 3] after a column of names. *)
Definition table : DataFrame :=
  mkDataFrame
    [("name", ObjectColumn [VStr "a"; VStr "b"; VStr "c"]);
     ("value", IntColumn [1; 2; 3])]
    3.

(** "[é]secret: abcd", where [é] is the code point 233. *)
Definition accented_text : string :=
  String (ascii_of_nat 233) "secret: abcd".

End Mock.

(** A second library, whose JSON reader also knows a chat completion with
    two choices, a request of the endpoint and an empty array. *)
Module MockDocs.

(** [{"choices": [{"message": {"content": "4"}},
                  {"message": {"content": "5"}}]}] *)
Definition body_two_choices : string :=
  concat_str ["{"; dq; "choices"; dq; ": [";
              "{"; dq; "message"; dq; ": {"; dq; "content"; dq; ": ";
              dq; "4"; dq; "}}, ";
              "{"; dq; "message"; dq; ": {"; dq; "content"; dq; ": ";
              dq; "5"; dq; "}}]}"].

Definition choice (content : string) : Value :=
  VDict [("message", VDict [("content", VStr content)])].

(** [{"email": "user@example.com", "secret": "s3cret",
      "url": "https://quiz/start"}] *)
Definition body_request : string :=
  concat_str ["{"; dq; "email"; dq; ": "; dq; "user@example.com"; dq; ", ";
              dq; "secret"; dq; ": "; dq; "s3cret"; dq; ", ";
              dq; "url"; dq; ": "; dq; "https://quiz/start"; dq; "}"].

Definition request : Dict :=
  [("email", VStr "user@example.com"); ("secret", VStr "s3cret");
   ("url", VStr "https://quiz/start")].

(** A CSV file with the rows of [Mock.table]. *)
Definition csv_values : string :=
  concat_str ["name,value"; nl; "a,1"; nl; "b,2"; nl; "c,3"; nl].

(** A CSV file whose only column sums beyond the [int64] range. *)
Definition csv_large : string :=
  concat_str ["v"; nl; "9223372036854775807"; nl; "1"; nl].

Definition table_large : DataFrame :=
  mkDataFrame [("v", IntColumn [9223372036854775807; 1])] 2.

Definition docs_read_csv (s : string) : Exc DataFrame :=
  if String.eqb s csv_values then Ok Mock.table
  else if String.eqb s csv_large then Ok table_large
  else Raise (mkExn "ParserError" "no table").

Definition docs_loads (s : string) : Exc Value :=
  if String.eqb s body_two_choices then
    Ok (VDict [("choices", VList [choice "4"; choice "5"])])
  else if String.eqb s body_request then Ok (VDict request)
  else if String.eqb s "[]" then Ok (VList [])
  else Mock.loads s.

Definition docs_lib : PyLib := {|
  json_loads := docs_loads;
  json_dumps := @json_dumps Mock.lib;
  py_str := Mock.str;
  urljoin := @urljoin Mock.lib;
  soup_get_text := @soup_get_text Mock.lib;
  soup_anchor_hrefs := @soup_anchor_hrefs Mock.lib;
  bytes_decode := @bytes_decode Mock.lib;
  read_csv := docs_read_csv;
  read_excel := @read_excel Mock.lib;
  float_sum := @float_sum Mock.lib
|}.

End MockDocs.

(* ================================================================= *)
(** ** Vocabulary of the statements *)


(** A string of decimal digits and the integer it denotes. *)
Definition all_digits (ds : string) : bool :=
  forallb PyStr.is_digit (list_ascii_of_string ds).

Definition decimal_value (ds : string) : Z :=
  fold_left (fun acc c => 10 * acc + digit_val c) (list_ascii_of_string ds) 0.

Definition step10 (acc : Z) (c : ascii) : Z := 10 * acc + digit_val c.

Definition not_close (c : ascii) : bool := negb (Ascii.eqb c "}").

(** The subject starts with a [tds{...}] token [tok], followed by [post]. *)
Definition tds_at (suf tok post : list ascii) : Prop :=
  exists t d s body,
    suf = t :: d :: s :: "{"%char :: body ++ "}"%char :: post /\
    tok = t :: d :: s :: "{"%char :: body ++ ["}"%char] /\
    Re.lit_i "t" t = true /\ Re.lit_i "d" d = true /\ Re.lit_i "s" s = true /\
    body <> [] /\ forallb not_close body = true.

(** One turn of the loop of [_flatten_answer_object]. *)
Definition clean_step {L : PyLib} (cleaned : Dict) (kv : string * Value) : Dict :=
  let '(k, v) := kv in
  if is_scalar v then dict_set k v cleaned
  else dict_set k (VStr (py_str v)) cleaned.

Definition dict_values (d : Dict) : list Value := map snd d.

Definition scalar (v : Value) : Prop := is_scalar v = true.

(** The text mentions a word, whatever the case of its letters. *)
Definition mentions (word text : string) : Prop :=
  exists pre post, PyStr.lower text = (pre ++ word ++ post)%string.

(** A column that is neither an integer nor a float column. *)
Definition non_numeric (nc : string * Column) : bool :=
  match snd nc with
  | ObjectColumn _ => true
  | IntColumn _ | FloatColumn _ => false
  end.

(** The one request of [_call_aipipe]: the model payload, posted to the
    configured endpoint with the bearer token. *)
Definition inference_post {W : Type} {N : Net W} (cfg : Config)
    (messages : Value) : M W Response :=
  http_post
    (match AIPIPE_URL cfg with Some u => u | None => "" end)
    [("Authorization",
      String.append "Bearer "
        (match AIPIPE_TOKEN cfg with Some t => t | None => "" end));
     ("Content-Type", "application/json")]
    (VDict [("model", VStr "openai/gpt-4.1-nano");
            ("messages", messages);
            ("temperature", VInt 0);
            ("max_tokens", VInt 1000)]).


(** The table that [_download_and_process_file] reads from a response: a
    CSV when the URL ends with ".csv" in any letter case, otherwise a
    workbook when it ends with ".xls" or ".xlsx". *)
Definition parsed_table {L : PyLib} (file_url : string) (resp : Response)
    (df : DataFrame) : Prop :=
  (PyStr.endswith ".csv" (PyStr.lower file_url) = true /\
   exists decoded,
     bytes_decode (content resp) = Ok decoded /\ read_csv decoded = Ok df) \/
  (PyStr.endswith ".csv" (PyStr.lower file_url) = false /\
   (PyStr.endswith ".xls" (PyStr.lower file_url) = true \/
    PyStr.endswith ".xlsx" (PyStr.lower file_url) = true) /\
   read_excel (content resp) = Ok df).

(** [z] is the finite float [f] cut towards zero: it has the sign of [f]
    and [|z| <= |f| < |z| + 1], the float being [m * 2^e]. *)
Definition truncates (f : float) (z : Z) : Prop :=
  match Prim2SF f with
  | S754_zero _ => z = 0
  | S754_finite negative m e =>
      (if negative then z <= 0 else 0 <= z) /\
      Z.abs z * 2 ^ Z.max 0 (- e) <= Z.pos m * 2 ^ Z.max 0 e
        < (Z.abs z + 1) * 2 ^ Z.max 0 (- e)
  | _ => False
  end.

(** The entry of one column in the record of row [i]. *)
Definition row_entry (i : nat) (nc : string * Column) : string * Value :=
  (fst nc, cell_at (snd nc) i).

(** The outputs of the normalizer that it maps to themselves whatever
    produced them: booleans, numbers and mappings. *)
Definition stable_shape (v : Value) : bool :=
  match v with
  | VBool _ | VInt _ | VFloat _ | VDict _ => true
  | _ => false
  end.

(** Every character of the text is an ASCII character. *)
Definition ascii_only (text : string) : bool :=
  forallb PyStr.is_ascii (list_ascii_of_string text).

(** The longest prefix of [l] whose elements satisfy [p], and the rest. *)
Fixpoint take_while {A} (p : A -> bool) (l : list A) : list A :=
  match l with
  | x :: l' => if p x then x :: take_while p l' else []
  | [] => []
  end.

Fixpoint drop_while {A} (p : A -> bool) (l : list A) : list A :=
  match l with
  | x :: l' => if p x then drop_while p l' else l
  | [] => []
  end.

(** The fields of a record that the body of an iteration never
    touches. *)
Definition same_identity (r r' : StepRecord) : Prop :=
  step r' = step r /\ url r' = url r /\ error r' = error r.

(** A computation on the world and the record that keeps them. *)
Definition keeps {W A : Type} (m : M (W * StepRecord) A) : Prop :=
  forall s s' a, m s = (s', a) -> same_identity (snd s) (snd s').

(** A record of a submission that the grader accepted. *)
Definition accepted (s : StepRecord) : Prop :=
  exists c, submit_status s = Some c /\ c < 400.

(** The step indices [1, 2, ..., n]. *)
Definition indices (n : nat) : list Z := map Z.of_nat (seq 1 n).

(** What [_flatten_answer_object] makes of one entry of a mapping. *)
Definition clean_entry {L : PyLib} (kv : string * Value) : string * Value :=
  (fst kv, if is_scalar (snd kv) then snd kv else VStr (py_str (snd kv))).

(** The fields of a record that are written only after the submission. *)
Definition same_submission (r r' : StepRecord) : Prop :=
  submit_status r' = submit_status r /\ next_url r' = next_url r.

(** A computation whose effect on the record stays within a relation. *)
Definition keeps_rel {W A : Type} (P : StepRecord -> StepRecord -> Prop)
    (m : M (W * StepRecord) A) : Prop :=
  forall s s' a, m s = (s', a) -> P (snd s) (snd s').

(** [r'] is the record of the iteration that follows the one of [r]: it
    visits the next URL that [r] recorded. *)
Definition follows (r r' : StepRecord) : Prop :=
  exists nu,
    next_url r = Some nu /\ truthy nu = true /\ url r' = nu /\ error r = None.

(** The log of a chain that started at [start]. *)
Definition chained (start : Value) (steps : list StepRecord) : Prop :=
  (forall r, nth_error steps 0 = Some r -> url r = start) /\
  (forall i r r',
      nth_error steps i = Some r -> nth_error steps (S i) = Some r' ->
      follows r r').

(** A run of the loop, as the specification words it: the loop stops at
    once when the URL is falsy or the cap is reached; otherwise it runs
    one iteration, which leaves exactly one record.  An iteration that
    raises leaves its record with the error field and ends the run; one
    that ends normally leaves its record, and the run goes on from the
    next URL when that URL is truthy.  [chain_run url k w w' log]: started
    on [url] after [k] iterations in the world [w], the loop ends in the
    world [w'] having appended [log]. *)
Inductive chain_run {L : PyLib} {W : Type} {N : Net W} (cfg : Config)
    (email secret : string) (max_steps : Z)
    : Value -> Z -> W -> W -> list StepRecord -> Prop :=
| run_stop (current_url : Value) (k : Z) (w : W) :
    truthy current_url = false \/ max_steps <= k ->
    chain_run cfg email secret max_steps current_url k w w []
| run_error (current_url : Value) (k : Z) (w w' : W) (r : StepRecord)
    (e : exn) :
    truthy current_url = true -> k < max_steps ->
    iteration_body cfg email secret current_url
      (w, new_record (k + 1) current_url) = ((w', r), Raise e) ->
    chain_run cfg email secret max_steps current_url k w w'
      [set_error (exn_str e) r]
| run_last (current_url : Value) (k : Z) (w w' : W) (r : StepRecord)
    (next : Value) :
    truthy current_url = true -> k < max_steps ->
    iteration_body cfg email secret current_url
      (w, new_record (k + 1) current_url) = ((w', r), Ok next) ->
    truthy next = false ->
    chain_run cfg email secret max_steps current_url k w w' [r]
| run_next (current_url : Value) (k : Z) (w w' w'' : W) (r : StepRecord)
    (next : Value) (rest : list StepRecord) :
    truthy current_url = true -> k < max_steps ->
    iteration_body cfg email secret current_url
      (w, new_record (k + 1) current_url) = ((w', r), Ok next) ->
    truthy next = true ->
    chain_run cfg email secret max_steps next (k + 1) w' w'' rest ->
    chain_run cfg email secret max_steps current_url k w w'' (r :: rest).

(** The next URL of a record is absent, [None] or otherwise falsy. *)
Definition no_next_url (r : StepRecord) : Prop :=
  match next_url r with
  | Some nu => truthy nu = false
  | None => True
  end.

(** The method of a record is one of the three of the cascade. *)
Definition known_method (r : StepRecord) : Prop :=
  method r = Some "file_heuristic" \/ method r = Some "extracted_secret" \/
  method r = Some "aipipe".

Definition is_newline (c : ascii) : bool := Ascii.eqb c (ascii_of_nat 10).

(** Three line feeds in a row somewhere in the list. *)
Fixpoint three_newlines (l : list ascii) : bool :=
  match l with
  | a :: ((b :: c :: _) as l') =>
      (is_newline a && is_newline b && is_newline c)%bool || three_newlines l'
  | _ => false
  end.

(** An answer that the file heuristic can give: an integer, or a list of
    row records. *)
Definition file_answer (v : Value) : Prop :=
  (exists z, v = VInt z) \/ (exists rows, v = VList (map VDict rows)).

(** The record appended last. *)
Definition last_record (steps : list StepRecord) : option StepRecord :=
  nth_error steps (pred (List.length steps)).

(** What the body of an iteration leaves in a record that it started
    empty, when it ends with [x]. *)
Definition cascade_shape (r : StepRecord) : Prop :=
  (file_error r <> None ->
   method r = Some "extracted_secret" \/ method r = Some "aipipe") /\
  (method r = Some "file_heuristic" ->
   exists a, raw_answer r = Some a /\ file_answer a) /\
  (method r = Some "extracted_secret" ->
   exists t, raw_answer r = Some (VStr t) /\ t <> "") /\
  (method r = None -> raw_answer r = None /\ file_error r = None).

(** The string of [n] copies of [c]. *)
Fixpoint repeat_char (c : ascii) (n : nat) : string :=
  match n with
  | O => EmptyString
  | S n' => String c (repeat_char c n')
  end.

(** The line feed. *)
Definition nl_char : ascii := ascii_of_nat 10.

Definition head_not_newline (l : list ascii) : Prop :=
  match l with
  | c :: _ => is_newline c = false
  | [] => True
  end.

(** The substitution of [_fetch_text] on the characters of a page, the
    character before them being [prev]. *)
Definition blank_sub (prev : option ascii) (s : list ascii) : list ascii :=
  Re.sub_from BLANK_LINES_RE [nl_char; nl_char] 0 prev s.

(* ================================================================= *)
(** * Properties *)

(** ** The matcher against the meaning of patterns *)

Module ReFacts.
Import Re.

Lemma last_prev_cons (c : ascii) (run : list ascii) (prev : option ascii) :
  last_prev (c :: run) prev = last_prev run (Some c).
Proof.
  unfold last_prev. simpl.
  destruct (rev run) as [|x xs]; reflexivity.
Qed.

Lemma last_prev_app (a b : list ascii) (prev : option ascii) :
  last_prev (a ++ b) prev = last_prev b (last_prev a prev).
Proof.
  revert prev. induction a as [|c a IH]; intros prev.
  - reflexivity.
  - simpl. rewrite !last_prev_cons. apply IH.
Qed.

Lemma rep_loop_sound k p min :
  forall s n prev r,
    rep_loop k p min n prev s = Some r ->
    exists run rest,
      s = run ++ rest /\ forallb p run = true /\
      (min <= n + List.length run)%nat /\
      k (last_prev run prev) rest = Some r.
Proof.
  assert (Hstop : forall n prev s r,
             (if Nat.leb min n then k prev s else None) = Some r ->
             exists run rest,
               s = run ++ rest /\ forallb p run = true /\
               (min <= n + List.length run)%nat /\
               k (last_prev run prev) rest = Some r).
  { intros n prev s r H. destruct (Nat.leb min n) eqn:E; [|discriminate].
    apply Nat.leb_le in E. exists [], s. simpl. repeat split; auto. lia. }
  induction s as [|c s IH]; intros n prev r H; simpl in H.
  - apply Hstop; exact H.
  - destruct (p c) eqn:Hp; [|apply Hstop; exact H].
    destruct (rep_loop k p min (S n) (Some c) s) as [r'|] eqn:Hrec.
    + inversion H; subst r'.
      destruct (IH _ _ _ Hrec) as (run & rest & -> & Hall & Hlen & Hk).
      exists (c :: run), rest. simpl. rewrite Hp, Hall, last_prev_cons.
      repeat split; auto. lia.
    + apply Hstop; exact H.
Qed.

Lemma rep_loop_complete k p min :
  forall run rest n prev r,
    forallb p run = true ->
    (min <= n + List.length run)%nat ->
    k (last_prev run prev) rest = Some r ->
    exists r', rep_loop k p min n prev (run ++ rest) = Some r'.
Proof.
  induction run as [|c run IH]; intros rest n prev r Hall Hlen Hk.
  - simpl in *. assert (E : Nat.leb min n = true) by (apply Nat.leb_le; lia).
    destruct rest as [|c s]; simpl; rewrite E.
    + eauto.
    + unfold last_prev in Hk; simpl in Hk.
      destruct (p c); [|eauto].
      destruct (rep_loop k p min (S n) (Some c) s); eauto.
  - simpl in Hall. apply andb_prop in Hall as [Hp Hall].
    rewrite last_prev_cons in Hk.
    destruct (IH rest (S n) (Some c) r Hall) as [r' Hr']; auto.
    { simpl in Hlen. lia. }
    simpl. rewrite Hp, Hr'. eauto.
Qed.

Lemma match_here_sound :
  forall pat prev g cap s r,
    match_here pat prev g cap s = Some r -> Matches pat prev g cap s r.
Proof.
  induction pat as [|a pat IH]; intros prev g cap s r H; simpl in H.
  - inversion H; subst. constructor.
  - destruct a as [p|p|p min| | | |].
    + destruct s as [|c s]; [discriminate|].
      destruct (p c) eqn:Hp; [|discriminate].
      apply M_chr; auto.
    + destruct s as [|c s].
      * apply M_opt_skip; auto.
      * destruct (p c) eqn:Hp; [|apply M_opt_skip; auto].
        destruct (match_here pat (Some c) g cap s) as [r'|] eqn:Hm.
        -- inversion H; subst r'. apply M_opt_take; auto.
        -- apply M_opt_skip; auto.
    + apply rep_loop_sound in H as (run & rest & -> & Hall & Hlen & Hk).
      apply M_rep; auto.
    + destruct (at_boundary prev s) eqn:Hb; [|discriminate].
      apply M_wordb; auto.
    + destruct s; [|discriminate]. apply M_eos; auto.
    + apply M_open; auto.
    + apply M_close; auto.
Qed.

Lemma match_here_complete :
  forall pat prev g cap s r,
    Matches pat prev g cap s r ->
    exists r', match_here pat prev g cap s = Some r'.
Proof.
  induction 1 as
    [ prev g cap s
    | p pat prev g cap c s r Hp _ [r' IH]
    | p pat prev g cap c s r Hp _ [r' IH]
    | p pat prev g cap s r _ [r' IH]
    | p min pat prev g cap run s r Hall Hlen _ [r' IH]
    | pat prev g cap s r Hb _ [r' IH]
    | pat prev g cap r _ [r' IH]
    | pat prev g cap s r _ [r' IH]
    | pat prev g cap s r _ [r' IH] ]; simpl.
  - eauto.
  - rewrite Hp. eauto.
  - rewrite Hp, IH. eauto.
  - rewrite IH. destruct s as [|c s]; [eauto|].
    destruct (p c); [|eauto].
    destruct (match_here pat (Some c) g cap s); eauto.
  - eapply rep_loop_complete with (r := r'); eauto.
  - rewrite Hb. eauto.
  - eauto.
  - eauto.
  - eauto.
Qed.

(** [search_from] returns the match at the leftmost position that has
    one. *)
Lemma search_from_some :
  forall pat s prev r,
    search_from pat prev s = Some r ->
    exists pre suf,
      s = pre ++ suf /\
      match_here pat (last_prev pre prev) suf [] suf = Some r /\
      forall pre2 suf2,
        s = pre2 ++ suf2 -> (List.length pre2 < List.length pre)%nat ->
        match_here pat (last_prev pre2 prev) suf2 [] suf2 = None.
Proof.
  induction s as [|c s IH]; intros prev r H; simpl in H.
  - destruct (match_here pat prev [] [] []) eqn:Hm; [|discriminate].
    exists [], []. repeat split; auto.
    + inversion H; subst; exact Hm.
    + simpl; intros; lia.
  - destruct (match_here pat prev (c :: s) [] (c :: s)) eqn:Hm.
    + exists [], (c :: s). repeat split; auto.
      * inversion H; subst; exact Hm.
      * simpl; intros; lia.
    + destruct (IH _ _ H) as (pre & suf & -> & Hhere & Hleft).
      exists (c :: pre), suf. rewrite last_prev_cons. repeat split; auto.
      intros pre2 suf2 Heq Hlt. destruct pre2 as [|c2 pre2].
      * simpl in Heq. subst suf2. exact Hm.
      * simpl in Heq. inversion Heq; subst c2. rewrite last_prev_cons.
        apply Hleft; auto. simpl in Hlt. lia.
Qed.

Lemma search_from_none :
  forall pat s prev,
    search_from pat prev s = None <->
    (forall pre suf,
        s = pre ++ suf ->
        match_here pat (last_prev pre prev) suf [] suf = None).
Proof.
  induction s as [|c s IH]; intros prev; simpl.
  - split.
    + intros H pre suf Heq. symmetry in Heq.
      apply app_eq_nil in Heq as [-> ->].
      destruct (match_here pat prev [] [] []) eqn:Hm;
        [discriminate|exact Hm].
    + intros H. pose proof (H [] [] eq_refl) as Hm. simpl in Hm.
      unfold last_prev in Hm; simpl in Hm. rewrite Hm. reflexivity.
  - split.
    + intros H pre suf Heq.
      destruct (match_here pat prev (c :: s) [] (c :: s)) eqn:Hm;
        [discriminate|].
      destruct pre as [|c2 pre]; simpl in Heq.
      * subst suf. exact Hm.
      * inversion Heq; subst c2. rewrite last_prev_cons.
        apply (proj1 (IH (Some c)) H). assumption.
    + intros H. pose proof (H [] (c :: s) eq_refl) as Hm.
      unfold last_prev in Hm; simpl in Hm. rewrite Hm.
      apply IH. intros pre suf Heq.
      specialize (H (c :: pre) suf). rewrite last_prev_cons in H.
      apply H. simpl. congruence.
Qed.

(** [re.search] finds nothing exactly when the pattern matches nowhere. *)
Lemma search_none_iff (pat : pattern) (text : string) :
  search pat text = None <-> ~ occurs pat text.
Proof.
  unfold search, occurs, occurs_in.
  destruct (search_from pat None (list_ascii_of_string text)) as [r|] eqn:Hs;
    simpl.
  - split; [discriminate|]. intros Hno. exfalso. apply Hno.
    apply search_from_some in Hs as (pre & suf & Heq & Hm & _).
    exists pre, suf, r. split; auto. apply match_here_sound; exact Hm.
  - split; [|reflexivity]. intros _ (pre & suf & r & Heq & HM).
    apply match_here_complete in HM as [r' Hr'].
    rewrite (proj1 (search_from_none _ _ _) Hs pre suf Heq) in Hr'.
    discriminate.
Qed.

Lemma search_some_iff (pat : pattern) (text : string) :
  search pat text <> None <-> occurs pat text.
Proof.
  split.
  - intros H. destruct (search pat text) as [m|] eqn:E; [|contradiction].
    unfold search in E.
    destruct (search_from pat None (list_ascii_of_string text)) as [r|] eqn:Hs;
      [|discriminate].
    apply search_from_some in Hs as (pre & suf & Heq & Hm & _).
    exists pre, suf, r. split; auto. apply match_here_sound; exact Hm.
  - intros Hocc Hnone. apply search_none_iff in Hnone. contradiction.
Qed.

End ReFacts.

(* ================================================================= *)
(** ** Strings and character classes *)

Lemma las_app (a b : string) :
  list_ascii_of_string (a ++ b)%string =
  list_ascii_of_string a ++ list_ascii_of_string b.
Proof.
  induction a as [|c a IH]; simpl; [reflexivity|]. now rewrite IH.
Qed.


Lemma las_length (a : string) :
  List.length (list_ascii_of_string a) = String.length a.
Proof.
  induction a as [|c a IH]; simpl; [reflexivity|]. now rewrite IH.
Qed.

Lemma las_inj (a b : string) :
  list_ascii_of_string a = list_ascii_of_string b -> a = b.
Proof.
  intros H. rewrite <- (string_of_list_ascii_of_string a),
              <- (string_of_list_ascii_of_string b). now rewrite H.
Qed.

(** Case analysis on the 256 characters. *)
Ltac each_char c :=
  destruct c as [[] [] [] [] [] [] [] []]; vm_compute; try reflexivity;
  try discriminate; auto.

Lemma ascii_word_is_token_char (c : ascii) :
  PyStr.is_word c = true -> PyStr.is_ascii c = true -> token_char c = true.
Proof. each_char c. Qed.

Lemma lit_i_letter_word (l c : ascii) :
  In l ["s"; "e"; "c"; "r"; "t"]%char ->
  Re.lit_i l c = true -> PyStr.is_word c = true /\ token_char c = true.
Proof.
  intros Hl. simpl in Hl.
  destruct Hl as [<-|[<-|[<-|[<-|[<-|[]]]]]]; each_char c.
Qed.


Lemma take_drop_while {A} (p : A -> bool) (l : list A) :
  take_while p l ++ drop_while p l = l.
Proof.
  induction l as [|x l IH]; simpl; [reflexivity|].
  destruct (p x); simpl; [now rewrite IH|reflexivity].
Qed.

Lemma take_while_all {A} (p : A -> bool) (l : list A) :
  forallb p (take_while p l) = true.
Proof.
  induction l as [|x l IH]; simpl; [reflexivity|].
  destruct (p x) eqn:E; simpl; [now rewrite E|reflexivity].
Qed.

Lemma drop_while_head {A} (p : A -> bool) (l : list A) :
  match drop_while p l with
  | x :: _ => p x = false
  | [] => True
  end.
Proof.
  induction l as [|x l IH]; simpl; [exact I|].
  destruct (p x) eqn:E; [exact IH|exact E].
Qed.

Lemma forallb_rev {A} (p : A -> bool) (l : list A) :
  forallb p (rev l) = forallb p l.
Proof.
  induction l as [|x l IH]; simpl; [reflexivity|].
  rewrite forallb_app, IH. simpl. rewrite andb_true_r. apply andb_comm.
Qed.



(* ================================================================= *)
(** ** The secret extractor *)

Module ExtractFacts.
Import Re ReFacts.

Ltac inv H := inversion H; subst; clear H.

Lemma firstn_prefix {A} (a b : list A) :
  firstn (List.length (a ++ b) - List.length b) (a ++ b) = a.
Proof.
  rewrite length_app, Nat.add_sub.
  rewrite firstn_app, Nat.sub_diag, firstn_all. simpl. apply app_nil_r.
Qed.

Ltac inv_matches :=
  repeat match goal with
         | H : Matches (_ :: _) _ _ _ _ _ |- _ => inv H
         | H : Matches [] _ _ _ _ _ |- _ => inv H
         end.

Lemma tds_matches_inv prev suf r :
  Matches TDS_RE prev suf [] suf r ->
  exists post, tds_at suf r post.
Proof.
  intros H. unfold TDS_RE in H. inv_matches.
  repeat match goal with
         | H : lit _ _ = true |- _ =>
             unfold lit in H; apply Ascii.eqb_eq in H; subst
         end.
  exists s0, c, c0, c1, run. repeat split; auto.
  - replace (c :: c0 :: c1 :: "{"%char :: run ++ "}"%char :: s0)
      with ((c :: c0 :: c1 :: "{"%char :: run ++ ["}"%char]) ++ s0)
      by (simpl; rewrite <- app_assoc; reflexivity).
    apply firstn_prefix.
  - intros ->. simpl in *. lia.
Qed.







(** *** The third pattern next to the second *)

Lemma all_head {A} (p : A -> bool) (w x : list A) :
  forallb p w = true -> w <> [] ->
  exists c, hd_error (w ++ x) = Some c /\ p c = true.
Proof.
  destruct w as [|c w]; [contradiction|]. simpl. intros H _.
  apply andb_prop in H as [H _]. eauto.
Qed.

Lemma all_last (p : ascii -> bool) (w : list ascii) (prev : option ascii) :
  forallb p w = true -> w <> [] ->
  exists c, last_prev w prev = Some c /\ p c = true.
Proof.
  intros H Hne. unfold last_prev.
  rewrite <- forallb_rev in H.
  destruct (rev w) as [|c r] eqn:E.
  - exfalso. apply Hne. rewrite <- (rev_involutive w), E. reflexivity.
  - simpl in H. apply andb_prop in H as [H _]. eauto.
Qed.

(** A run of six word characters in an ASCII subject sits inside a run
    of token characters delimited by word boundaries. *)
Lemma word_run_token (subject pre six rest : list ascii) :
  subject = pre ++ six ++ rest ->
  forallb PyStr.is_ascii subject = true ->
  forallb PyStr.is_word six = true -> List.length six = 6%nat ->
  occurs_in TOKEN_RE subject.
Proof.
  intros Heq Hascii Hword Hlen.
  set (A := rev (take_while PyStr.is_word (rev pre))).
  set (pre0 := rev (drop_while PyStr.is_word (rev pre))).
  set (B := take_while PyStr.is_word rest).
  set (rest0 := drop_while PyStr.is_word rest).
  set (W := A ++ six ++ B).
  assert (Hpre : pre = pre0 ++ A).
  { unfold pre0, A. rewrite <- rev_app_distr, take_drop_while.
    symmetry; apply rev_involutive. }
  assert (Hrest : rest = B ++ rest0).
  { unfold B, rest0. symmetry; apply take_drop_while. }
  assert (Hsub : subject = pre0 ++ W ++ rest0).
  { rewrite Heq, Hpre, Hrest at 1. unfold W.
    rewrite <- !app_assoc. reflexivity. }
  assert (HW : forallb PyStr.is_word W = true).
  { unfold W, A, B. rewrite !forallb_app, forallb_rev, !take_while_all, Hword.
    reflexivity. }
  assert (HWne : W <> []).
  { unfold W. intros E. apply (f_equal (@List.length ascii)) in E.
    rewrite !length_app, Hlen in E. simpl in E. lia. }
  assert (HWlen : (6 <= List.length W)%nat).
  { unfold W. rewrite !length_app, Hlen. lia. }
  assert (HWtok : forallb token_char W = true).
  { rewrite Hsub, !forallb_app in Hascii.
    apply andb_prop in Hascii as [_ Hascii].
    apply andb_prop in Hascii as [Hascii _].
    rewrite forallb_forall in *. intros c Hin.
    apply ascii_word_is_token_char; auto. }
  assert (Hbefore : word_opt (last_prev pre0 None) = false).
  { unfold last_prev, pre0. rewrite rev_involutive.
    pose proof (drop_while_head PyStr.is_word (rev pre)) as Hd.
    destruct (drop_while PyStr.is_word (rev pre)); simpl; auto. }
  assert (Hafter : word_opt (hd_error rest0) = false).
  { unfold rest0.
    pose proof (drop_while_head PyStr.is_word rest) as Hd.
    destruct (drop_while PyStr.is_word rest); simpl; auto. }
  exists pre0, (W ++ rest0), W. split; [exact Hsub|].
  unfold TOKEN_RE.
  apply M_wordb.
  { unfold at_boundary. rewrite Hbefore.
    destruct (all_head _ W rest0 HW HWne) as (c & -> & Hc). simpl.
    now rewrite Hc. }
  apply M_open. apply M_rep; [exact HWtok|exact HWlen|].
  apply M_close. rewrite firstn_prefix.
  apply M_wordb; [|apply M_nil].
  unfold at_boundary. rewrite Hafter.
  destruct (all_last _ W (last_prev pre0 None) HW HWne) as (c & -> & Hc).
  simpl. now rewrite Hc.
Qed.

Lemma secret_implies_token (subject : list ascii) :
  forallb PyStr.is_ascii subject = true ->
  occurs_in SECRET_RE subject -> occurs_in TOKEN_RE subject.
Proof.
  intros Hascii (pre & suf & r & Heq & HM).
  unfold SECRET_RE in HM. inv_matches.
  repeat match goal with
         | H : lit_i _ _ = true |- _ =>
             apply lit_i_letter_word in H as [H _];
             [|simpl; tauto]
         end.
  eapply (word_run_token _ pre [c; c0; c1; c2; c3; c4]); eauto.
  - simpl. reflexivity.
  - simpl. repeat match goal with H : _ = true |- _ => rewrite H; clear H end.
    reflexivity.
Qed.

End ExtractFacts.

Lemma search_empty_TDS : Re.search TDS_RE "" = None.
Proof. reflexivity. Qed.
Lemma search_empty_TOKEN : Re.search TOKEN_RE "" = None.
Proof. reflexivity. Qed.
Lemma search_empty_SECRET : Re.search SECRET_RE "" = None.
Proof. reflexivity. Qed.

(** The extractor is the first of the three searches that succeeds. *)
Lemma extract_secret_cascade (text : string) :
  _extract_secret_from_text text =
  match Re.search TDS_RE text with
  | Some m => Some m
  | None =>
      match Re.search TOKEN_RE text with
      | Some m => Some m
      | None => Re.search SECRET_RE text
      end
  end.
Proof.
  unfold _extract_secret_from_text. destruct text as [|c text].
  - simpl negb. cbv iota.
    rewrite search_empty_TDS, search_empty_TOKEN, search_empty_SECRET.
    reflexivity.
  - simpl negb. cbv iota.
    destruct (Re.search TDS_RE _); [reflexivity|].
    destruct (Re.search TOKEN_RE _); [reflexivity|].
    destruct (Re.search SECRET_RE _); reflexivity.
Qed.


(** The example of the specification, with candidates for the second and
    the third pattern standing before the token. *)
Example extract_secret_tds_example :
  _extract_secret_from_text "abcdefgh secret: wxyz tds{abc123} tail" =
  Some "tds{abc123}".
Proof. reflexivity. Qed.



(** C8, as stated, fails on a text with a non-ASCII word character: in
    "[é]secret: abcd" the word "secret" has no word boundary on its left,
    the first two patterns find nothing and the third one returns
    "abcd". *)
Lemma third_pattern_reached :
  Re.search TDS_RE Mock.accented_text = None /\
  Re.search TOKEN_RE Mock.accented_text = None /\
  Re.search SECRET_RE Mock.accented_text = Some "abcd" /\
  _extract_secret_from_text Mock.accented_text = Some "abcd".
Proof. repeat split; reflexivity. Qed.

(** C8, amended.  On a text made of ASCII characters only, whenever the
    third pattern matches the second one matches too, so the result never
    comes from the third pattern: it is the result of the first pattern,
    or else of the second. *)
Theorem third_pattern_unreachable_ascii (text : string) :
  ascii_only text = true ->
  (Re.occurs SECRET_RE text -> Re.occurs TOKEN_RE text) /\
  (Re.search SECRET_RE text <> None -> Re.search TOKEN_RE text <> None) /\
  _extract_secret_from_text text =
    match Re.search TDS_RE text with
    | Some m => Some m
    | None => Re.search TOKEN_RE text
    end.
Proof.
  intros Hascii.
  assert (H1 : Re.occurs SECRET_RE text -> Re.occurs TOKEN_RE text).
  { apply ExtractFacts.secret_implies_token. exact Hascii. }
  assert (H2 : Re.search SECRET_RE text <> None ->
               Re.search TOKEN_RE text <> None).
  { intros H. apply ReFacts.search_some_iff, H1, ReFacts.search_some_iff, H. }
  split; [exact H1|]. split; [exact H2|].
  rewrite extract_secret_cascade.
  destruct (Re.search TDS_RE text); [reflexivity|].
  destruct (Re.search TOKEN_RE text) eqn:E2; [reflexivity|].
  destruct (Re.search SECRET_RE text) eqn:E3; [|reflexivity].
  exfalso. apply H2; [discriminate|reflexivity].
Qed.

Lemma third_pattern_unreachable_ascii_witness :
  ascii_only "the secret: wxyz" = true /\
  _extract_secret_from_text "the secret: wxyz" =
    match Re.search TDS_RE "the secret: wxyz" with
    | Some m => Some m
    | None => Re.search TOKEN_RE "the secret: wxyz"
    end.
Proof.
  split; [reflexivity|].
  apply (third_pattern_unreachable_ascii "the secret: wxyz"). reflexivity.
Defined.

(* ================================================================= *)
(** ** The answer normalizer *)

Module StripFacts.
Import PyStr.

Lemma rstrip_keeps_head (c : ascii) (s : string) :
  is_space c = false -> exists r, rstrip (String c s) = String c r.
Proof.
  intros Hc. simpl. destruct (rstrip s); [rewrite Hc|]; eauto.
Qed.

Lemma lstrip_head (s : string) :
  match lstrip s with
  | EmptyString => True
  | String c _ => is_space c = false
  end.
Proof.
  induction s as [|c s IH]; simpl; [exact I|].
  destruct (is_space c) eqn:E; [exact IH|exact E].
Qed.

Lemma lstrip_fixed (c : ascii) (s : string) :
  is_space c = false -> lstrip (String c s) = String c s.
Proof. intros H. simpl. now rewrite H. Qed.

Lemma rstrip_idem (s : string) : rstrip (rstrip s) = rstrip s.
Proof.
  induction s as [|c s IH]; simpl; [reflexivity|].
  destruct (rstrip s) as [|d r] eqn:E.
  - destruct (is_space c) eqn:Hc; simpl; [reflexivity|now rewrite Hc].
  - simpl in IH |- *. destruct (rstrip r) as [|e r'] eqn:E'.
    + destruct (is_space d); [discriminate|]. now rewrite IH.
    + now rewrite IH.
Qed.

Lemma strip_idem (s : string) : strip (strip s) = strip s.
Proof.
  unfold strip. pose proof (lstrip_head s) as H.
  destruct (lstrip s) as [|c t] eqn:E; [reflexivity|].
  destruct (rstrip_keeps_head c t H) as [r Hr].
  rewrite Hr, (lstrip_fixed c r H), <- Hr. apply rstrip_idem.
Qed.

Lemma prefix_app (p s : string) :
  String.prefix p s = true <-> exists post, s = (p ++ post)%string.
Proof.
  revert s. induction p as [|a p IH]; intros s.
  - split; [intros _; exists s; reflexivity|].
    intros _. destruct s; reflexivity.
  - destruct s as [|b s]; simpl.
    + split; [discriminate|]. intros [post H]. discriminate.
    + destruct (ascii_dec a b) as [->|Hne].
      * rewrite IH. split; intros [post H]; exists post; congruence.
      * split; [discriminate|]. intros [post H]. congruence.
Qed.

Lemma contains_unfold (p s : string) :
  contains p s =
  if String.prefix p s then true
  else match s with
       | EmptyString => false
       | String _ s' => contains p s'
       end.
Proof. destruct s; reflexivity. Qed.

(** [p in s] holds exactly when [p] is a substring of [s]. *)
Lemma contains_spec (p s : string) :
  contains p s = true <-> exists pre post, s = (pre ++ p ++ post)%string.
Proof.
  split.
  - induction s as [|c s IH]; rewrite contains_unfold;
      destruct (String.prefix p _) eqn:E.
    + intros _. apply prefix_app in E as [post H]. exists EmptyString, post.
      exact H.
    + discriminate.
    + intros _. apply prefix_app in E as [post H]. exists EmptyString, post.
      exact H.
    + intros H. destruct (IH H) as (pre & post & ->).
      exists (String c pre), post. reflexivity.
  - intros (pre & post & ->). induction pre as [|c pre IH].
    + rewrite contains_unfold.
      assert (E : String.prefix p (p ++ post)%string = true)
        by (apply prefix_app; eauto).
      simpl String.append. rewrite E. reflexivity.
    + rewrite contains_unfold. simpl String.append.
      destruct (String.prefix p _); [reflexivity|exact IH].
Qed.

End StripFacts.

Module NumberFacts.
Import Re ReFacts.

Lemma digits_val_spec (s : string) :
  forall acc,
    all_digits s = true ->
    digits_val acc s = Some (fold_left step10 (list_ascii_of_string s) acc).
Proof.
  unfold all_digits. induction s as [|c s IH]; intros acc H; simpl in *.
  - reflexivity.
  - apply andb_prop in H as [Hc Hs]. rewrite Hc. apply IH. exact Hs.
Qed.

Lemma py_int_digit_head (c : ascii) (r : string) :
  PyStr.is_digit c = true ->
  py_int (String c r) =
  match digits_val 0 (String c r) with
  | Some z =>
      if INT_MAX_STR_DIGITS <? Z.of_nat (String.length (String c r))
      then Raise (int_limit_error (Z.of_nat (String.length (String c r))))
      else Ok z
  | None => Raise (int_literal_error (String c r))
  end.
Proof.
  destruct c as [[] [] [] [] [] [] [] []]; intros H;
    try (vm_compute in H; discriminate H); reflexivity.
Qed.

(** [int] of a string of digits: their value, unless there are more than
    [INT_MAX_STR_DIGITS] of them. *)
Lemma py_int_of_digits (ds : string) :
  ds <> EmptyString -> all_digits ds = true ->
  py_int ds =
  if INT_MAX_STR_DIGITS <? Z.of_nat (String.length ds)
  then Raise (int_limit_error (Z.of_nat (String.length ds)))
  else Ok (decimal_value ds).
Proof.
  intros Hne Hall. destruct ds as [|c r]; [contradiction|].
  assert (Hc : PyStr.is_digit c = true).
  { unfold all_digits in Hall. simpl in Hall.
    apply andb_prop in Hall as [Hc _]. exact Hc. }
  rewrite (py_int_digit_head c r Hc), (digits_val_spec _ 0 Hall).
  reflexivity.
Qed.

Lemma py_int_of_minus_digits (ds : string) :
  ds <> EmptyString -> all_digits ds = true ->
  py_int (String "-" ds) =
  if INT_MAX_STR_DIGITS <? Z.of_nat (String.length ds)
  then Raise (int_limit_error (Z.of_nat (String.length ds)))
  else Ok (- decimal_value ds).
Proof.
  intros Hne Hall. destruct ds as [|c r]; [contradiction|].
  unfold py_int. rewrite (digits_val_spec _ 0 Hall). reflexivity.
Qed.

Lemma within_limit (ds : string) :
  Z.of_nat (String.length ds) <= INT_MAX_STR_DIGITS ->
  (INT_MAX_STR_DIGITS <? Z.of_nat (String.length ds)) = false.
Proof. intros H. apply Z.ltb_ge. exact H. Qed.

Lemma beyond_limit (ds : string) :
  INT_MAX_STR_DIGITS < Z.of_nat (String.length ds) ->
  (INT_MAX_STR_DIGITS <? Z.of_nat (String.length ds)) = true.
Proof. intros H. apply Z.ltb_lt. exact H. Qed.

Lemma py_int_digits (ds : string) :
  ds <> EmptyString -> all_digits ds = true ->
  Z.of_nat (String.length ds) <= INT_MAX_STR_DIGITS ->
  py_int ds = Ok (decimal_value ds).
Proof.
  intros Hne Hall Hlen.
  now rewrite (py_int_of_digits ds Hne Hall), (within_limit ds Hlen).
Qed.

Lemma py_int_minus_digits (ds : string) :
  ds <> EmptyString -> all_digits ds = true ->
  Z.of_nat (String.length ds) <= INT_MAX_STR_DIGITS ->
  py_int (String "-" ds) = Ok (- decimal_value ds).
Proof.
  intros Hne Hall Hlen.
  now rewrite (py_int_of_minus_digits ds Hne Hall), (within_limit ds Hlen).
Qed.

(** When [int] answers on digits, it answers their value. *)
Lemma py_int_value (ds : string) (z : Z) :
  ds <> EmptyString -> all_digits ds = true ->
  (py_int ds = Ok z -> z = decimal_value ds) /\
  (py_int (String "-" ds) = Ok z -> z = - decimal_value ds).
Proof.
  intros Hne Hall.
  rewrite (py_int_of_digits ds Hne Hall),
    (py_int_of_minus_digits ds Hne Hall).
  destruct (INT_MAX_STR_DIGITS <? _); split; congruence.
Qed.

(** A character that opens a number opens no boolean word. *)
Lemma boolean_words_need_letter (c : ascii) (r : string) :
  (PyStr.is_digit c || Ascii.eqb c "-")%bool = true ->
  PyStr.strip (String c r) = String c r ->
  _attempt_boolean (String c r) = None.
Proof.
  intros Hc Hs. unfold _attempt_boolean. rewrite Hs. simpl PyStr.lower.
  destruct c as [[] [] [] [] [] [] [] []];
    try (vm_compute in Hc; discriminate Hc); reflexivity.
Qed.

Lemma digits_not_dot (run : list ascii) :
  forallb PyStr.is_digit run = true -> ~ In "."%char run.
Proof.
  rewrite forallb_forall. intros H Hin. specialize (H _ Hin). discriminate.
Qed.

Lemma fullmatch_int (sign ds : string) :
  sign = EmptyString \/ sign = "-" ->
  ds <> EmptyString -> all_digits ds = true ->
  fullmatch INT_RE (sign ++ ds)%string = true.
Proof.
  intros Hsign Hne Hall. unfold fullmatch.
  assert (HM : Matches (INT_RE ++ [Eos]) None [] []
                 (list_ascii_of_string (sign ++ ds)%string) []).
  { assert (Hrep : Matches [Rep PyStr.is_digit 1; Eos] None [] []
                     (list_ascii_of_string ds ++ []) []
              /\ Matches [Rep PyStr.is_digit 1; Eos] (Some "-"%char) [] []
                     (list_ascii_of_string ds ++ []) []).
    { split; (apply M_rep; [exact Hall| |apply M_eos, M_nil]);
        destruct ds; [contradiction|simpl; lia|contradiction|simpl; lia]. }
    rewrite app_nil_r in Hrep. destruct Hrep as [H0 H1].
    destruct Hsign as [-> | ->]; simpl.
    - apply M_opt_skip. exact H0.
    - apply M_opt_take; [reflexivity|exact H1]. }
  apply match_here_complete in HM as [r' ->]. reflexivity.
Qed.

Lemma fullmatch_int_shape (x : string) :
  fullmatch INT_RE x = true ->
  exists run, forallb PyStr.is_digit run = true /\
              (list_ascii_of_string x = run \/
               list_ascii_of_string x = "-"%char :: run).
Proof.
  unfold fullmatch.
  destruct (match_here (INT_RE ++ [Eos]) None [] [] (list_ascii_of_string x))
    as [r|] eqn:Hm; [|discriminate].
  intros _. apply match_here_sound in Hm. simpl in Hm.
  inversion Hm; subst; clear Hm.
  - match goal with H : Matches (Rep _ _ :: _) _ _ _ _ _ |- _ =>
      inversion H; subst; clear H end.
    match goal with H : Matches (Eos :: _) _ _ _ _ _ |- _ =>
      inversion H; subst; clear H end.
    exists run. rewrite app_nil_r in *. split; [assumption|].
    right. match goal with H : lit _ _ = true |- _ =>
      apply Ascii.eqb_eq in H; subst end. congruence.
  - match goal with H : Matches (Rep _ _ :: _) _ _ _ _ _ |- _ =>
      inversion H; subst; clear H end.
    match goal with H : Matches (Eos :: _) _ _ _ _ _ |- _ =>
      inversion H; subst; clear H end.
    exists run. rewrite app_nil_r in *. split; [assumption|]. left. congruence.
Qed.

Lemma float_literal_chars (sign ip fp : string) :
  list_ascii_of_string (sign ++ ip ++ "." ++ fp)%string =
  list_ascii_of_string sign ++
  list_ascii_of_string ip ++ "."%char :: list_ascii_of_string fp.
Proof. rewrite !las_app. reflexivity. Qed.

Lemma fullmatch_float (sign ip fp : string) :
  sign = EmptyString \/ sign = "-" ->
  ip <> EmptyString -> fp <> EmptyString ->
  all_digits ip = true -> all_digits fp = true ->
  fullmatch FLOAT_RE (sign ++ ip ++ "." ++ fp)%string = true.
Proof.
  intros Hsign Hip Hfp Hi Hf. unfold fullmatch.
  assert (HM : Matches (FLOAT_RE ++ [Eos]) None [] []
                 (list_ascii_of_string (sign ++ ip ++ "." ++ fp)%string) []).
  { rewrite float_literal_chars.
    assert (Htail : forall prev,
               Matches [Rep PyStr.is_digit 1; Chr (lit "."); Rep PyStr.is_digit 1; Eos]
                 prev [] []
                 (list_ascii_of_string ip ++ "."%char :: list_ascii_of_string fp) []).
    { intros prev. apply M_rep; [exact Hi|destruct ip; [contradiction|simpl; lia]|].
      apply M_chr; [reflexivity|].
      rewrite <- (app_nil_r (list_ascii_of_string fp)).
      apply M_rep; [exact Hf|destruct fp; [contradiction|simpl; lia]|].
      apply M_eos, M_nil. }
    destruct Hsign as [-> | ->]; simpl.
    - apply M_opt_skip. apply Htail.
    - apply M_opt_take; [reflexivity|apply Htail]. }
  apply match_here_complete in HM as [r' ->]. reflexivity.
Qed.

Lemma fullmatch_int_rejects_float (sign ip fp : string) :
  sign = EmptyString \/ sign = "-" ->
  fullmatch INT_RE (sign ++ ip ++ "." ++ fp)%string = false.
Proof.
  intros Hsign.
  destruct (fullmatch INT_RE (sign ++ ip ++ "." ++ fp)%string) eqn:E;
    [|reflexivity].
  exfalso. apply fullmatch_int_shape in E as (run & Hall & Hshape).
  rewrite float_literal_chars in Hshape.
  apply digits_not_dot in Hall. apply Hall.
  assert (Hin : In "."%char
                  (list_ascii_of_string sign ++
                   list_ascii_of_string ip ++
                   "."%char :: list_ascii_of_string fp)).
  { apply in_or_app. right. apply in_or_app. right. left. reflexivity. }
  destruct Hshape as [Hs | Hs]; rewrite Hs in Hin.
  - exact Hin.
  - destruct Hin as [Hd|Hin]; [discriminate Hd|exact Hin].
Qed.

End NumberFacts.

Section NormalizeNumbers.
Context {L : PyLib}.

Lemma int_literal_shape (a sign ds : string) :
  sign = EmptyString \/ sign = "-" ->
  ds <> EmptyString -> all_digits ds = true ->
  PyStr.strip a = (sign ++ ds)%string ->
  _attempt_boolean (PyStr.strip a) = None /\
  _attempt_number (PyStr.strip a) =
    match py_int (sign ++ ds)%string with
    | Ok z => Some (VInt z)
    | Raise _ => None
    end.
Proof.
  intros Hsign Hne Hall Hs.
  assert (Hfix : PyStr.strip (sign ++ ds)%string = (sign ++ ds)%string).
  { rewrite <- Hs. apply StripFacts.strip_idem. }
  rewrite Hs. split.
  - destruct Hsign as [-> | ->]; simpl in *.
    + destruct ds as [|c r]; [contradiction|].
      apply NumberFacts.boolean_words_need_letter; [|exact Hfix].
      unfold all_digits in Hall. simpl in Hall.
      apply andb_prop in Hall as [-> _]. reflexivity.
    + apply NumberFacts.boolean_words_need_letter; [reflexivity|exact Hfix].
  - unfold _attempt_number. rewrite Hfix.
    rewrite (NumberFacts.fullmatch_int sign ds Hsign Hne Hall). reflexivity.
Qed.

Lemma normalize_int_literal (a sign ds : string) :
  sign = EmptyString \/ sign = "-" ->
  ds <> EmptyString -> all_digits ds = true ->
  Z.of_nat (String.length ds) <= INT_MAX_STR_DIGITS ->
  PyStr.strip a = (sign ++ ds)%string ->
  _attempt_boolean (PyStr.strip a) = None /\
  _attempt_number (PyStr.strip a) =
    Some (VInt (if String.eqb sign "-" then - decimal_value ds
                else decimal_value ds)).
Proof.
  intros Hsign Hne Hall Hlen Hs.
  destruct (int_literal_shape a sign ds Hsign Hne Hall Hs) as [Hb Hn].
  split; [exact Hb|]. rewrite Hn.
  destruct Hsign as [-> | ->]; simpl String.append; simpl String.eqb.
  - now rewrite (NumberFacts.py_int_digits ds Hne Hall Hlen).
  - now rewrite (NumberFacts.py_int_minus_digits ds Hne Hall Hlen).
Qed.

(** Beyond the limit of [int], a string of digits is no number. *)
Lemma long_int_literal (a sign ds : string) :
  sign = EmptyString \/ sign = "-" ->
  ds <> EmptyString -> all_digits ds = true ->
  INT_MAX_STR_DIGITS < Z.of_nat (String.length ds) ->
  PyStr.strip a = (sign ++ ds)%string ->
  _attempt_boolean (PyStr.strip a) = None /\
  _attempt_number (PyStr.strip a) = None.
Proof.
  intros Hsign Hne Hall Hlen Hs.
  destruct (int_literal_shape a sign ds Hsign Hne Hall Hs) as [Hb Hn].
  split; [exact Hb|]. rewrite Hn.
  destruct Hsign as [-> | ->]; simpl String.append.
  - now rewrite (NumberFacts.py_int_of_digits ds Hne Hall),
      (NumberFacts.beyond_limit ds Hlen).
  - now rewrite (NumberFacts.py_int_of_minus_digits ds Hne Hall),
      (NumberFacts.beyond_limit ds Hlen).
Qed.

Lemma normalize_float_literal (a sign ip fp : string) :
  sign = EmptyString \/ sign = "-" ->
  ip <> EmptyString -> fp <> EmptyString ->
  all_digits ip = true -> all_digits fp = true ->
  PyStr.strip a = (sign ++ ip ++ "." ++ fp)%string ->
  _attempt_boolean (PyStr.strip a) = None /\
  _attempt_number (PyStr.strip a) = Some (VFloat (py_float (PyStr.strip a))).
Proof.
  intros Hsign Hip Hfp Hi Hf Hs.
  assert (Hfix : PyStr.strip (sign ++ ip ++ "." ++ fp)%string =
                 (sign ++ ip ++ "." ++ fp)%string).
  { rewrite <- Hs. apply StripFacts.strip_idem. }
  rewrite Hs. split.
  - destruct Hsign as [-> | ->]; simpl in *.
    + destruct ip as [|c r]; [contradiction|].
      apply NumberFacts.boolean_words_need_letter; [|exact Hfix].
      unfold all_digits in Hi. simpl in Hi.
      apply andb_prop in Hi as [-> _]. reflexivity.
    + apply NumberFacts.boolean_words_need_letter; [reflexivity|exact Hfix].
  - unfold _attempt_number. rewrite Hfix.
    rewrite (NumberFacts.fullmatch_int_rejects_float sign ip fp Hsign).
    rewrite (NumberFacts.fullmatch_float sign ip fp Hsign Hip Hfp Hi Hf).
    reflexivity.
Qed.

End NormalizeNumbers.

Module FloatFacts.

Lemma split_point_digits (ip fp : string) :
  all_digits ip = true ->
  split_point (ip ++ "." ++ fp)%string = Some (ip, fp).
Proof.
  unfold all_digits. induction ip as [|c ip IH]; simpl in *; intros H.
  - reflexivity.
  - apply andb_prop in H as [Hc Hip]. rewrite (IH Hip).
    destruct (Ascii.eqb_spec c "."); [subst c; discriminate Hc|reflexivity].
Qed.

Lemma all_digits_app (x y : string) :
  all_digits x = true -> all_digits y = true ->
  all_digits (x ++ y)%string = true.
Proof.
  unfold all_digits. intros Hx Hy. rewrite las_app, forallb_app, Hx, Hy.
  reflexivity.
Qed.

Lemma digit_is_no_minus (c : ascii) (r : string) :
  PyStr.is_digit c = true ->
  literal_sign (String c r) = (false, String c r).
Proof.
  destruct c as [[] [] [] [] [] [] [] []]; intros H;
    try (vm_compute in H; discriminate H); reflexivity.
Qed.

(** [float] of a decimal literal is the double nearest to the quotient of
    its digits, read as an integer, by the power of ten of its fraction
    digits. *)
Lemma py_float_literal (sign ip fp : string) :
  sign = EmptyString \/ sign = "-" ->
  ip <> EmptyString -> fp <> EmptyString ->
  all_digits ip = true -> all_digits fp = true ->
  py_float (sign ++ ip ++ "." ++ fp)%string =
  decimal_to_float (String.eqb sign "-") (decimal_value (ip ++ fp))
    (String.length fp).
Proof.
  intros Hsign Hip Hfp Hi Hf.
  assert (Hval : digits_val 0 (ip ++ fp)%string =
                 Some (decimal_value (ip ++ fp))).
  { apply (NumberFacts.digits_val_spec _ 0), all_digits_app; assumption. }
  assert (Hbody : match split_point (ip ++ "." ++ fp)%string with
                  | Some (ip0, fp0) =>
                      match ip0, fp0, digits_val 0 (ip0 ++ fp0)%string with
                      | String _ _, String _ _, Some n =>
                          decimal_to_float (String.eqb sign "-") n
                            (String.length fp0)
                      | _, _, _ => nan
                      end
                  | None => nan
                  end =
                  decimal_to_float (String.eqb sign "-")
                    (decimal_value (ip ++ fp)) (String.length fp)).
  { rewrite (split_point_digits ip fp Hi). cbv beta iota.
    destruct ip as [|c r]; [contradiction|].
    destruct fp as [|d t]; [contradiction|].
    rewrite Hval. reflexivity. }
  unfold py_float. destruct Hsign as [-> | ->].
  - destruct ip as [|c r]; [contradiction|].
    simpl String.append at 1.
    assert (Hc : PyStr.is_digit c = true).
    { unfold all_digits in Hi. simpl in Hi.
      apply andb_prop in Hi as [Hc _]. exact Hc. }
    change ((String c r ++ "." ++ fp)%string)
      with (String c (r ++ "." ++ fp)%string) in Hbody |- *.
    rewrite (digit_is_no_minus c _ Hc). exact Hbody.
  - change (literal_sign ("-" ++ ip ++ "." ++ fp)%string)
      with (true, (ip ++ "." ++ fp)%string).
    exact Hbody.
Qed.

End FloatFacts.

(** C7, as stated, fails on long literals: [int] refuses a string of more
    than 4300 digits, [_attempt_number] turns that error into [None], and
    the string is returned as it is. *)
Lemma normalize_long_integer_string :
  all_digits (repeat_char "7" (Z.to_nat 4301)) = true /\
  _normalize_answer_for_submission (L := Mock.lib)
    (VStr (repeat_char "7" (Z.to_nat 4301))) =
    VStr (repeat_char "7" (Z.to_nat 4301)).
Proof. split; vm_compute; reflexivity. Qed.

(** C7, amended.  A string whose trimmed form is an optional minus sign
    followed by at most 4300 digits normalizes to the integer the digits
    denote (negated under the sign); with more digits [_attempt_number]
    answers [None] and, when the JSON parse fails as well, the trimmed
    string is returned.  A string whose trimmed form is an optional minus
    sign, digits, a point and digits normalizes to the float Python reads
    from that literal: the double nearest to the quotient of its digits by
    the power of ten of its fraction.  The boolean-word test, applied
    first, answers [None] on both shapes. *)
Theorem normalize_numeric_strings {L : PyLib} (a : string) :
  (forall sign ds,
      sign = EmptyString \/ sign = "-" ->
      ds <> EmptyString -> all_digits ds = true ->
      PyStr.strip a = (sign ++ ds)%string ->
      _attempt_boolean (PyStr.strip a) = None /\
      (Z.of_nat (String.length ds) <= INT_MAX_STR_DIGITS ->
       _normalize_answer_for_submission (VStr a) =
         VInt (if String.eqb sign "-" then - decimal_value ds
               else decimal_value ds)) /\
      (INT_MAX_STR_DIGITS < Z.of_nat (String.length ds) ->
       _attempt_number (PyStr.strip a) = None /\
       forall e,
         json_loads (PyStr.strip a) = Raise e ->
         _normalize_answer_for_submission (VStr a) =
           VStr (PyStr.strip a))) /\
  (forall sign ip fp,
      sign = EmptyString \/ sign = "-" ->
      ip <> EmptyString -> fp <> EmptyString ->
      all_digits ip = true -> all_digits fp = true ->
      PyStr.strip a = (sign ++ ip ++ "." ++ fp)%string ->
      _attempt_boolean (PyStr.strip a) = None /\
      _normalize_answer_for_submission (VStr a) =
        VFloat (py_float (PyStr.strip a)) /\
      py_float (PyStr.strip a) =
        decimal_to_float (String.eqb sign "-") (decimal_value (ip ++ fp))
          (String.length fp)).
Proof.
  split.
  - intros sign ds Hsign Hne Hall Hs.
    destruct (int_literal_shape a sign ds Hsign Hne Hall Hs) as [Hb _].
    split; [exact Hb|]. split.
    + intros Hlen.
      destruct (normalize_int_literal a sign ds Hsign Hne Hall Hlen Hs)
        as [_ Hn].
      unfold _normalize_answer_for_submission. rewrite Hb, Hn. reflexivity.
    + intros Hlen.
      destruct (long_int_literal a sign ds Hsign Hne Hall Hlen Hs)
        as [_ Hn].
      split; [exact Hn|]. intros e Hj.
      unfold _normalize_answer_for_submission, _attempt_json_parse.
      rewrite Hb, Hn, Hj. destruct (_ && _)%bool; reflexivity.
  - intros sign ip fp Hsign Hip Hfp Hi Hf Hs.
    destruct (normalize_float_literal a sign ip fp Hsign Hip Hfp Hi Hf Hs)
      as [Hb Hn].
    split; [exact Hb|]. split.
    + unfold _normalize_answer_for_submission. rewrite Hb, Hn. reflexivity.
    + rewrite Hs. apply FloatFacts.py_float_literal; assumption.
Qed.

Lemma normalize_numeric_strings_witness :
  _normalize_answer_for_submission (L := Mock.lib) (VStr "  -0042 ") =
    VInt (-42) /\
  _normalize_answer_for_submission (L := Mock.lib) (VStr " 3.14") =
    VFloat (py_float "3.14") /\
  Prim2SF (py_float "3.14") = S754_finite false 7070651414971679 (-51).
Proof.
  destruct (normalize_numeric_strings (L := Mock.lib) "  -0042 ") as [Hint _].
  destruct (normalize_numeric_strings (L := Mock.lib) " 3.14") as [_ Hfloat].
  split; [|split].
  - refine (proj1 (proj2 (Hint "-" "0042" (or_intror eq_refl) _ eq_refl
                            eq_refl)) _); [discriminate|].
    vm_compute. discriminate.
  - refine (proj1 (proj2 (Hfloat "" "3" "14" (or_introl eq_refl) _ _ eq_refl
                            eq_refl eq_refl))); discriminate.
  - vm_compute. reflexivity.
Defined.

Module DictFacts.

Lemma dict_get_none_keys (k : string) (d : Dict) :
  dict_get k d = None <-> ~ In k (dict_keys d).
Proof.
  induction d as [|[k' v] d IH]; simpl.
  - tauto.
  - destruct (String.eqb_spec k' k) as [->|Hne].
    + split; [discriminate|]. intros H. exfalso. apply H. now left.
    + rewrite IH. tauto.
Qed.

Lemma dict_set_fresh (k : string) (v : Value) (d : Dict) :
  ~ In k (dict_keys d) -> dict_set k v d = d ++ [(k, v)].
Proof.
  induction d as [|[k' v'] d IH]; simpl; intros H; [reflexivity|].
  destruct (String.eqb_spec k' k) as [->|Hne].
  - exfalso. apply H. now left.
  - rewrite IH; [reflexivity|tauto].
Qed.

Lemma dict_set_keys (k : string) (v : Value) (d : Dict) (k' : string) :
  In k' (dict_keys (dict_set k v d)) <-> k' = k \/ In k' (dict_keys d).
Proof.
  induction d as [|[k0 v0] d IH]; simpl.
  - intuition congruence.
  - destruct (String.eqb_spec k0 k) as [->|Hne]; simpl.
    + intuition congruence.
    + rewrite IH. intuition congruence.
Qed.

Lemma dict_set_nodup (k : string) (v : Value) (d : Dict) :
  NoDup (dict_keys d) -> NoDup (dict_keys (dict_set k v d)).
Proof.
  induction d as [|[k0 v0] d IH]; simpl; intros H.
  - constructor; [intros []|constructor].
  - inversion H as [|? ? Hnotin Hnd]; subst.
    destruct (String.eqb_spec k0 k) as [->|Hne]; simpl.
    + constructor; assumption.
    + constructor; [|apply IH; exact Hnd].
      rewrite dict_set_keys. intros [->|Hin]; [congruence|contradiction].
Qed.

Lemma dict_set_values (P : Value -> Prop) (k : string) (v : Value) (d : Dict) :
  P v -> Forall P (dict_values d) -> Forall P (dict_values (dict_set k v d)).
Proof.
  intros Hv. induction d as [|[k0 v0] d IH]; simpl; intros H.
  - constructor; [exact Hv|constructor].
  - inversion H; subst.
    destruct (String.eqb k0 k); simpl; constructor; auto.
Qed.

End DictFacts.

Section NormalizeIdempotence.
Context {L : PyLib}.
Import DictFacts.

Lemma clean_step_nodup acc kv :
  NoDup (dict_keys acc) -> NoDup (dict_keys (clean_step acc kv)).
Proof.
  destruct kv as [k v]. unfold clean_step.
  destruct (is_scalar v); apply dict_set_nodup.
Qed.

Lemma clean_step_scalar acc kv :
  Forall scalar (dict_values acc) ->
  Forall scalar (dict_values (clean_step acc kv)).
Proof.
  destruct kv as [k v]. unfold clean_step.
  destruct (is_scalar v) eqn:E; apply dict_set_values; auto; reflexivity.
Qed.

Lemma clean_step_keys acc kv k :
  In k (dict_keys (clean_step acc kv)) <-> k = fst kv \/ In k (dict_keys acc).
Proof.
  destruct kv as [k0 v]. unfold clean_step.
  destruct (is_scalar v); apply dict_set_keys.
Qed.

Lemma cleaned_invariant (obj : Dict) :
  forall acc,
    NoDup (dict_keys acc) -> Forall scalar (dict_values acc) ->
    let d := fold_left clean_step obj acc in
    NoDup (dict_keys d) /\ Forall scalar (dict_values d) /\
    (forall k, In k (dict_keys d) ->
               In k (dict_keys acc) \/ In k (dict_keys obj)).
Proof.
  induction obj as [|kv obj IH]; intros acc Hnd Hsc; simpl.
  - auto.
  - destruct (IH (clean_step acc kv) (clean_step_nodup _ _ Hnd)
                (clean_step_scalar _ _ Hsc)) as (H1 & H2 & H3).
    repeat split; auto.
    intros k Hin. destruct (H3 k Hin) as [H|H]; [|tauto].
    apply clean_step_keys in H. intuition.
Qed.

(** Cleaning an already clean mapping rebuilds it entry by entry. *)
Lemma clean_rebuilds (d : Dict) :
  forall acc,
    NoDup (dict_keys d) -> Forall scalar (dict_values d) ->
    (forall k, In k (dict_keys d) -> ~ In k (dict_keys acc)) ->
    fold_left clean_step d acc = acc ++ d.
Proof.
  induction d as [|[k v] d IH]; intros acc Hnd Hsc Hdisj; simpl.
  - now rewrite app_nil_r.
  - inversion Hnd as [|? ? Hnotin Hnd']; subst.
    inversion Hsc as [|? ? Hv Hsc']; subst.
    unfold scalar in Hv. simpl in Hv. rewrite Hv.
    rewrite dict_set_fresh by (apply Hdisj; now left).
    rewrite IH; auto.
    + rewrite <- app_assoc. reflexivity.
    + intros k0 Hin. unfold dict_keys. rewrite map_app, in_app_iff. simpl.
      intros [H|[H|[]]].
      * apply (Hdisj k0); [now right|exact H].
      * subst. contradiction.
Qed.

Lemma flatten_unfold (obj : Dict) :
  dict_get "answer" obj = None ->
  _flatten_answer_object obj = VDict (fold_left clean_step obj []).
Proof. unfold _flatten_answer_object. intros ->. reflexivity. Qed.

Lemma flatten_dict_stable (obj d : Dict) :
  _flatten_answer_object obj = VDict d ->
  _flatten_answer_object d = VDict d.
Proof.
  destruct (dict_get "answer" obj) as [v|] eqn:Hans.
  - unfold _flatten_answer_object. rewrite Hans.
    destruct (is_scalar v) eqn:Hv.
    + intros ->. discriminate.
    + destruct (json_dumps v); discriminate.
  - rewrite (flatten_unfold obj Hans). intros Hd. injection Hd as <-.
    destruct (cleaned_invariant obj [] (NoDup_nil _) (Forall_nil _))
      as (Hnd & Hsc & Hkeys).
    rewrite flatten_unfold.
    + f_equal. rewrite clean_rebuilds; auto.
    + apply dict_get_none_keys. intros Hin.
      destruct (Hkeys _ Hin) as [[]|H].
      apply dict_get_none_keys in Hans. contradiction.
Qed.

Lemma attempt_number_scalar (s : string) (n : Value) :
  _attempt_number s = Some n -> exists z f, n = VInt z \/ n = VFloat f.
Proof.
  unfold _attempt_number.
  destruct (Re.fullmatch INT_RE _).
  - destruct (py_int _) as [z|]; [|discriminate].
    intros H; injection H as <-. exists z, PrimFloat.zero. now left.
  - destruct (Re.fullmatch FLOAT_RE _); [|discriminate].
    intros H; injection H as <-. exists 0, (py_float (PyStr.strip s)).
    now right.
Qed.

Lemma normalize_dict_stable (v : Value) (d : Dict) :
  _normalize_answer_for_submission v = VDict d ->
  _normalize_answer_for_submission (VDict d) = VDict d.
Proof.
  destruct v as [|b|z|f|a|l|obj]; simpl; try discriminate.
  - destruct (_attempt_boolean _); [discriminate|].
    destruct (_attempt_number _) as [n|] eqn:Hn.
    + apply attempt_number_scalar in Hn as (z & f & [-> | ->]); discriminate.
    + destruct (_attempt_json_parse _) as [|b|z|f|s|l|j]; try discriminate.
      * destruct (_ && _)%bool; discriminate.
      * apply flatten_dict_stable.
  - apply flatten_dict_stable.
Qed.

(** A string that falls through the three tests is returned trimmed, and
    is a fixed point. *)
Lemma normalize_plain_string (a : string) :
  _attempt_boolean (PyStr.strip a) = None ->
  _attempt_number (PyStr.strip a) = None ->
  _attempt_json_parse (PyStr.strip a) = VNone ->
  _normalize_answer_for_submission (VStr a) = VStr (PyStr.strip a) /\
  _normalize_answer_for_submission (VStr (PyStr.strip a)) =
    VStr (PyStr.strip a).
Proof.
  intros Hb Hn Hj. unfold _normalize_answer_for_submission.
  rewrite StripFacts.strip_idem, Hb, Hn, Hj.
  destruct (_ && _)%bool; auto.
Qed.

End NormalizeIdempotence.

(** C2, as stated, fails: the mapping [{"answer": "true"}] normalizes to
    the string ["true"], taken verbatim from the [answer] key, and that
    string normalizes to the boolean [True].  No library function is
    consulted on the way. *)
Lemma normalize_not_idempotent :
  _normalize_answer_for_submission (L := Mock.lib)
    (VDict [("answer", VStr "true")]) = VStr "true" /\
  _normalize_answer_for_submission (L := Mock.lib)
    (_normalize_answer_for_submission (L := Mock.lib)
       (VDict [("answer", VStr "true")])) = VBool true.
Proof. split; reflexivity. Qed.

(** The same two steps for every implementation of the library. *)
Lemma normalize_answer_true_twice {L : PyLib} :
  _normalize_answer_for_submission (VDict [("answer", VStr "true")]) =
    VStr "true" /\
  _normalize_answer_for_submission (VStr "true") = VBool true.
Proof. split; reflexivity. Qed.

(** C2, amended.  Normalizing the output of the normalizer again returns
    it unchanged when that output is a boolean, a number or a mapping, and
    when it is the trimmed string of the fall-through of the string rule
    (the input string is no boolean word, no numeric literal and no JSON
    document). *)
Theorem normalize_idempotent_on_stable_outputs {L : PyLib} (v : Value) :
  (stable_shape (_normalize_answer_for_submission v) = true ->
   _normalize_answer_for_submission (_normalize_answer_for_submission v) =
   _normalize_answer_for_submission v) /\
  (forall a,
      v = VStr a ->
      _attempt_boolean (PyStr.strip a) = None ->
      _attempt_number (PyStr.strip a) = None ->
      _attempt_json_parse (PyStr.strip a) = VNone ->
      _normalize_answer_for_submission v = VStr (PyStr.strip a) /\
      _normalize_answer_for_submission (_normalize_answer_for_submission v) =
      _normalize_answer_for_submission v).
Proof.
  split.
  - destruct (_normalize_answer_for_submission v) as [|b|z|f|s|l|d] eqn:E;
      simpl; try discriminate; try reflexivity.
    intros _. apply (normalize_dict_stable v d E).
  - intros a -> Hb Hn Hj.
    destruct (normalize_plain_string a Hb Hn Hj) as [H1 H2].
    rewrite H1. auto.
Qed.

Lemma normalize_idempotent_on_stable_outputs_witness :
  (let v := VDict [("b", VList []); ("a", VInt 1); ("c", VNone)] in
   _normalize_answer_for_submission (L := Mock.lib) v =
     VDict [("b", VStr "[]"); ("a", VInt 1); ("c", VStr "None")] /\
   _normalize_answer_for_submission (L := Mock.lib)
     (_normalize_answer_for_submission (L := Mock.lib) v) =
   _normalize_answer_for_submission (L := Mock.lib) v) /\
  (let v := VStr "  hello world " in
   _normalize_answer_for_submission (L := Mock.lib) v = VStr "hello world" /\
   _normalize_answer_for_submission (L := Mock.lib)
     (_normalize_answer_for_submission (L := Mock.lib) v) =
   _normalize_answer_for_submission (L := Mock.lib) v).
Proof.
  split; cbv zeta.
  - split; [reflexivity|].
    apply (proj1 (normalize_idempotent_on_stable_outputs (L := Mock.lib)
                    (VDict [("b", VList []); ("a", VInt 1); ("c", VNone)]))).
    reflexivity.
  - apply (proj2 (normalize_idempotent_on_stable_outputs (L := Mock.lib)
                    (VStr "  hello world ")) "  hello world ");
      reflexivity.
Defined.

(* ================================================================= *)
(** ** The spreadsheet heuristic *)

Module TableFacts.
Import DictFacts.

Lemma filter_non_numeric (pre : list (string * Column)) :
  forallb non_numeric pre = true ->
  filter (fun nc => is_numeric (snd nc)) pre = [].
Proof.
  induction pre as [|nc pre IH]; simpl; [reflexivity|].
  intros H. apply andb_prop in H as [Hc Hpre].
  unfold non_numeric in Hc.
  destruct nc as [n [xs|xs|xs]]; simpl in *; try discriminate Hc. auto.
Qed.

Lemma column_named_first (name : string) (col : Column)
    (pre post : list (string * Column)) :
  ~ In name (map fst pre) ->
  column_named name (pre ++ (name, col) :: post) = Some col.
Proof.
  induction pre as [|[n c] pre IH]; simpl; intros H.
  - now rewrite String.eqb_refl.
  - destruct (String.eqb_spec n name) as [->|Hne]; [exfalso; auto|].
    apply IH. tauto.
Qed.

Lemma column_named_in (name : string) (col : Column)
    (cols : list (string * Column)) :
  NoDup (map fst cols) -> In (name, col) cols ->
  column_named name cols = Some col.
Proof.
  induction cols as [|[n c] cols IH]; simpl; intros Hnd Hin; [contradiction|].
  inversion Hnd as [|? ? Hnotin Hnd']; subst.
  destruct Hin as [Heq|Hin].
  - injection Heq as -> ->. now rewrite String.eqb_refl.
  - destruct (String.eqb_spec n name) as [->|Hne]; [|auto].
    exfalso. apply Hnotin. apply (in_map fst) in Hin. exact Hin.
Qed.

Lemma row_record_build (i : nat) (cols : list (string * Column)) :
  forall acc,
    NoDup (map fst cols) ->
    (forall k, In k (map fst cols) -> ~ In k (dict_keys acc)) ->
    fold_left (fun d nc => dict_set (fst nc) (cell_at (snd nc) i) d) cols acc
    = acc ++ map (row_entry i) cols.
Proof.
  induction cols as [|[n c] cols IH]; intros acc Hnd Hdisj; simpl.
  - now rewrite app_nil_r.
  - inversion Hnd as [|? ? Hnotin Hnd']; subst.
    rewrite dict_set_fresh by (apply Hdisj; now left).
    rewrite IH; auto.
    + rewrite <- app_assoc. reflexivity.
    + intros k Hin. unfold dict_keys. rewrite map_app, in_app_iff. simpl.
      intros [H|[H|[]]].
      * apply (Hdisj k); [now right|exact H].
      * subst. contradiction.
Qed.

Lemma row_record_entries (i : nat) (cols : list (string * Column)) :
  NoDup (map fst cols) -> row_record cols i = map (row_entry i) cols.
Proof.
  intros Hnd. unfold row_record. rewrite row_record_build; auto.
Qed.

Lemma dict_get_row (i : nat) (cols : list (string * Column))
    (name : string) (col : Column) :
  NoDup (map fst cols) -> In (name, col) cols ->
  dict_get name (map (row_entry i) cols) = Some (cell_at col i).
Proof.
  induction cols as [|[n c] cols IH]; simpl; intros Hnd Hin; [contradiction|].
  inversion Hnd as [|? ? Hnotin Hnd']; subst.
  destruct Hin as [Heq|Hin].
  - injection Heq as -> ->. now rewrite String.eqb_refl.
  - destruct (String.eqb_spec n name) as [->|Hne]; [|auto].
    exfalso. apply Hnotin. apply (in_map fst) in Hin. exact Hin.
Qed.

End TableFacts.

Lemma mentions_sum_iff (context_text : string) :
  PyStr.contains "sum" (PyStr.lower context_text) = true <->
  mentions "sum" context_text.
Proof. apply StripFacts.contains_spec. Qed.

Module TruncFacts.

Lemma truncates_finite_value (m : positive) (e mag : Z) :
  0 <= mag ->
  mag * 2 ^ Z.max 0 (- e) <= Z.pos m * 2 ^ Z.max 0 e
    < (mag + 1) * 2 ^ Z.max 0 (- e) ->
  (if 0 <=? e then Z.pos m * 2 ^ e else Z.pos m / 2 ^ (- e)) = mag.
Proof.
  intros Hmag H. destruct (0 <=? e) eqn:E.
  - apply Z.leb_le in E.
    rewrite (Z.max_l 0 (- e)), (Z.max_r 0 e) in H by lia.
    change (2 ^ 0) with 1 in H. lia.
  - apply Z.leb_gt in E.
    rewrite (Z.max_r 0 (- e)), (Z.max_l 0 e) in H by lia.
    change (2 ^ 0) with 1 in H.
    assert (Hpos : 0 < 2 ^ (- e)) by (apply Z.pow_pos_nonneg; lia).
    symmetry. apply (Z.div_unique _ _ _ (Z.pos m - mag * 2 ^ (- e))); lia.
Qed.

Lemma finite_value_truncates (m : positive) (e : Z) :
  let mag := if 0 <=? e then Z.pos m * 2 ^ e else Z.pos m / 2 ^ (- e) in
  0 <= mag /\
  mag * 2 ^ Z.max 0 (- e) <= Z.pos m * 2 ^ Z.max 0 e
    < (mag + 1) * 2 ^ Z.max 0 (- e).
Proof.
  cbv zeta. destruct (0 <=? e) eqn:E.
  - apply Z.leb_le in E.
    rewrite (Z.max_l 0 (- e)), (Z.max_r 0 e) by lia.
    change (2 ^ 0) with 1.
    assert (0 < 2 ^ e) by (apply Z.pow_pos_nonneg; lia). nia.
  - apply Z.leb_gt in E.
    rewrite (Z.max_r 0 (- e)), (Z.max_l 0 e) by lia.
    change (2 ^ 0) with 1.
    assert (Hpos : 0 < 2 ^ (- e)) by (apply Z.pow_pos_nonneg; lia).
    pose proof (Z.div_mod (Z.pos m) (2 ^ (- e)) ltac:(lia)) as Hdm.
    pose proof (Z.mod_pos_bound (Z.pos m) (2 ^ (- e)) Hpos) as Hb.
    assert (0 <= Z.pos m / 2 ^ (- e)) by (apply Z.div_pos; lia).
    split; [assumption|]. nia.
Qed.

(** [int(f)] answers exactly the truncation of a finite float. *)
Lemma py_int_of_float_truncates (f : float) (z : Z) :
  py_int_of_float f = Ok z <-> truncates f z.
Proof.
  unfold py_int_of_float, truncates.
  destruct (Prim2SF f) as [s|s| |s m e].
  - split; [intros H; injection H as <-; reflexivity|intros ->; reflexivity].
  - split; [discriminate|contradiction].
  - split; [discriminate|contradiction].
  - split.
    + intros H. cbv zeta in H.
      pose proof (finite_value_truncates m e) as Hf. cbv zeta in Hf.
      remember (if 0 <=? e then Z.pos m * 2 ^ e else Z.pos m / 2 ^ (- e))
        as mag eqn:Hmag_eq.
      destruct Hf as [Hmag Hb]. destruct s; injection H as <-.
      * rewrite Z.abs_opp, Z.abs_eq by exact Hmag. split; [lia|exact Hb].
      * rewrite Z.abs_eq by exact Hmag. split; [exact Hmag|exact Hb].
    + intros [Hsign Hb].
      rewrite (truncates_finite_value m e (Z.abs z) (Z.abs_nonneg z) Hb).
      destruct s; f_equal; lia.
Qed.

Lemma wrap_int64_spec (z : Z) :
  - 2 ^ 63 <= wrap_int64 z < 2 ^ 63 /\ (wrap_int64 z - z) mod 2 ^ 64 = 0.
Proof.
  unfold wrap_int64.
  pose proof (Z.mod_pos_bound (z + 2 ^ 63) (2 ^ 64) ltac:(lia)) as Hb.
  split; [lia|].
  rewrite (Z.mod_eq (z + 2 ^ 63) (2 ^ 64)) by lia.
  replace (z + 2 ^ 63 - 2 ^ 64 * ((z + 2 ^ 63) / 2 ^ 64) - 2 ^ 63 - z)
    with ((- ((z + 2 ^ 63) / 2 ^ 64)) * 2 ^ 64) by ring.
  apply Z.mod_mul. lia.
Qed.

Lemma wrap_int64_small (z : Z) :
  - 2 ^ 63 <= z < 2 ^ 63 -> wrap_int64 z = z.
Proof.
  intros H. unfold wrap_int64. rewrite Z.mod_small by lia. lia.
Qed.

End TruncFacts.

(** A file that downloads and parses goes through [process_table]. *)
Lemma download_processes_table {L : PyLib} {W : Type} {N : Net W}
    (file_url context_text : string) (w w' : W) (resp : Response)
    (df : DataFrame) :
  http_get (VStr file_url) w = (w', Ok resp) ->
  200 <= status_code resp < 300 ->
  parsed_table file_url resp df ->
  _download_and_process_file file_url context_text w =
    (w', process_table df context_text).
Proof.
  intros Hget Hstatus Hparsed.
  unfold _download_and_process_file, bind. rewrite Hget.
  unfold lift_exc, raise_for_status.
  assert (E : ((200 <=? status_code resp) && (status_code resp <? 300))%bool
              = true).
  { apply andb_true_iff. split; lia. }
  rewrite E.
  destruct Hparsed as [(Hext & decoded & Hdec & Hcsv) | (Hext & Hx & Hxl)].
  - rewrite Hext, Hdec, Hcsv. reflexivity.
  - rewrite Hext.
    assert (Ex : (PyStr.endswith ".xls" (PyStr.lower file_url)
                  || PyStr.endswith ".xlsx" (PyStr.lower file_url))%bool
                 = true).
    { apply orb_true_iff. exact Hx. }
    rewrite Ex, Hxl. reflexivity.
Qed.

Lemma process_table_first_numeric {L : PyLib} (df : DataFrame)
    (context_text : string) (pre post : list (string * Column))
    (name : string) (col : Column) :
  NoDup (map fst (df_columns df)) ->
  mentions "sum" context_text ->
  df_columns df = pre ++ (name, col) :: post ->
  forallb non_numeric pre = true -> is_numeric col = true ->
  process_table df context_text =
    rbind (int_of_column_sum col) (fun z => Ok (VInt z)).
Proof.
  intros Hnd Hsum Hcols Hpre Hcol. apply mentions_sum_iff in Hsum.
  unfold process_table, numeric_columns. rewrite Hsum, Hcols.
  rewrite filter_app, (TableFacts.filter_non_numeric pre Hpre). simpl.
  rewrite Hcol. simpl.
  rewrite TableFacts.column_named_first; [reflexivity|].
  rewrite Hcols, map_app in Hnd. simpl in Hnd.
  apply NoDup_remove_2 in Hnd. intros Hin. apply Hnd.
  apply in_or_app. now left.
Qed.

(** C5, as stated, fails when the sum leaves the range of [int64]: the
    column [9223372036854775807, 1] sums to 9223372036854775808, and the
    heuristic returns -9223372036854775808. *)
Lemma sum_heuristic_wraps_around :
  _download_and_process_file (L := MockDocs.docs_lib)
    (N := Mock.net_fixed MockDocs.csv_large (Mock.reply 200 ""))
    "https://quiz/large.csv" "Sum the column v" tt =
    (tt, Ok (VInt (-9223372036854775808))) /\
  df_columns MockDocs.table_large =
    [("v", IntColumn [9223372036854775807; 1])] /\
  fold_left Z.add [9223372036854775807; 1] 0 = 9223372036854775808.
Proof. repeat split; vm_compute; reflexivity. Qed.

(** C5, amended.  For a file that downloads with a 2xx status and parses
    (as CSV when its URL ends with ".csv" in any letter case, as a
    workbook when it ends with ".xls" or ".xlsx") into a table with
    distinct column names, and any page text: when the text contains "sum"
    in any case of its letters, the first numeric column in column order
    decides.  If it is an integer column the heuristic returns the [int64]
    congruent to the sum of its cells modulo 2^64, which is the sum itself
    when the sum is in the [int64] range.  If it is a float column the
    heuristic returns the float sum of the column cut towards zero, and
    raises when that sum is NaN or infinite.  When the text contains "sum"
    but no column is numeric, or the text lacks "sum", it returns one
    record per row, each mapping every column name to the cell of that
    row. *)
Theorem sum_heuristic_rule {L : PyLib} {W : Type} {N : Net W}
    (file_url context_text : string) (w w' : W) (resp : Response)
    (df : DataFrame) :
  http_get (VStr file_url) w = (w', Ok resp) ->
  200 <= status_code resp < 300 ->
  parsed_table file_url resp df ->
  NoDup (map fst (df_columns df)) ->
  let answer := _download_and_process_file file_url context_text w in
  (mentions "sum" context_text ->
   forall pre name col post,
     df_columns df = pre ++ (name, col) :: post ->
     forallb non_numeric pre = true ->
     (forall xs,
         col = IntColumn xs ->
         (exists r,
             answer = (w', Ok (VInt r)) /\
             - 2 ^ 63 <= r < 2 ^ 63 /\
             (r - fold_left Z.add xs 0) mod 2 ^ 64 = 0) /\
         (- 2 ^ 63 <= fold_left Z.add xs 0 < 2 ^ 63 ->
          answer = (w', Ok (VInt (fold_left Z.add xs 0))))) /\
     (forall xs,
         col = FloatColumn xs ->
         (forall z,
             truncates (float_sum xs) z -> answer = (w', Ok (VInt z))) /\
         (Prim2SF (float_sum xs) = S754_nan ->
          answer =
            (w', Raise (ValueError "cannot convert float NaN to integer"))) /\
         (forall negative,
             Prim2SF (float_sum xs) = S754_infinity negative ->
             answer =
               (w', Raise (mkExn "OverflowError"
                             "cannot convert float infinity to integer"))))) /\
  (~ mentions "sum" context_text \/
   forallb non_numeric (df_columns df) = true ->
   answer = (w', Ok (VList (map VDict (to_dict_records df))))) /\
  (List.length (to_dict_records df) = df_nrows df /\
   forall i row,
     nth_error (to_dict_records df) i = Some row ->
     dict_keys row = map fst (df_columns df) /\
     forall name col,
       In (name, col) (df_columns df) ->
       dict_get name row = Some (cell_at col i)).
Proof.
  intros Hget Hstatus Hparsed Hnd. cbv zeta.
  rewrite (download_processes_table file_url context_text w w' resp df
             Hget Hstatus Hparsed).
  split; [|split].
  - intros Hsum pre name col post Hcols Hpre. split.
    + intros xs ->.
      rewrite (process_table_first_numeric df context_text pre post name
                 (IntColumn xs) Hnd Hsum Hcols Hpre eq_refl).
      unfold int_of_column_sum, int_sum. simpl rbind. split.
      * eexists. split; [reflexivity|]. apply TruncFacts.wrap_int64_spec.
      * intros Hrange. now rewrite TruncFacts.wrap_int64_small.
    + intros xs ->.
      rewrite (process_table_first_numeric df context_text pre post name
                 (FloatColumn xs) Hnd Hsum Hcols Hpre eq_refl).
      unfold int_of_column_sum. split; [|split].
      * intros z Hz. apply TruncFacts.py_int_of_float_truncates in Hz.
        rewrite Hz. reflexivity.
      * intros Hnan. unfold py_int_of_float. rewrite Hnan. reflexivity.
      * intros negative Hinf. unfold py_int_of_float. rewrite Hinf.
        reflexivity.
  - intros [Hno|Hnone]; unfold process_table.
    + destruct (PyStr.contains "sum" (PyStr.lower context_text)) eqn:E;
        [|reflexivity].
      exfalso. apply Hno, mentions_sum_iff, E.
    + unfold numeric_columns.
      rewrite (TableFacts.filter_non_numeric _ Hnone). simpl.
      destruct (PyStr.contains _ _); reflexivity.
  - unfold to_dict_records. split.
    + now rewrite length_map, length_seq.
    + intros i row Hrow. rewrite nth_error_map in Hrow.
      destruct (nth_error (seq 0 (df_nrows df)) i) as [j|] eqn:Hj;
        [|discriminate].
      injection Hrow as <-.
      assert (j = i).
      { assert (Hlt : (i < df_nrows df)%nat).
        { rewrite <- (length_seq (df_nrows df) 0).
          apply nth_error_Some. congruence. }
        pose proof (nth_error_nth _ _ 0%nat Hj) as Hn.
        rewrite seq_nth in Hn by exact Hlt. lia. }
      subst j. rewrite (TableFacts.row_record_entries i _ Hnd). split.
      * unfold dict_keys. rewrite map_map. reflexivity.
      * intros name col Hin. apply TableFacts.dict_get_row; assumption.
Qed.

Lemma sum_heuristic_rule_witness :
  mentions "sum" "Please SUM the values" /\
  _download_and_process_file (L := MockDocs.docs_lib)
    (N := Mock.net_fixed MockDocs.csv_values (Mock.reply 200 ""))
    "https://quiz/data/Values.CSV" "Please SUM the values" tt =
    (tt, Ok (VInt 6)).
Proof.
  assert (Hsum : mentions "sum" "Please SUM the values").
  { exists "please ", " the values". reflexivity. }
  split; [exact Hsum|].
  assert (Hnd : NoDup (map fst (df_columns Mock.table))).
  { repeat constructor; simpl; intuition discriminate. }
  assert (Hparsed : parsed_table (L := MockDocs.docs_lib)
                      "https://quiz/data/Values.CSV"
                      (mkResponse 200 MockDocs.csv_values MockDocs.csv_values)
                      Mock.table).
  { left. split; [reflexivity|]. exists MockDocs.csv_values.
    split; reflexivity. }
  destruct (sum_heuristic_rule (L := MockDocs.docs_lib)
              (N := Mock.net_fixed MockDocs.csv_values (Mock.reply 200 ""))
              "https://quiz/data/Values.CSV" "Please SUM the values" tt tt
              (mkResponse 200 MockDocs.csv_values MockDocs.csv_values)
              Mock.table eq_refl ltac:(simpl; lia) Hparsed Hnd) as [H _].
  destruct (H Hsum
              [("name", ObjectColumn [VStr "a"; VStr "b"; VStr "c"])]
              "value" (IntColumn [1; 2; 3]) [] eq_refl eq_refl) as [Hint _].
  apply (proj2 (Hint [1; 2; 3] eq_refl)). simpl. lia.
Defined.

(* ================================================================= *)
(** ** The inference call *)

Section InferenceFacts.
Context {L : PyLib} {W : Type} {N : Net W} (cfg : Config).

Lemma status_ok_true (resp : Response) :
  200 <= status_code resp < 300 ->
  ((200 <=? status_code resp) && (status_code resp <? 300))%bool = true.
Proof. intros H. apply andb_true_iff. split; lia. Qed.

Lemma status_ok_false (resp : Response) :
  status_code resp < 200 \/ 300 <= status_code resp ->
  ((200 <=? status_code resp) && (status_code resp <? 300))%bool = false.
Proof. intros H. apply andb_false_iff. destruct H; [left|right]; lia. Qed.

(** With token and endpoint configured, the call is its one request
    followed by the reading of the response. *)
Lemma call_aipipe_unfold (messages : Value) (w : W) :
  env_unset (AIPIPE_TOKEN cfg) = false ->
  env_unset (AIPIPE_URL cfg) = false ->
  _call_aipipe cfg messages w =
  match inference_post cfg messages w with
  | (w', Ok resp) =>
      (w',
       match raise_for_status resp with
       | Raise e => Raise e
       | Ok _ =>
           match json_loads (text resp) with
           | Raise e => Raise e
           | Ok (VDict d) =>
               let choices :=
                 match dict_get "choices" d with
                 | Some c => c
                 | None => VList []
                 end in
               if negb (truthy choices) then Ok (VStr "")
               else
                 rbind (py_getitem choices (SubInt 0)) (fun first =>
                 rbind (py_getitem first (SubStr "message")) (fun message =>
                 py_getitem message (SubStr "content")))
           | Ok data => Raise (AttributeError data "get")
           end
       end)
  | (w', Raise e) => (w', Raise e)
  end.
Proof.
  intros Ht Hu. unfold _call_aipipe, inference_post. rewrite Ht, Hu.
  change (false || false)%bool with false. cbv iota zeta.
  unfold bind at 1.
  destruct (http_post _ _ _ w) as [w' [resp|e]]; [|reflexivity].
  unfold bind at 1. unfold lift_exc at 1.
  destruct (raise_for_status resp) as [u|e]; [|reflexivity].
  unfold bind at 1. unfold lift_exc at 1.
  destruct (json_loads (text resp)) as [data|e]; [|reflexivity].
  destruct data as [|b|z|f|s|l|d]; try reflexivity.
  unfold bind at 1. unfold ret at 1. cbv zeta.
  destruct (negb (truthy _)); [reflexivity|].
  unfold bind, lift_exc.
  destruct (py_getitem _ (SubInt 0)) as [first|e]; [|reflexivity].
  simpl rbind.
  destruct (py_getitem first (SubStr "message")) as [message|e];
    reflexivity.
Qed.

End InferenceFacts.

(** C3, as stated, fails on its third case: a 2xx response whose
    [choices] list is empty makes [_call_aipipe] return the empty string,
    not raise. *)
Lemma call_aipipe_empty_choices_returns :
  snd (_call_aipipe (L := Mock.lib)
         (N := Mock.net_fixed "" (Mock.reply 200 Mock.body_no_choices))
         Mock.cfg (VList []) tt) = Ok (VStr "").
Proof. reflexivity. Qed.

(** C3, amended.  Without token or endpoint the call raises before any
    request.  With both configured it makes one request, the POST of the
    model payload to the configured endpoint with the bearer token, and:
    the exception of a request that fails propagates; a response with a
    status outside 2xx raises; a 2xx response whose body is no JSON raises
    the parser's exception, and one whose body is JSON but no object
    raises [AttributeError]; a 2xx response whose JSON object has no
    [choices] key, or a falsy value under it (the empty list, [None], ...),
    makes the call return the empty string. *)
Theorem call_aipipe_outcomes {L : PyLib} {W : Type} {N : Net W}
    (cfg : Config) (messages : Value) (w : W) :
  (env_unset (AIPIPE_TOKEN cfg) = true \/ env_unset (AIPIPE_URL cfg) = true ->
   _call_aipipe cfg messages w =
     (w, Raise (Exception "AIPIPE_TOKEN or AIPIPE_URL not set"))) /\
  (env_unset (AIPIPE_TOKEN cfg) = false ->
   env_unset (AIPIPE_URL cfg) = false ->
   (forall w' e,
       inference_post cfg messages w = (w', Raise e) ->
       _call_aipipe cfg messages w = (w', Raise e)) /\
   (forall w' resp,
       inference_post cfg messages w = (w', Ok resp) ->
       (status_code resp < 200 \/ 300 <= status_code resp ->
        exists e, _call_aipipe cfg messages w = (w', Raise e)) /\
       (200 <= status_code resp < 300 ->
        (forall e,
            json_loads (text resp) = Raise e ->
            _call_aipipe cfg messages w = (w', Raise e)) /\
        (forall data,
            json_loads (text resp) = Ok data ->
            (forall d, data <> VDict d) ->
            _call_aipipe cfg messages w =
              (w', Raise (AttributeError data "get"))) /\
        (forall d,
            json_loads (text resp) = Ok (VDict d) ->
            (dict_get "choices" d = None ->
             _call_aipipe cfg messages w = (w', Ok (VStr ""))) /\
            (forall choices,
                dict_get "choices" d = Some choices ->
                truthy choices = false ->
                _call_aipipe cfg messages w = (w', Ok (VStr ""))))))).
Proof.
  split.
  - intros H. unfold _call_aipipe.
    destruct (env_unset (AIPIPE_TOKEN cfg)), (env_unset (AIPIPE_URL cfg));
      simpl; try reflexivity.
    destruct H; discriminate.
  - intros Ht Hu. rewrite (call_aipipe_unfold cfg messages w Ht Hu).
    split.
    + intros w' e ->. reflexivity.
    + intros w' resp ->. unfold raise_for_status. split.
      * intros Hstatus. rewrite (status_ok_false resp Hstatus). eauto.
      * intros Hstatus. rewrite (status_ok_true resp Hstatus).
        split; [|split].
        -- intros e ->. reflexivity.
        -- intros data -> Hdata.
           destruct data; try reflexivity. exfalso. eapply Hdata; eauto.
        -- intros d ->. split.
           ++ intros ->. reflexivity.
           ++ intros choices -> Hfalsy. cbv zeta. rewrite Hfalsy.
              reflexivity.
Qed.

Lemma call_aipipe_outcomes_witness :
  (snd (_call_aipipe (L := Mock.lib) (N := Mock.net_down)
          Mock.cfg (VList []) tt) = Raise Mock.ConnectError) /\
  (exists e,
      _call_aipipe (L := Mock.lib)
        (N := Mock.net_fixed "" (Mock.reply 503 "busy"))
        Mock.cfg (VList []) tt = (tt, Raise e)) /\
  (_call_aipipe (L := Mock.lib)
     (N := Mock.net_fixed "" (Mock.reply 200 Mock.body_no_choices))
     Mock.cfg (VList []) tt = (tt, Ok (VStr ""))).
Proof.
  split; [|split].
  - destruct (call_aipipe_outcomes (L := Mock.lib) (N := Mock.net_down)
                Mock.cfg (VList []) tt) as [_ H].
    destruct (H eq_refl eq_refl) as [Hdown _].
    rewrite (Hdown tt Mock.ConnectError eq_refl).
    reflexivity.
  - destruct (call_aipipe_outcomes (L := Mock.lib)
                (N := Mock.net_fixed "" (Mock.reply 503 "busy"))
                Mock.cfg (VList []) tt) as [_ H].
    destruct (H eq_refl eq_refl) as (_ & Hresp).
    apply (proj1 (Hresp tt (Mock.reply 503 "busy") eq_refl)).
    right. simpl. lia.
  - destruct (call_aipipe_outcomes (L := Mock.lib)
                (N := Mock.net_fixed "" (Mock.reply 200 Mock.body_no_choices))
                Mock.cfg (VList []) tt) as [_ H].
    destruct (H eq_refl eq_refl) as (_ & Hresp).
    destruct (proj2 (Hresp tt (Mock.reply 200 Mock.body_no_choices) eq_refl))
      as (_ & _ & Hobj); [simpl; lia|].
    apply (proj2 (Hobj [("choices", VList [])] eq_refl) (VList []));
      reflexivity.
Defined.

(* ================================================================= *)
(** ** The chain loop *)

Module MonadFacts.

Lemma bind_ok {S A B} (m : M S A) (k : A -> M S B) s s' b :
  bind m k s = (s', Ok b) ->
  exists s1 a, m s = (s1, Ok a) /\ k a s1 = (s', Ok b).
Proof.
  unfold bind. destruct (m s) as [s1 [a|e]]; [eauto|discriminate].
Qed.

Section Keeps.
Context {W : Type}.

Lemma same_identity_refl (r : StepRecord) : same_identity r r.
Proof. repeat split. Qed.

Lemma same_identity_trans (r1 r2 r3 : StepRecord) :
  same_identity r1 r2 -> same_identity r2 r3 -> same_identity r1 r3.
Proof.
  unfold same_identity. intros (H1 & H2 & H3) (H4 & H5 & H6).
  repeat split; congruence.
Qed.

Lemma keeps_ret {A} (a : A) : keeps (W := W) (ret a).
Proof. intros s s' r H. inversion H. apply same_identity_refl. Qed.

Lemma keeps_raise {A} (e : exn) : keeps (W := W) (A := A) (raise e).
Proof. intros s s' r H. inversion H. apply same_identity_refl. Qed.

Lemma keeps_lift_exc {A} (x : Exc A) : keeps (W := W) (lift_exc x).
Proof. intros s s' r H. inversion H. apply same_identity_refl. Qed.

Lemma keeps_liftW {A} (m : M W A) : keeps (liftW m).
Proof.
  intros s s' r H. unfold liftW in H.
  destruct (m (fst s)) as [w' a]. inversion H. apply same_identity_refl.
Qed.

Lemma keeps_modify (f : StepRecord -> StepRecord) :
  (forall r, same_identity r (f r)) -> keeps (W := W) (modify f).
Proof. intros Hf s s' r H. inversion H. simpl. apply Hf. Qed.

Lemma keeps_bind {A B} (m : M (W * StepRecord) A)
    (k : A -> M (W * StepRecord) B) :
  keeps m -> (forall a, keeps (k a)) -> keeps (bind m k).
Proof.
  intros Hm Hk s s' r H. unfold bind in H.
  destruct (m s) as [s1 [a|e]] eqn:E.
  - eapply same_identity_trans; [eapply Hm; eauto|eapply Hk; eauto].
  - inversion H; subst. eapply Hm; eauto.
Qed.

Lemma keeps_try {A} (m : M (W * StepRecord) A)
    (h : exn -> M (W * StepRecord) A) :
  keeps m -> (forall e, keeps (h e)) -> keeps (try_except m h).
Proof.
  intros Hm Hh s s' r H. unfold try_except in H.
  destruct (m s) as [s1 [a|e]] eqn:E.
  - inversion H; subst. eapply Hm; eauto.
  - eapply same_identity_trans; [eapply Hm; eauto|eapply Hh; eauto].
Qed.

End Keeps.

Ltac keeps_step :=
  first
    [ apply keeps_ret
    | apply keeps_raise
    | apply keeps_lift_exc
    | apply keeps_liftW
    | apply keeps_modify; intros ?; repeat split
    | apply keeps_try; [|intros ?]
    | apply keeps_bind; [|intros ?]
    | match goal with
      | |- keeps (match ?x with _ => _ end) => destruct x
      end ].

End MonadFacts.

Section ChainFacts.
Context {L : PyLib} {W : Type} {N : Net W} (cfg : Config).
Import MonadFacts.

Lemma iteration_body_keeps (email secret : string) (current_url : Value) :
  keeps (iteration_body cfg email secret current_url).
Proof. unfold iteration_body. repeat keeps_step. Qed.

(** An iteration that ends normally has submitted, and its value is the
    next URL read from the parsed response it recorded. *)
Lemma iteration_body_ok (email secret : string) (current_url : Value)
    (s s' : W * StepRecord) (nu : Value) :
  iteration_body cfg email secret current_url s = (s', Ok nu) ->
  exists r0 status answer parsed,
    snd s' = set_next_url nu (set_submission status answer parsed r0) /\
    nu = next_url_of_parsed parsed.
Proof.
  unfold iteration_body. intros H.
  do 8 (apply bind_ok in H as (? & ? & _ & H)).
  unfold bind, modify, ret in H. simpl in H. inversion H; subst. simpl.
  eauto 10.
Qed.

Lemma chain_loop_S (fuel : nat) (email secret : string) (max_steps : Z)
    (current_url : Value) (step_no : Z) (steps : list StepRecord) (w : W) :
  chain_loop cfg (S fuel) email secret max_steps current_url step_no steps w =
  if (truthy current_url && (step_no <? max_steps))%bool then
    match iteration_body cfg email secret current_url
            (w, new_record (step_no + 1) current_url) with
    | ((w', record), Ok next_url) =>
        if negb (truthy next_url) then (w', steps ++ [record])
        else chain_loop cfg fuel email secret max_steps next_url
               (step_no + 1) (steps ++ [record]) w'
    | ((w', record), Raise e) =>
        (w', steps ++ [set_error (exn_str e) record])
    end
  else (w, steps).
Proof. reflexivity. Qed.

(** The loop guard, not the fuel, ends the loop: any two amounts of fuel
    that cover the iterations left give the same run. *)
Lemma chain_loop_enough_fuel (email secret : string) (max_steps : Z) :
  forall fuel1 fuel2 current_url step_no steps w,
    (Z.to_nat (max_steps - step_no) <= fuel1)%nat ->
    (Z.to_nat (max_steps - step_no) <= fuel2)%nat ->
    chain_loop cfg fuel1 email secret max_steps current_url step_no steps w =
    chain_loop cfg fuel2 email secret max_steps current_url step_no steps w.
Proof.
  induction fuel1 as [|fuel1 IH]; intros fuel2 cur step_no steps w H1 H2.
  - destruct fuel2 as [|fuel2]; [reflexivity|].
    rewrite chain_loop_S. simpl.
    assert (E : (step_no <? max_steps) = false) by (apply Z.ltb_ge; lia).
    rewrite E, andb_false_r. reflexivity.
  - destruct fuel2 as [|fuel2].
    + rewrite chain_loop_S. simpl.
      assert (E : (step_no <? max_steps) = false) by (apply Z.ltb_ge; lia).
      rewrite E, andb_false_r. reflexivity.
    + rewrite !chain_loop_S.
      destruct (truthy cur && (step_no <? max_steps))%bool eqn:G;
        [|reflexivity].
      apply andb_prop in G as [_ G]. apply Z.ltb_lt in G.
      destruct (iteration_body cfg email secret cur
                  (w, new_record (step_no + 1) cur)) as [[w' r] [nu|e]];
        [|reflexivity].
      destruct (negb (truthy nu)); [reflexivity|].
      apply IH; lia.
Qed.

Lemma indices_snoc (n : nat) : indices (S n) = indices n ++ [Z.of_nat (S n)].
Proof.
  unfold indices. rewrite seq_S, map_app. reflexivity.
Qed.

Lemma errors_only_last (steps : list StepRecord) (r : StepRecord) :
  Forall (fun s => error s = None) steps ->
  forall i s,
    nth_error (steps ++ [r]) i = Some s -> error s <> None ->
    S i = List.length (steps ++ [r]).
Proof.
  intros Hall i s Hnth Herr. rewrite length_app. simpl.
  destruct (Nat.lt_ge_cases i (List.length steps)) as [Hlt|Hge].
  - rewrite nth_error_app1 in Hnth by exact Hlt.
    rewrite Forall_forall in Hall.
    exfalso. apply Herr, Hall. eapply nth_error_In; eauto.
  - assert (Hi : (i < List.length (steps ++ [r]))%nat).
    { apply nth_error_Some. congruence. }
    rewrite length_app in Hi. simpl in Hi. lia.
Qed.

Lemma no_error_no_index (steps : list StepRecord) :
  Forall (fun s => error s = None) steps ->
  forall i s,
    nth_error steps i = Some s -> error s <> None ->
    S i = List.length steps.
Proof.
  intros Hall i s Hnth Herr. rewrite Forall_forall in Hall.
  exfalso. apply Herr, Hall. eapply nth_error_In; eauto.
Qed.

(** The log invariant of the loop. *)
Lemma chain_loop_log (email secret : string) (max_steps : Z) :
  forall fuel current_url step_no steps w,
    Z.of_nat (List.length steps) = step_no ->
    map step steps = indices (List.length steps) ->
    Forall (fun s => error s = None) steps ->
    let out := snd (chain_loop cfg fuel email secret max_steps current_url
                      step_no steps w) in
    map step out = indices (List.length out) /\
    Z.of_nat (List.length out) <= Z.max step_no max_steps /\
    (forall i s,
        nth_error out i = Some s -> error s <> None ->
        S i = List.length out).
Proof.
  induction fuel as [|fuel IH]; intros cur step_no steps w Hlen Hidx Herr.
  - simpl. repeat split; auto; [lia|]. apply no_error_no_index; exact Herr.
  - rewrite chain_loop_S.
    destruct (truthy cur && (step_no <? max_steps))%bool eqn:G.
    2: { simpl. repeat split; auto; [lia|].
         apply no_error_no_index; exact Herr. }
    apply andb_prop in G as [_ G]. apply Z.ltb_lt in G.
    destruct (iteration_body cfg email secret cur
                (w, new_record (step_no + 1) cur)) as [[w' r] [nu|e]] eqn:Hb;
      pose proof (iteration_body_keeps _ _ _ _ _ _ Hb) as (Hstep & _ & Herr');
      simpl in Hstep, Herr'.
    + assert (Hlen' : Z.of_nat (List.length (steps ++ [r])) = step_no + 1).
      { rewrite length_app. simpl. lia. }
      assert (Hidx' : map step (steps ++ [r]) =
                      indices (List.length (steps ++ [r]))).
      { rewrite map_app, length_app. simpl.
        rewrite Nat.add_1_r, indices_snoc, Hidx, Hstep. do 2 f_equal. lia. }
      assert (Hnone : Forall (fun s => error s = None) (steps ++ [r])).
      { apply Forall_app. split; [exact Herr|]. constructor; auto. }
      destruct (negb (truthy nu)).
      * simpl. repeat split; auto; [lia|].
        apply no_error_no_index; exact Hnone.
      * destruct (IH nu (step_no + 1) (steps ++ [r]) w' Hlen' Hidx' Hnone)
          as (H1 & H2 & H3).
        repeat split; auto. lia.
    + simpl. repeat split.
      * rewrite map_app, length_app. simpl.
        rewrite Nat.add_1_r, indices_snoc, Hidx, Hstep. do 2 f_equal. lia.
      * rewrite length_app. simpl. lia.
      * apply errors_only_last; exact Herr.
Qed.

(** A chain that never ends on its own runs to the cap. *)
Lemma chain_loop_to_cap (email secret : string) (max_steps : Z)
    (Inv : W -> Value -> Prop) :
  (forall w u,
      Inv w u ->
      truthy u = true /\
      exists w' u',
        Inv w' u' /\
        forall k, exists r,
            iteration_body cfg email secret u (w, new_record k u) =
              ((w', r), Ok u') /\ accepted r) ->
  forall fuel current_url step_no steps w,
    Inv w current_url ->
    0 <= step_no <= max_steps ->
    Z.to_nat (max_steps - step_no) = fuel ->
    Z.of_nat (List.length steps) = step_no ->
    Forall accepted steps ->
    let out := snd (chain_loop cfg fuel email secret max_steps current_url
                      step_no steps w) in
    Z.of_nat (List.length out) = max_steps /\ Forall accepted out.
Proof.
  intros Hinv.
  induction fuel as [|fuel IH]; intros cur step_no steps w HI Hr Hf Hlen Hacc.
  - simpl. split; [lia|exact Hacc].
  - rewrite chain_loop_S.
    destruct (Hinv w cur HI) as (Ht & w' & u' & HI' & Hbody).
    destruct (Hbody (step_no + 1)) as (r & Hb & Hr').
    assert (G : (step_no <? max_steps) = true) by (apply Z.ltb_lt; lia).
    rewrite Ht, G, Hb. simpl andb. cbv iota.
    destruct (Hinv w' u' HI') as (Ht' & _). rewrite Ht'. simpl negb. cbv iota.
    apply IH; auto; try lia.
    + rewrite length_app. simpl. lia.
    + apply Forall_app. split; [exact Hacc|]. constructor; auto.
Qed.

End ChainFacts.

Lemma accepted_iff (s : StepRecord) :
  (status_or_500 s <? 400) = true <-> accepted s.
Proof.
  unfold status_or_500, accepted. destruct (submit_status s) as [c|].
  - rewrite Z.ltb_lt. split.
    + intros H. exists c. auto.
    + intros (c' & Hc & Hlt). congruence.
  - split; [discriminate|]. intros (c & Hc & _). discriminate.
Qed.

Lemma forallb_accepted (steps : list StepRecord) :
  forallb (fun s => status_or_500 s <? 400) steps = true <->
  Forall accepted steps.
Proof.
  rewrite forallb_forall, Forall_forall.
  split; intros H s Hin; apply accepted_iff, H, Hin.
Qed.

Section SolveQuizFacts.
Context {L : PyLib} {W : Type} {N : Net W} (cfg : Config).

Lemma solve_quiz_unfold (email secret : string) (url : Value)
    (required_min_steps max_steps : Z) (w : W) :
  solve_quiz cfg email secret url required_min_steps max_steps w =
  let run := chain_loop cfg (Z.to_nat max_steps) email secret max_steps url 0
               [] w in
  (fst run,
   mkChainResult
     (if forallb (fun s => status_or_500 s <? 400) (snd run)
      then "chain_completed" else "chain_with_errors")
     (Z.of_nat (List.length (snd run)))
     (required_min_steps <=? Z.of_nat (List.length (snd run)))
     (snd run)).
Proof.
  unfold solve_quiz.
  destruct (chain_loop cfg (Z.to_nat max_steps) email secret max_steps url 0
              [] w) as [w' steps].
  reflexivity.
Qed.

(** The fuel given by [solve_quiz] is enough: more fuel changes nothing. *)
Lemma solve_quiz_fuel (email secret : string) (url : Value)
    (max_steps : Z) (w : W) (fuel : nat) :
  (Z.to_nat max_steps <= fuel)%nat ->
  chain_loop cfg fuel email secret max_steps url 0 [] w =
  chain_loop cfg (Z.to_nat max_steps) email secret max_steps url 0 [] w.
Proof.
  intros H. apply chain_loop_enough_fuel; rewrite Z.sub_0_r; auto.
Qed.

End SolveQuizFacts.

(** C1, as stated, fails when an iteration raises before it submits: its
    record has no submission status, so every recorded status is below
    400, yet the outcome is "chain_with_errors".  Here the first page
    cannot be fetched. *)
Lemma unreachable_page_is_not_completed :
  let r := snd (solve_quiz (L := Mock.lib) (N := Mock.net_down) Mock.cfg
                  "user@example.com" "s3cret" (VStr "https://quiz/start")
                  3 10 tt) in
  Forall (fun s => forall c, submit_status s = Some c -> c < 400) (steps r) /\
  List.length (steps r) = 1%nat /\
  result r = "chain_with_errors".
Proof.
  cbv zeta. split; [|split; reflexivity].
  repeat constructor. simpl. discriminate.
Qed.

(** C1, amended.  The outcome is "chain_completed" exactly when every
    step record carries a submission status and that status is below 400
    (a record without one counts as 500), and "chain_with_errors"
    otherwise.  In a world where every iteration submits with a status
    below 400 and is given a next URL, the run with a cap
    [max_steps >= 0] ends with exactly [max_steps] records and the outcome
    "chain_completed". *)
Theorem solve_quiz_outcome {L : PyLib} {W : Type} {N : Net W} (cfg : Config)
    (email secret : string) (url : Value) (required_min_steps max_steps : Z)
    (w : W) :
  let r := snd (solve_quiz cfg email secret url required_min_steps
                  max_steps w) in
  (result r = "chain_completed" <-> Forall accepted (steps r)) /\
  (result r = "chain_with_errors" <-> ~ Forall accepted (steps r)) /\
  (forall Inv : W -> Value -> Prop,
      Inv w url ->
      (forall w u,
          Inv w u ->
          truthy u = true /\
          exists w' u',
            Inv w' u' /\
            forall k, exists r,
                iteration_body cfg email secret u (w, new_record k u) =
                  ((w', r), Ok u') /\ accepted r) ->
      0 <= max_steps ->
      List.length (steps r) = Z.to_nat max_steps /\
      steps_done r = max_steps /\
      result r = "chain_completed").
Proof.
  cbv zeta. rewrite solve_quiz_unfold. cbv zeta. simpl snd. simpl steps.
  simpl result. simpl steps_done.
  set (out := snd (chain_loop cfg (Z.to_nat max_steps) email secret max_steps
                     url 0 [] w)).
  rewrite <- (forallb_accepted out).
  split; [|split].
  - destruct (forallb _ out); split; congruence.
  - destruct (forallb _ out); split; congruence.
  - intros Inv HI Hinv Hmax.
    destruct (chain_loop_to_cap cfg email secret max_steps Inv Hinv
                (Z.to_nat max_steps) url 0 [] w HI) as [Hlen Hacc];
      try (simpl; lia); auto.
    fold out in Hlen, Hacc.
    apply forallb_accepted in Hacc. rewrite Hacc.
    repeat split; auto. lia.
Qed.

(** In the scripted world where the grader always answers with the next
    URL, every iteration is accepted. *)
Lemma mock_endless_chain (u : Value) (w : unit) :
  u = VStr "https://quiz/start" \/ u = VStr Mock.url_next ->
  truthy u = true /\
  exists (w' : unit) (u' : Value),
    (u' = VStr "https://quiz/start" \/ u' = VStr Mock.url_next) /\
    forall k, exists r,
        iteration_body (L := Mock.lib)
          (N := Mock.net_fixed "tds{abc123}" (Mock.reply 200 Mock.body_next))
          Mock.cfg "user@example.com" "s3cret" u (w, new_record k u) =
          ((w', r), Ok u') /\ accepted r.
Proof.
  destruct w. intros [-> | ->]; (split; [reflexivity|]);
    exists tt, (VStr Mock.url_next); (split; [right; reflexivity|]);
    intros k; eexists; (split; [vm_compute; reflexivity|]);
    exists 200; (split; [reflexivity|lia]).
Qed.

Lemma solve_quiz_outcome_witness :
  let r := snd (solve_quiz (L := Mock.lib)
                  (N := Mock.net_fixed "tds{abc123}"
                          (Mock.reply 200 Mock.body_next))
                  Mock.cfg "user@example.com" "s3cret"
                  (VStr "https://quiz/start") 3 3 tt) in
  List.length (steps r) = 3%nat /\ steps_done r = 3 /\
  result r = "chain_completed".
Proof.
  cbv zeta.
  apply (proj2 (proj2
    (solve_quiz_outcome (L := Mock.lib)
       (N := Mock.net_fixed "tds{abc123}" (Mock.reply 200 Mock.body_next))
       Mock.cfg "user@example.com" "s3cret" (VStr "https://quiz/start")
       3 3 tt))
    (fun _ u => u = VStr "https://quiz/start" \/ u = VStr Mock.url_next)).
  - left. reflexivity.
  - intros w u. apply mock_endless_chain.
  - lia.
Defined.

(** C9.  Called with [max_steps <= 0], or with the empty string as start
    URL, [solve_quiz] performs no iteration and leaves the world as it
    was: the outcome is "chain_completed", [steps_done] is 0, the step
    sequence is empty and [meets_required_steps] is the truth value of
    [0 >= required_min_steps]. *)
Theorem solve_quiz_zero_steps {L : PyLib} {W : Type} {N : Net W}
    (cfg : Config) (email secret : string) (url : Value)
    (required_min_steps max_steps : Z) (w : W) :
  max_steps <= 0 \/ url = VStr "" ->
  solve_quiz cfg email secret url required_min_steps max_steps w =
  (w, mkChainResult "chain_completed" 0 (required_min_steps <=? 0) []).
Proof.
  intros H. rewrite solve_quiz_unfold.
  assert (E : chain_loop cfg (Z.to_nat max_steps) email secret max_steps url
                0 [] w = (w, [])).
  { destruct (Z.to_nat max_steps) as [|fuel] eqn:F; [reflexivity|].
    rewrite chain_loop_S. destruct H as [H | ->].
    - lia.
    - reflexivity. }
  rewrite E. reflexivity.
Qed.

Lemma solve_quiz_zero_steps_witness :
  solve_quiz (L := Mock.lib)
    (N := Mock.net_fixed "tds{abc123}" (Mock.reply 200 Mock.body_next))
    Mock.cfg "user@example.com" "s3cret" (VStr "https://quiz/start") 3 0 tt =
    (tt, mkChainResult "chain_completed" 0 false []) /\
  solve_quiz (L := Mock.lib)
    (N := Mock.net_fixed "tds{abc123}" (Mock.reply 200 Mock.body_next))
    Mock.cfg "user@example.com" "s3cret" (VStr "") 0 10 tt =
    (tt, mkChainResult "chain_completed" 0 true []).
Proof.
  split.
  - apply (solve_quiz_zero_steps (L := Mock.lib)
             (N := Mock.net_fixed "tds{abc123}" (Mock.reply 200 Mock.body_next))
             Mock.cfg "user@example.com" "s3cret" (VStr "https://quiz/start")
             3 0 tt).
    left. lia.
  - apply (solve_quiz_zero_steps (L := Mock.lib)
             (N := Mock.net_fixed "tds{abc123}" (Mock.reply 200 Mock.body_next))
             Mock.cfg "user@example.com" "s3cret" (VStr "") 0 10 tt).
    right. reflexivity.
Defined.

(** The loop runs as [chain_run] describes: every iteration, whether it
    ends normally or raises, appends exactly one record. *)
Lemma chain_loop_run {L : PyLib} {W : Type} {N : Net W} (cfg : Config)
    (email secret : string) (max_steps : Z) :
  forall fuel current_url step_no log w,
    (Z.to_nat (max_steps - step_no) <= fuel)%nat ->
    exists rest,
      snd (chain_loop cfg fuel email secret max_steps current_url step_no
             log w) = log ++ rest /\
      chain_run cfg email secret max_steps current_url step_no w
        (fst (chain_loop cfg fuel email secret max_steps current_url step_no
                log w))
        rest.
Proof.
  induction fuel as [|fuel IH]; intros cur k log w Hfuel.
  - exists []. simpl. rewrite app_nil_r. split; [reflexivity|].
    apply run_stop. right. lia.
  - rewrite chain_loop_S.
    destruct (truthy cur) eqn:Hcur.
    2: { exists []. simpl. rewrite app_nil_r. split; [reflexivity|].
         apply run_stop. now left. }
    destruct (k <? max_steps) eqn:G.
    2: { exists []. simpl. rewrite app_nil_r. split; [reflexivity|].
         apply run_stop. right. apply Z.ltb_ge. exact G. }
    apply Z.ltb_lt in G. simpl andb. cbv iota.
    destruct (iteration_body cfg email secret cur (w, new_record (k + 1) cur))
      as [[w' r] [nu|e]] eqn:Hb.
    + destruct (truthy nu) eqn:Hnu; simpl negb; cbv iota.
      * destruct (IH nu (k + 1) (log ++ [r]) w' ltac:(lia))
          as (rest & Hlog & Hrun).
        exists (r :: rest). split.
        -- rewrite Hlog, <- app_assoc. reflexivity.
        -- eapply run_next; eauto.
      * exists [r]. split; [reflexivity|]. eapply run_last; eauto.
    + exists [set_error (exn_str e) r]. split; [reflexivity|].
      eapply run_error; eauto.
Qed.

(** C10, as stated, fails for a negative cap: with [max_steps = -1] no
    iteration runs, [steps_done] is 0, and 0 exceeds the cap. *)
Lemma steps_done_exceeds_negative_cap :
  let r := snd (solve_quiz (L := Mock.lib)
                  (N := Mock.net_fixed "tds{abc123}"
                          (Mock.reply 200 Mock.body_next))
                  Mock.cfg "user@example.com" "s3cret"
                  (VStr "https://quiz/start") 3 (-1) tt) in
  steps_done r = 0 /\ steps r = [] /\ ~ steps_done r <= -1.
Proof. cbv zeta. repeat split; try reflexivity. simpl. lia. Qed.

(** C10, amended.  In every result of [solve_quiz] the step records carry
    the indices 1, 2, ..., [steps_done] in this order, [steps_done] is the
    length of the sequence and never exceeds [max_steps] when the cap is
    not negative (it is 0 when the cap is negative), and a record with an
    error field is the last one, so at most one record has it.  The
    sequence holds exactly one record per iteration of the loop: an
    iteration that ends normally appends its record and the loop goes on
    when the next URL is truthy; an iteration that raises appends its
    record with the error field, and the loop ends there. *)
Theorem step_log_invariant {L : PyLib} {W : Type} {N : Net W} (cfg : Config)
    (email secret : string) (url : Value) (required_min_steps max_steps : Z)
    (w : W) :
  let run := solve_quiz cfg email secret url required_min_steps max_steps w in
  let r := snd run in
  map step (steps r) = indices (List.length (steps r)) /\
  steps_done r = Z.of_nat (List.length (steps r)) /\
  steps_done r <= Z.max 0 max_steps /\
  (forall i s,
      nth_error (steps r) i = Some s -> error s <> None ->
      S i = List.length (steps r)) /\
  (forall i j si sj,
      nth_error (steps r) i = Some si -> error si <> None ->
      nth_error (steps r) j = Some sj -> error sj <> None -> i = j) /\
  chain_run cfg email secret max_steps url 0 w (fst run) (steps r).
Proof.
  cbv zeta. rewrite solve_quiz_unfold. cbv zeta. simpl snd. simpl steps.
  simpl steps_done. simpl fst.
  destruct (chain_loop_log cfg email secret max_steps (Z.to_nat max_steps)
              url 0 [] w eq_refl eq_refl (Forall_nil _)) as (H1 & H2 & H3).
  destruct (chain_loop_run cfg email secret max_steps (Z.to_nat max_steps)
              url 0 [] w ltac:(lia)) as (rest & Hlog & Hrun).
  simpl in Hlog. rewrite <- Hlog in Hrun.
  repeat split; auto.
  intros i j si sj Hi Ei Hj Ej.
  pose proof (H3 i si Hi Ei). pose proof (H3 j sj Hj Ej). lia.
Qed.

Lemma step_log_invariant_witness :
  let r := snd (solve_quiz (L := Mock.lib)
                  (N := Mock.net_fails_after 2 "tds{abc123}"
                          (Mock.reply 200 Mock.body_next))
                  Mock.cfg "user@example.com" "s3cret"
                  (VStr "https://quiz/start") 3 5 0%nat) in
  map step (steps r) = [1; 2] /\
  map error (steps r) = [None; Some "All connection attempts failed"] /\
  steps_done r = 2 /\
  (forall i s,
      nth_error (steps r) i = Some s -> error s <> None ->
      S i = List.length (steps r)).
Proof.
  cbv zeta.
  pose proof (step_log_invariant (L := Mock.lib)
                (N := Mock.net_fails_after 2 "tds{abc123}"
                        (Mock.reply 200 Mock.body_next))
                Mock.cfg "user@example.com" "s3cret"
                (VStr "https://quiz/start") 3 5 0%nat) as H.
  cbv zeta in H. destruct H as (_ & _ & _ & Hlast & _).
  split; [reflexivity|]. split; [reflexivity|]. split; [reflexivity|].
  exact Hlast.
Defined.

(** C4.  When an iteration ends normally and the parsed grading response
    it recorded is a mapping whose "url" value is a string that begins
    with an opening brace and parses as a JSON mapping with a "url" key,
    the next URL of the iteration, also written in its record, is the
    inner "url" value; the loop breaks when that value is falsy and
    otherwise runs its following iteration on it. *)
Theorem nested_next_url {L : PyLib} {W : Type} {N : Net W} (cfg : Config)
    (email secret : string) (current_url : Value) (step_no : Z)
    (w w' : W) (record : StepRecord) (nu : Value)
    (d nested : Dict) (s rest : string) (v : Value) :
  iteration_body cfg email secret current_url
    (w, new_record (step_no + 1) current_url) = ((w', record), Ok nu) ->
  submit_parsed record = Some (VDict d) ->
  dict_get "url" d = Some (VStr s) ->
  s = ("{" ++ rest)%string ->
  json_loads s = Ok (VDict nested) ->
  dict_get "url" nested = Some v ->
  next_url_of_parsed (VDict d) = v /\
  nu = v /\
  next_url record = Some v /\
  forall fuel max_steps steps,
    truthy current_url = true -> step_no < max_steps ->
    chain_loop cfg (S fuel) email secret max_steps current_url step_no steps w
    = if truthy v
      then chain_loop cfg fuel email secret max_steps v (step_no + 1)
             (steps ++ [record]) w'
      else (w', steps ++ [record]).
Proof.
  intros Hbody Hparsed Hurl Hshape Hjson Hinner.
  assert (Hbrace : PyStr.startswith "{" s = true).
  { apply StripFacts.prefix_app. eauto. }
  assert (Hv : next_url_of_parsed (VDict d) = v).
  { unfold next_url_of_parsed. rewrite Hurl, Hbrace, Hjson, Hinner.
    reflexivity. }
  pose proof (iteration_body_ok cfg _ _ _ _ _ _ Hbody)
    as (r0 & status & answer & parsed & Hrec & Hnu).
  simpl in Hrec. rewrite Hrec in Hparsed. simpl in Hparsed.
  injection Hparsed as ->.
  assert (Hnu' : nu = v) by congruence.
  split; [exact Hv|]. split; [exact Hnu'|]. split.
  - rewrite Hrec. simpl. congruence.
  - intros fuel max_steps steps Ht Hlt. rewrite chain_loop_S.
    assert (G : (step_no <? max_steps) = true) by (apply Z.ltb_lt; lia).
    rewrite Ht, G, Hbody, Hnu'. simpl andb. cbv iota.
    destruct (truthy v); reflexivity.
Qed.

Lemma nested_next_url_witness :
  exists record,
    iteration_body (L := Mock.lib)
      (N := Mock.net_fixed "tds{abc123}" (Mock.reply 200 Mock.body_nested))
      Mock.cfg "user@example.com" "s3cret" (VStr "https://quiz/start")
      (tt, new_record (0 + 1) (VStr "https://quiz/start")) =
      ((tt, record), Ok (VStr "https://x/next")) /\
    submit_parsed record = Some (VDict [("url", VStr Mock.body_next)]) /\
    next_url_of_parsed (L := Mock.lib)
      (VDict [("url", VStr Mock.body_next)]) = VStr "https://x/next" /\
    next_url record = Some (VStr "https://x/next").
Proof.
  eexists. split; [vm_compute; reflexivity|]. split; [reflexivity|].
  refine (let H := nested_next_url (L := Mock.lib)
                     (N := Mock.net_fixed "tds{abc123}"
                             (Mock.reply 200 Mock.body_nested))
                     Mock.cfg "user@example.com" "s3cret"
                     (VStr "https://quiz/start") 0 tt tt _
                     (VStr "https://x/next")
                     [("url", VStr Mock.body_next)]
                     [("url", VStr "https://x/next")]
                     Mock.body_next _ (VStr "https://x/next")
                     _ _ _ _ _ _ in
          conj (proj1 H) (proj1 (proj2 (proj2 H))));
    reflexivity.
Defined.

(* ================================================================= *)
(** * Further properties *)

(** ** More on the answer normalizer *)

Lemma str_in_In (v : string) (l : list string) :
  str_in v l = true <-> In v l.
Proof.
  unfold str_in. rewrite existsb_exists. split.
  - intros (x & Hin & Heq). apply String.eqb_eq in Heq. now subst.
  - intros Hin. exists v. split; [exact Hin|apply String.eqb_refl].
Qed.

(** X1.  A string whose trimmed, lower-cased form is "true", "yes" or "y"
    normalizes to [True]; "false", "no" or "n" give [False]. *)
Theorem normalize_boolean_words {L : PyLib} (a : string) :
  (In (PyStr.lower (PyStr.strip a)) ["true"; "yes"; "y"] ->
   _normalize_answer_for_submission (VStr a) = VBool true) /\
  (In (PyStr.lower (PyStr.strip a)) ["false"; "no"; "n"] ->
   _normalize_answer_for_submission (VStr a) = VBool false).
Proof.
  unfold _normalize_answer_for_submission, _attempt_boolean.
  rewrite StripFacts.strip_idem. split; intros H.
  - apply str_in_In in H. rewrite H. reflexivity.
  - assert (E : str_in (PyStr.lower (PyStr.strip a)) ["true"; "yes"; "y"]
                = false).
    { simpl in H. destruct H as [<-|[<-|[<-|[]]]]; reflexivity. }
    apply str_in_In in H. rewrite E, H. reflexivity.
Qed.

Lemma normalize_boolean_words_witness :
  _normalize_answer_for_submission (L := Mock.lib) (VStr "  YeS ") =
    VBool true /\
  _normalize_answer_for_submission (L := Mock.lib) (VStr "N  ") =
    VBool false.
Proof.
  split.
  - apply (proj1 (normalize_boolean_words (L := Mock.lib) "  YeS ")).
    right. left. reflexivity.
  - apply (proj2 (normalize_boolean_words (L := Mock.lib) "N  ")).
    right. right. left. reflexivity.
Defined.

Section NormalizeShapes.
Context {L : PyLib}.

Lemma flatten_never_none (obj : Dict) : _flatten_answer_object obj <> VNone.
Proof.
  unfold _flatten_answer_object.
  destruct (dict_get "answer" obj) as [v|]; [|discriminate].
  destruct (is_scalar v) eqn:E.
  - destruct v; discriminate.
  - destruct (json_dumps v); discriminate.
Qed.

Lemma flatten_dict_inv (obj d : Dict) :
  _flatten_answer_object obj = VDict d ->
  dict_get "answer" obj = None /\ d = fold_left clean_step obj [].
Proof.
  destruct (dict_get "answer" obj) as [v|] eqn:Hans.
  - unfold _flatten_answer_object. rewrite Hans.
    destruct (is_scalar v) eqn:Hv.
    + intros ->. discriminate.
    + destruct (json_dumps v); discriminate.
  - rewrite (flatten_unfold obj Hans). intros H. injection H as <-. auto.
Qed.

Lemma normalize_dict_inv (v : Value) (d : Dict) :
  _normalize_answer_for_submission v = VDict d ->
  exists obj, _flatten_answer_object obj = VDict d.
Proof.
  destruct v as [|b|z|f|a|l|obj]; simpl; try discriminate.
  - destruct (_attempt_boolean _); [discriminate|].
    destruct (_attempt_number _) as [n|] eqn:Hn.
    + apply attempt_number_scalar in Hn as (z & f & [-> | ->]); discriminate.
    + destruct (_attempt_json_parse _) as [|b|z|f|s|l|j]; try discriminate.
      * destruct (_ && _)%bool; discriminate.
      * eauto.
  - eauto.
Qed.

Lemma clean_entries (d : Dict) :
  forall acc,
    NoDup (dict_keys d) ->
    (forall k, In k (dict_keys d) -> ~ In k (dict_keys acc)) ->
    fold_left clean_step d acc = acc ++ map clean_entry d.
Proof.
  induction d as [|[k v] d IH]; intros acc Hnd Hdisj; simpl.
  - now rewrite app_nil_r.
  - inversion Hnd as [|? ? Hnotin Hnd']; subst.
    assert (Hstep : (if is_scalar v then dict_set k v acc
                     else dict_set k (VStr (py_str v)) acc)
                    = acc ++ [clean_entry (k, v)]).
    { unfold clean_entry. simpl.
      destruct (is_scalar v);
        apply DictFacts.dict_set_fresh; apply Hdisj; now left. }
    rewrite Hstep, IH; auto.
    + rewrite <- app_assoc. reflexivity.
    + intros k0 Hin. unfold dict_keys. rewrite map_app, in_app_iff. simpl.
      intros [H|[H|[]]].
      * apply (Hdisj k0); [now right|exact H].
      * subst. contradiction.
Qed.

End NormalizeShapes.

(** X2.  The normalizer never returns [None]. *)
Theorem normalize_never_none {L : PyLib} (v : Value) :
  _normalize_answer_for_submission v <> VNone.
Proof.
  destruct v as [|b|z|f|a|l|obj]; simpl; try discriminate.
  - destruct (_attempt_boolean _); [discriminate|].
    destruct (_attempt_number _) as [n|] eqn:Hn.
    + apply attempt_number_scalar in Hn as (z & f & [-> | ->]); discriminate.
    + destruct (_attempt_json_parse _) as [|b|z|f|s|l|j]; try discriminate.
      * destruct (_ && _)%bool; discriminate.
      * apply flatten_never_none.
  - apply flatten_never_none.
Qed.

(** X3.  A mapping returned by the normalizer is flat: its keys are distinct,
    its values are strings, numbers or booleans, and it has no "answer"
    key. *)
Theorem normalize_mapping_is_flat {L : PyLib} (v : Value) (d : Dict) :
  _normalize_answer_for_submission v = VDict d ->
  NoDup (dict_keys d) /\ Forall scalar (dict_values d) /\
  dict_get "answer" d = None.
Proof.
  intros H. apply normalize_dict_inv in H as [obj H].
  apply flatten_dict_inv in H as [Hans ->].
  destruct (cleaned_invariant obj [] (NoDup_nil _) (Forall_nil _))
    as (Hnd & Hsc & Hkeys).
  repeat split; auto.
  apply DictFacts.dict_get_none_keys. intros Hin.
  destruct (Hkeys _ Hin) as [[]|Hk].
  apply DictFacts.dict_get_none_keys in Hans. contradiction.
Qed.

Lemma normalize_mapping_is_flat_witness :
  _normalize_answer_for_submission (L := Mock.lib)
    (VDict [("n", VInt 1); ("rows", VList []); ("note", VNone)]) =
    VDict [("n", VInt 1); ("rows", VStr "[]"); ("note", VStr "None")] /\
  NoDup (dict_keys
           [("n", VInt 1); ("rows", VStr "[]"); ("note", VStr "None")]) /\
  Forall scalar
    (dict_values [("n", VInt 1); ("rows", VStr "[]"); ("note", VStr "None")]).
Proof.
  split; [reflexivity|].
  destruct (normalize_mapping_is_flat (L := Mock.lib)
              (VDict [("n", VInt 1); ("rows", VList []); ("note", VNone)])
              [("n", VInt 1); ("rows", VStr "[]"); ("note", VStr "None")]
              eq_refl)
    as (H1 & H2 & _).
  split; assumption.
Defined.

(** X4.  On a mapping with distinct keys and no "answer" key the flattening
    keeps the keys in their order, keeps every string, number and boolean
    value, and replaces every other value by its [str()]. *)
Theorem flatten_keeps_entries {L : PyLib} (obj : Dict) :
  NoDup (dict_keys obj) -> dict_get "answer" obj = None ->
  _flatten_answer_object obj = VDict (map clean_entry obj) /\
  dict_keys (map clean_entry obj) = dict_keys obj /\
  (forall k v,
      dict_get k obj = Some v -> is_scalar v = true ->
      dict_get k (map clean_entry obj) = Some v).
Proof.
  intros Hnd Hans. split; [|split].
  - rewrite (flatten_unfold obj Hans), clean_entries; auto.
  - unfold dict_keys. rewrite map_map. reflexivity.
  - intros k v. clear Hnd Hans.
    induction obj as [|[k0 v0] obj IH]; simpl; [discriminate|].
    destruct (String.eqb k0 k).
    + intros H Hv. injection H as ->. now rewrite Hv.
    + exact IH.
Qed.

Lemma flatten_keeps_entries_witness :
  _flatten_answer_object (L := Mock.lib)
    [("count", VInt 3); ("note", VNone); ("ok", VBool true)] =
    VDict [("count", VInt 3); ("note", VStr "None"); ("ok", VBool true)].
Proof.
  refine (proj1 (flatten_keeps_entries (L := Mock.lib)
                   [("count", VInt 3); ("note", VNone); ("ok", VBool true)]
                   _ eq_refl)).
  repeat constructor; simpl; intuition discriminate.
Defined.

(** ** Which strings are numbers *)

Module NumberShapes.
Import Re ReFacts.

Lemma all_digits_sla (run : list ascii) :
  forallb PyStr.is_digit run = true ->
  all_digits (string_of_list_ascii run) = true.
Proof.
  intros H. unfold all_digits.
  now rewrite list_ascii_of_string_of_list_ascii.
Qed.

Lemma sla_nonempty (run : list ascii) :
  (1 <= List.length run)%nat -> string_of_list_ascii run <> EmptyString.
Proof. destruct run; simpl; [lia|discriminate]. Qed.

Ltac shape_facts :=
  repeat match goal with
         | H : lit _ _ = true |- _ => apply Ascii.eqb_eq in H; subst
         | H : forallb PyStr.is_digit ?run = true |- _ =>
             apply all_digits_sla in H
         | H : (1 <= List.length ?run)%nat |- _ => apply sla_nonempty in H
         end.

Lemma fullmatch_int_inv (x : string) :
  fullmatch INT_RE x = true ->
  exists sign ds,
    (sign = EmptyString \/ sign = "-") /\ ds <> EmptyString /\
    all_digits ds = true /\ x = (sign ++ ds)%string.
Proof.
  unfold fullmatch.
  destruct (match_here (INT_RE ++ [Eos]) None [] [] (list_ascii_of_string x))
    as [r|] eqn:Hm; [|discriminate].
  intros _. apply match_here_sound in Hm. simpl in Hm.
  remember (list_ascii_of_string x) as l eqn:Hl.
  ExtractFacts.inv_matches; rewrite app_nil_r in *; shape_facts.
  - exists "-", (string_of_list_ascii run). repeat split; auto.
    apply las_inj. simpl. rewrite list_ascii_of_string_of_list_ascii.
    congruence.
  - exists EmptyString, (string_of_list_ascii run). repeat split; auto.
    apply las_inj. simpl. rewrite list_ascii_of_string_of_list_ascii.
    congruence.
Qed.

Lemma fullmatch_float_inv (x : string) :
  fullmatch FLOAT_RE x = true ->
  exists sign ip fp,
    (sign = EmptyString \/ sign = "-") /\
    ip <> EmptyString /\ fp <> EmptyString /\
    all_digits ip = true /\ all_digits fp = true /\
    x = (sign ++ ip ++ "." ++ fp)%string.
Proof.
  unfold fullmatch.
  destruct (match_here (FLOAT_RE ++ [Eos]) None [] []
              (list_ascii_of_string x)) as [r|] eqn:Hm; [|discriminate].
  intros _. apply match_here_sound in Hm. simpl in Hm.
  remember (list_ascii_of_string x) as l eqn:Hl.
  ExtractFacts.inv_matches; rewrite app_nil_r in *; shape_facts.
  - exists "-", (string_of_list_ascii run), (string_of_list_ascii run0).
    repeat split; auto.
    apply las_inj. simpl.
    rewrite !las_app, !list_ascii_of_string_of_list_ascii. simpl.
    rewrite ?list_ascii_of_string_of_list_ascii. congruence.
  - exists EmptyString, (string_of_list_ascii run),
           (string_of_list_ascii run0).
    repeat split; auto.
    apply las_inj. simpl.
    rewrite !las_app, !list_ascii_of_string_of_list_ascii. simpl.
    rewrite ?list_ascii_of_string_of_list_ascii. congruence.
Qed.

End NumberShapes.

(** X5.  [_attempt_number] converts nothing but numeric literals: when it
    answers, the trimmed string is an optional minus sign and digits, and
    the answer is the integer they denote, or it is an optional minus
    sign, digits, a point and digits, and the answer is the float of that
    literal.  Exponents, a leading plus sign, digit separators and inner
    spaces are all refused. *)
Theorem attempt_number_only_literals {L : PyLib} (s : string) (v : Value) :
  _attempt_number s = Some v ->
  (exists sign ds,
      (sign = EmptyString \/ sign = "-") /\ ds <> EmptyString /\
      all_digits ds = true /\ PyStr.strip s = (sign ++ ds)%string /\
      v = VInt (if String.eqb sign "-" then - decimal_value ds
                else decimal_value ds)) \/
  (exists sign ip fp,
      (sign = EmptyString \/ sign = "-") /\
      ip <> EmptyString /\ fp <> EmptyString /\
      all_digits ip = true /\ all_digits fp = true /\
      PyStr.strip s = (sign ++ ip ++ "." ++ fp)%string /\
      v = VFloat (py_float (PyStr.strip s))).
Proof.
  unfold _attempt_number.
  destruct (Re.fullmatch INT_RE (PyStr.strip s)) eqn:Ei.
  - apply NumberShapes.fullmatch_int_inv in Ei
      as (sign & ds & Hsign & Hne & Hall & Hs).
    intros H. left. exists sign, ds. repeat split; auto.
    rewrite Hs in H.
    destruct Hsign as [-> | ->]; simpl in H |- *.
    + destruct (py_int ds) as [z|e] eqn:Ez; [|discriminate].
      apply (NumberFacts.py_int_value ds z Hne Hall) in Ez. congruence.
    + destruct (py_int (String "-" ds)) as [z|e] eqn:Ez; [|discriminate].
      apply (NumberFacts.py_int_value ds z Hne Hall) in Ez. congruence.
  - destruct (Re.fullmatch FLOAT_RE (PyStr.strip s)) eqn:Ef; [|discriminate].
    apply NumberShapes.fullmatch_float_inv in Ef
      as (sign & ip & fp & Hsign & Hip & Hfp & Hi & Hf & Hs).
    intros H. right. exists sign, ip, fp. repeat split; auto. congruence.
Qed.

Lemma attempt_number_only_literals_witness :
  _attempt_number " -12 " = Some (VInt (-12)) /\
  exists sign ds,
    PyStr.strip " -12 " = (sign ++ ds)%string /\ all_digits ds = true.
Proof.
  split; [reflexivity|].
  destruct (attempt_number_only_literals (L := Mock.lib) " -12 " (VInt (-12))
              eq_refl) as [(sign & ds & _ & _ & Hall & Hs & _) | H].
  - exists sign, ds. split; assumption.
  - exfalso. destruct H as (sign & ip & fp & _ & _ & _ & _ & _ & _ & H).
    discriminate H.
Defined.

Lemma attempt_number_refuses_examples {L : PyLib} :
  _attempt_number "1e5" = None /\ _attempt_number "+7" = None /\
  _attempt_number "1_000" = None /\ _attempt_number "1 2" = None /\
  _attempt_number ".5" = None /\ _attempt_number "5." = None /\
  _attempt_number "" = None.
Proof. repeat split; reflexivity. Qed.

(** ** Strings that hold a JSON object *)

Lemma brace_is_no_number {L : PyLib} (rest : string) :
  PyStr.strip (String "{" rest) = String "{" rest ->
  _attempt_boolean (String "{" rest) = None /\
  _attempt_number (String "{" rest) = None.
Proof.
  intros Hs. split.
  - unfold _attempt_boolean. rewrite Hs. reflexivity.
  - unfold _attempt_number. rewrite Hs. reflexivity.
Qed.

(** X6.  A string whose trimmed form opens with a brace and parses as a JSON
    object is normalized as that object is: the reply of a language model
    that arrives as text is flattened like a mapping. *)
Theorem normalize_json_object_string {L : PyLib} (a rest : string) (j : Dict) :
  PyStr.strip a = String "{" rest ->
  json_loads (PyStr.strip a) = Ok (VDict j) ->
  _normalize_answer_for_submission (VStr a) =
  _normalize_answer_for_submission (VDict j).
Proof.
  intros Hs Hj.
  assert (Hfix : PyStr.strip (String "{" rest) = String "{" rest).
  { rewrite <- Hs. apply StripFacts.strip_idem. }
  destruct (brace_is_no_number rest Hfix) as [Hb Hn].
  unfold _normalize_answer_for_submission, _attempt_json_parse.
  rewrite Hj, Hs, Hb, Hn. reflexivity.
Qed.

Lemma normalize_json_object_string_witness :
  _normalize_answer_for_submission (L := Mock.lib)
    (VStr (String.append "  " Mock.body_correct)) =
  VDict [("correct", VBool true)].
Proof.
  refine (eq_trans
            (normalize_json_object_string (L := Mock.lib)
               (String.append "  " Mock.body_correct) _
               [("correct", VBool true)] eq_refl eq_refl) _).
  reflexivity.
Defined.

(* ================================================================= *)
(** ** More on the secret extractor *)

Module CaptureFacts.
Import Re ReFacts.

(** What each pattern captures, and how much of the subject it needs. *)
Lemma token_capture prev suf r :
  Matches TOKEN_RE prev suf [] suf r ->
  exists post,
    suf = r ++ post /\ (6 <= List.length r)%nat /\
    forallb token_char r = true.
Proof.
  intros H. unfold TOKEN_RE in H. ExtractFacts.inv_matches.
  rewrite ExtractFacts.firstn_prefix. eexists.
  split; [reflexivity|]. split; assumption.
Qed.

Lemma secret_capture prev suf r :
  Matches SECRET_RE prev suf [] suf r ->
  exists lead post,
    suf = lead ++ r ++ post /\ (6 <= List.length lead)%nat /\
    (4 <= List.length r)%nat /\ forallb secret_char r = true.
Proof.
  intros H. unfold SECRET_RE in H. ExtractFacts.inv_matches.
  rewrite ExtractFacts.firstn_prefix.
  exists (c :: c0 :: c1 :: c2 :: c3 :: c4 :: run), s0.
  split; [simpl; rewrite <- ?app_assoc; reflexivity|].
  split; [simpl; lia|]. split; assumption.
Qed.

Lemma tds_capture prev suf r :
  Matches TDS_RE prev suf [] suf r ->
  exists post, suf = r ++ post /\ (6 <= List.length r)%nat.
Proof.
  intros H. apply ExtractFacts.tds_matches_inv in H as [post H].
  destruct H as (t & d & s & body & -> & -> & _ & _ & _ & Hne & _).
  exists post. split.
  - simpl. rewrite <- app_assoc. reflexivity.
  - simpl. rewrite length_app. simpl. destruct body; [contradiction|].
    simpl. lia.
Qed.

(** A successful search cuts the text around its capture. *)
Lemma search_cut (pat : pattern) (text m : string) :
  search pat text = Some m ->
  exists pre suf,
    list_ascii_of_string text = pre ++ suf /\
    Matches pat (last_prev pre None) suf [] suf (list_ascii_of_string m).
Proof.
  unfold search.
  destruct (search_from pat None (list_ascii_of_string text)) as [r|] eqn:Hs;
    [|discriminate].
  simpl. intros H. injection H as <-.
  apply search_from_some in Hs as (pre & suf & Heq & Hm & _).
  exists pre, suf. split; [exact Heq|].
  rewrite list_ascii_of_string_of_list_ascii.
  apply match_here_sound. exact Hm.
Qed.

Lemma cut_string (text m : string) (pre lead post : list ascii) :
  list_ascii_of_string text = pre ++ lead ++ list_ascii_of_string m ++ post ->
  text = (string_of_list_ascii (pre ++ lead) ++ m ++
          string_of_list_ascii post)%string.
Proof.
  intros H. apply las_inj.
  rewrite !las_app, !list_ascii_of_string_of_list_ascii, H, <- !app_assoc.
  reflexivity.
Qed.

End CaptureFacts.

(** X7.  Whatever the extractor returns stands in the text, has at least four
    characters (six unless it follows the word "secret"), and the text has
    at least six characters. *)
Theorem extract_secret_is_substring (text m : string) :
  _extract_secret_from_text text = Some m ->
  (exists pre post, text = (pre ++ m ++ post)%string) /\
  (4 <= String.length m)%nat /\ (6 <= String.length text)%nat /\
  (Re.search TDS_RE text = None -> Re.search TOKEN_RE text = None ->
   forallb secret_char (list_ascii_of_string m) = true) /\
  (Re.search SECRET_RE text = None \/ Re.search TDS_RE text <> None \/
   Re.search TOKEN_RE text <> None -> (6 <= String.length m)%nat).
Proof.
  rewrite extract_secret_cascade. rewrite <- !las_length.
  destruct (Re.search TDS_RE text) as [m1|] eqn:E1.
  - intros H. injection H as ->.
    apply CaptureFacts.search_cut in E1 as (pre & suf & Heq & HM).
    apply CaptureFacts.tds_capture in HM as (post & -> & Hlen).
    split; [|split; [lia|split; [|split; [discriminate|intros _; exact Hlen]]]].
    + exists (string_of_list_ascii (pre ++ [])), (string_of_list_ascii post).
      apply CaptureFacts.cut_string. exact Heq.
    + rewrite Heq, !length_app. lia.
  - destruct (Re.search TOKEN_RE text) as [m2|] eqn:E2.
    + intros H. injection H as ->.
      apply CaptureFacts.search_cut in E2 as (pre & suf & Heq & HM).
      apply CaptureFacts.token_capture in HM as (post & -> & Hlen & Hall).
      split; [|split; [lia|split; [|split; [discriminate|intros _; exact Hlen]]]].
      * exists (string_of_list_ascii (pre ++ [])), (string_of_list_ascii post).
        apply CaptureFacts.cut_string. exact Heq.
      * rewrite Heq, !length_app. lia.
    + intros E3.
      pose proof E3 as Hcut.
      apply CaptureFacts.search_cut in Hcut as (pre & suf & Heq & HM).
      apply CaptureFacts.secret_capture in HM
        as (lead & post & -> & Hlead & Hlen & Hall).
      split; [|split; [lia|split; [|split; [intros _ _; exact Hall|]]]].
      * exists (string_of_list_ascii (pre ++ lead)),
               (string_of_list_ascii post).
        apply CaptureFacts.cut_string. exact Heq.
      * rewrite Heq, !length_app. lia.
      * intros [H|[H|H]]; congruence.
Qed.

Lemma extract_secret_is_substring_witness :
  _extract_secret_from_text "your secret is: wonderful" = Some "secret" /\
  exists pre post, "your secret is: wonderful" = (pre ++ "secret" ++ post)%string.
Proof.
  split; [reflexivity|].
  exact (proj1 (extract_secret_is_substring "your secret is: wonderful"
                  "secret" eq_refl)).
Defined.

(* ================================================================= *)
(** ** Scraping helpers *)

(** X8.  The anchor loop picks the first link, in document order, whose
    trimmed target ends with a spreadsheet extension in any letter case,
    and nothing when no link does. *)
Theorem first_sheet_href_is_first (hrefs : list string) :
  (forall href,
      first_sheet_href hrefs = Some href ->
      exists before h after,
        hrefs = before ++ h :: after /\ href = PyStr.strip h /\
        has_sheet_extension href = true /\
        Forall (fun x => has_sheet_extension (PyStr.strip x) = false) before) /\
  (first_sheet_href hrefs = None <->
   Forall (fun x => has_sheet_extension (PyStr.strip x) = false) hrefs).
Proof.
  induction hrefs as [|h rest [IHsome IHnone]]; simpl.
  - split; [discriminate|]. split; constructor.
  - destruct (has_sheet_extension (PyStr.strip h)) eqn:E; split.
    + intros href H. injection H as <-.
      exists [], h, rest. repeat split; auto.
    + split; [discriminate|]. intros H. inversion H; subst. congruence.
    + intros href H.
      destruct (IHsome href H) as (before & h' & after & -> & Hs & He & Hb).
      exists (h :: before), h', after. repeat split; auto.
    + rewrite IHnone. split; intros H.
      * constructor; assumption.
      * inversion H; assumption.
Qed.

Lemma first_sheet_href_is_first_witness :
  first_sheet_href ["/about"; " data/Report.XLSX "; "x.csv"] =
    Some "data/Report.XLSX" /\
  exists before h after,
    ["/about"; " data/Report.XLSX "; "x.csv"] = before ++ h :: after /\
    "data/Report.XLSX" = PyStr.strip h /\
    has_sheet_extension "data/Report.XLSX" = true /\
    Forall (fun x => has_sheet_extension (PyStr.strip x) = false) before.
Proof.
  split; [reflexivity|].
  exact (proj1 (first_sheet_href_is_first
                  ["/about"; " data/Report.XLSX "; "x.csv"])
           "data/Report.XLSX" eq_refl).
Defined.

(** X9.  The heuristic downloads before it looks at the extension: a file whose
    name ends with none of the three extensions is fetched and then
    refused with "Unsupported file type for heuristic"; a response outside
    2xx and a failed request are raised before any parsing; a CSV whose
    bytes cannot be decoded or parsed raises the library's exception. *)
Theorem download_failures {L : PyLib} {W : Type} {N : Net W}
    (file_url context_text : string) (w w' : W) :
  (forall e,
      http_get (VStr file_url) w = (w', Raise e) ->
      _download_and_process_file file_url context_text w = (w', Raise e)) /\
  (forall resp,
      http_get (VStr file_url) w = (w', Ok resp) ->
      (status_code resp < 200 \/ 300 <= status_code resp ->
       _download_and_process_file file_url context_text w =
         (w', Raise (mkExn "HTTPStatusError" "status outside 2xx"))) /\
      (200 <= status_code resp < 300 ->
       has_sheet_extension file_url = false ->
       _download_and_process_file file_url context_text w =
         (w', Raise (Exception "Unsupported file type for heuristic"))) /\
      (200 <= status_code resp < 300 ->
       PyStr.endswith ".csv" (PyStr.lower file_url) = true ->
       forall e,
         bytes_decode (content resp) = Raise e \/
         (exists decoded,
             bytes_decode (content resp) = Ok decoded /\
             read_csv decoded = Raise e) ->
         _download_and_process_file file_url context_text w =
           (w', Raise e))).
Proof.
  split.
  - intros e Hget. unfold _download_and_process_file, bind.
    rewrite Hget. reflexivity.
  - intros resp Hget. unfold _download_and_process_file, bind.
    rewrite Hget. unfold lift_exc, raise_for_status.
    split; [|split].
    + intros Hst. rewrite (status_ok_false resp Hst). reflexivity.
    + intros Hst Hext. rewrite (status_ok_true resp Hst).
      unfold has_sheet_extension in Hext.
      apply orb_false_iff in Hext as [Hext Hxlsx].
      apply orb_false_iff in Hext as [Hcsv Hxls].
      rewrite Hcsv, Hxls, Hxlsx. reflexivity.
    + intros Hst Hext e [Hdec | (decoded & Hdec & Hcsv)];
        rewrite (status_ok_true resp Hst), Hext, Hdec; [reflexivity|].
      rewrite Hcsv. reflexivity.
Qed.

Lemma download_failures_witness :
  _download_and_process_file (L := Mock.lib)
    (N := Mock.net_fixed "a,b" (Mock.reply 200 ""))
    "https://quiz/data.txt" "sum" tt =
    (tt, Raise (Exception "Unsupported file type for heuristic")) /\
  _download_and_process_file (L := Mock.lib)
    (N := Mock.net_fixed "a,b" (Mock.reply 200 ""))
    "https://quiz/data.CSV" "sum" tt =
    (tt, Raise (mkExn "ParserError" "no table")).
Proof.
  destruct (download_failures (L := Mock.lib)
              (N := Mock.net_fixed "a,b" (Mock.reply 200 ""))
              "https://quiz/data.txt" "sum" tt tt) as [_ H1].
  destruct (download_failures (L := Mock.lib)
              (N := Mock.net_fixed "a,b" (Mock.reply 200 ""))
              "https://quiz/data.CSV" "sum" tt tt) as [_ H2].
  split.
  - apply (proj1 (proj2 (H1 (mkResponse 200 "a,b" "a,b") eq_refl)));
      [simpl; lia|reflexivity].
  - apply (proj2 (proj2 (H2 (mkResponse 200 "a,b" "a,b") eq_refl)));
      [simpl; lia|reflexivity|].
    right. exists "a,b". split; reflexivity.
Defined.

(** ** The page text *)

Module TrimFacts.
Import PyStr.

(** Nothing is left to trim at the right end of [rstrip s]. *)
Lemma rstrip_last (s : string) :
  match rev (list_ascii_of_string (rstrip s)) with
  | c :: _ => is_space c = false
  | [] => True
  end.
Proof.
  induction s as [|c s IH]; simpl; [exact I|].
  destruct (rstrip s) as [|d r] eqn:E.
  - destruct (is_space c) eqn:Hc; simpl; [exact I|exact Hc].
  - simpl in IH |- *.
    destruct (rev (list_ascii_of_string r) ++ [d]) as [|x xs] eqn:Er.
    + destruct (rev (list_ascii_of_string r)); discriminate.
    + simpl. exact IH.
Qed.

Lemma rstrip_first (s : string) (c : ascii) (t : string) :
  s = String c t -> is_space c = false ->
  exists r, rstrip s = String c r.
Proof. intros -> H. apply StripFacts.rstrip_keeps_head. exact H. Qed.

(** The trimmed string neither begins nor ends with white space. *)
Lemma strip_ends (s : string) :
  match list_ascii_of_string (strip s) with
  | c :: _ => is_space c = false
  | [] => True
  end /\
  match rev (list_ascii_of_string (strip s)) with
  | c :: _ => is_space c = false
  | [] => True
  end.
Proof.
  split; [|apply rstrip_last].
  unfold strip. pose proof (StripFacts.lstrip_head s) as H.
  destruct (lstrip s) as [|c t] eqn:E; [exact I|].
  destruct (StripFacts.rstrip_keeps_head c t H) as [r ->]. exact H.
Qed.

(** [s[:n]] is a prefix of [s] of length [min n (len s)]. *)
Lemma take_prefix (n : nat) (s : string) :
  exists rest,
    s = (take n s ++ rest)%string /\
    String.length (take n s) = Nat.min n (String.length s).
Proof.
  unfold take. revert n. induction s as [|c s IH]; intros n.
  - exists EmptyString. destruct n; simpl; auto.
  - destruct n as [|n].
    + exists (String c s). simpl. auto.
    + destruct (IH n) as (rest & Heq & Hlen). exists rest. simpl.
      rewrite <- Heq, Hlen. auto.
Qed.

End TrimFacts.

(** X10.  [_fetch_text] raises on a failed request and on a status outside 2xx;
    otherwise the text it returns is a fixed point of [strip]: it neither
    begins nor ends with white space. *)
Theorem fetch_text_is_trimmed {L : PyLib} {W : Type} {N : Net W}
    (url : Value) (w w' : W) :
  (forall e, http_get url w = (w', Raise e) ->
             _fetch_text url w = (w', Raise e)) /\
  (forall resp,
      http_get url w = (w', Ok resp) ->
      (status_code resp < 200 \/ 300 <= status_code resp ->
       exists e, _fetch_text url w = (w', Raise e)) /\
      (200 <= status_code resp < 300 ->
       exists page_text,
         _fetch_text url w = (w', Ok page_text) /\
         PyStr.strip page_text = page_text /\
         match list_ascii_of_string page_text with
         | c :: _ => PyStr.is_space c = false
         | [] => True
         end /\
         match rev (list_ascii_of_string page_text) with
         | c :: _ => PyStr.is_space c = false
         | [] => True
         end)).
Proof.
  split.
  - intros e Hget. unfold _fetch_text, bind. rewrite Hget. reflexivity.
  - intros resp Hget. unfold _fetch_text, bind. rewrite Hget.
    unfold lift_exc, raise_for_status. split.
    + intros Hst. rewrite (status_ok_false resp Hst). eauto.
    + intros Hst. rewrite (status_ok_true resp Hst). unfold ret.
      eexists. split; [reflexivity|].
      split; [apply StripFacts.strip_idem|apply TrimFacts.strip_ends].
Qed.

Lemma fetch_text_is_trimmed_witness :
  exists page_text,
    _fetch_text (L := Mock.lib)
      (N := Mock.net_fixed "  tds{abc123}  " (Mock.reply 200 ""))
      (VStr "https://quiz/start") tt = (tt, Ok page_text) /\
    PyStr.strip page_text = page_text.
Proof.
  destruct (fetch_text_is_trimmed (L := Mock.lib)
              (N := Mock.net_fixed "  tds{abc123}  " (Mock.reply 200 ""))
              (VStr "https://quiz/start") tt tt) as [_ H].
  destruct (proj2 (H (mkResponse 200 "  tds{abc123}  " "  tds{abc123}  ")
                     eq_refl)) as (page_text & H1 & H2 & _).
  - simpl. lia.
  - exists page_text. split; assumption.
Defined.

(** *** Blank lines *)

Module BlankLineFacts.
Import Re ReFacts.

Lemma newline_is_space (c : ascii) :
  is_newline c = true -> PyStr.is_space c = true.
Proof.
  unfold is_newline. intros H. apply Ascii.eqb_eq in H. subst c.
  reflexivity.
Qed.

(** A greedy loop whose continuation always succeeds takes the longest
    run. *)
Lemma rep_loop_greedy k p :
  (forall pr x, k pr x <> None) ->
  forall s n prev,
    rep_loop k p 0 n prev s =
    k (last_prev (take_while p s) prev) (drop_while p s).
Proof.
  intros Hk. induction s as [|c s IH]; intros n prev; simpl.
  - reflexivity.
  - destruct (p c) eqn:Hp.
    + rewrite IH, last_prev_cons.
      destruct (k (last_prev (take_while p s) (Some c)) (drop_while p s))
        eqn:E; [reflexivity|]. exfalso. eapply Hk; eauto.
    + reflexivity.
Qed.

(** What a match of the blank-line pattern looks like. *)
Lemma blank_match prev s m :
  match_here BLANK_LINES_RE prev s [] s = Some m ->
  exists rest,
    s = m ++ rest /\ (2 <= List.length m)%nat /\
    match rest with
    | c :: _ => PyStr.is_space c = false
    | [] => True
    end.
Proof.
  unfold BLANK_LINES_RE. intros H.
  destruct s as [|c s]; cbn [match_here] in H; [discriminate|].
  destruct (lit (ascii_of_nat 10) c) eqn:Hc; [|discriminate].
  apply rep_loop_sound in H as (run & rest1 & -> & _ & _ & H).
  destruct rest1 as [|c2 s3]; cbn [match_here] in H; [discriminate|].
  destruct (lit (ascii_of_nat 10) c2) eqn:Hc2; [|discriminate].
  rewrite rep_loop_greedy in H by (intros; cbn [match_here]; discriminate).
  cbn [match_here] in H.
  assert (Hs : c :: run ++ c2 :: s3 =
               (c :: run ++ c2 :: take_while PyStr.is_space s3) ++
               drop_while PyStr.is_space s3).
  { simpl. rewrite <- app_assoc. simpl.
    now rewrite take_drop_while. }
  rewrite Hs, ExtractFacts.firstn_prefix in H. injection H as <-.
  exists (drop_while PyStr.is_space s3).
  split; [exact Hs|]. split.
  - simpl. rewrite length_app. simpl. lia.
  - apply drop_while_head.
Qed.

Lemma blank_no_match_double prev s :
  match_here BLANK_LINES_RE prev (nl_char :: nl_char :: s) []
    (nl_char :: nl_char :: s) <> None.
Proof.
  assert (HM : Matches BLANK_LINES_RE prev (nl_char :: nl_char :: s) []
                 (nl_char :: nl_char :: s)
                 (firstn (List.length (nl_char :: nl_char :: s) -
                          List.length s) (nl_char :: nl_char :: s))).
  { unfold BLANK_LINES_RE. apply M_open.
    apply M_chr; [reflexivity|].
    apply (M_rep _ _ _ _ _ _ [] (nl_char :: s)); [reflexivity|simpl; lia|].
    apply M_chr; [reflexivity|].
    apply (M_rep _ _ _ _ _ _ [] s); [reflexivity|simpl; lia|].
    apply M_close. apply M_nil. }
  apply match_here_complete in HM as [r' Hr']. congruence.
Qed.

Lemma blank_needs_newline prev c s :
  is_newline c = false ->
  match_here BLANK_LINES_RE prev (c :: s) [] (c :: s) = None.
Proof.
  unfold is_newline, BLANK_LINES_RE, lit. cbn [match_here]. intros H.
  rewrite Ascii.eqb_sym, H. reflexivity.
Qed.

Lemma three_newlines_cons (a : ascii) (l : list ascii) :
  is_newline a = false \/ head_not_newline l ->
  three_newlines (a :: l) = three_newlines l.
Proof.
  intros H. destruct l as [|b [|c l]]; try reflexivity.
  simpl. destruct H as [H|H]; simpl in H; rewrite H;
    rewrite ?andb_false_r; reflexivity.
Qed.

Lemma three_newlines_cons2 (a b : ascii) (l : list ascii) :
  head_not_newline l ->
  three_newlines (a :: b :: l) = three_newlines l.
Proof.
  intros H. destruct l as [|c l]; [reflexivity|].
  rewrite <- (three_newlines_cons b (c :: l)) by (right; exact H).
  simpl in H. cbn [three_newlines]. rewrite H, andb_false_r. reflexivity.
Qed.

Lemma three_newlines_tail (a : ascii) (l : list ascii) :
  three_newlines (a :: l) = false -> three_newlines l = false.
Proof.
  destruct l as [|b [|c l]]; try reflexivity.
  simpl. intros H. apply orb_false_iff in H as [_ H]. exact H.
Qed.

Lemma three_newlines_suffix (a b : list ascii) :
  three_newlines (a ++ b) = false -> three_newlines b = false.
Proof.
  induction a as [|x a IH]; simpl; [auto|].
  intros H. apply IH. eapply three_newlines_tail; eauto.
Qed.

Lemma three_newlines_prefix (a b : list ascii) :
  three_newlines (a ++ b) = false -> three_newlines a = false.
Proof.
  revert b. induction a as [|x a IH]; intros b H; [reflexivity|].
  destruct a as [|y [|z a]]; try reflexivity.
  simpl in H |- *. apply orb_false_iff in H as [H1 H2].
  rewrite H1. simpl. apply (IH b). exact H2.
Qed.

Lemma sub_from_skip pat repl :
  forall skip prev s,
    exists prev',
      sub_from pat repl skip prev s =
      sub_from pat repl 0 prev' (skipn skip s).
Proof.
  induction skip as [|k IH]; intros prev s.
  - exists prev. reflexivity.
  - destruct s as [|c s]; simpl.
    + exists prev. reflexivity.
    + apply IH.
Qed.

Lemma blank_sub_collapses :
  forall n s prev,
    (List.length s <= n)%nat ->
    three_newlines (blank_sub prev s) = false /\
    (head_not_newline s -> head_not_newline (blank_sub prev s)).
Proof.
  induction n as [|n IH]; intros s prev Hlen.
  - destruct s; [|simpl in Hlen; lia]. simpl. auto.
  - destruct s as [|c s]; [simpl; auto|].
    unfold blank_sub. cbn [sub_from].
    destruct (match_here BLANK_LINES_RE prev (c :: s) [] (c :: s))
      as [m|] eqn:Hm.
    + pose proof (blank_match _ _ _ Hm) as (rest & Hs & Hlen2 & Hrest).
      destruct (is_newline c) eqn:Hc.
      2: { rewrite (blank_needs_newline prev c s Hc) in Hm. discriminate. }
      destruct (sub_from_skip BLANK_LINES_RE [nl_char; nl_char]
                  (List.length m - 1) (Some c) s) as [prev' ->].
      assert (Hskip : skipn (List.length m - 1) s = rest).
      { destruct m as [|x m]; [simpl in Hlen2; lia|].
        simpl in Hs. injection Hs as _ ->.
        simpl. rewrite Nat.sub_0_r, skipn_app, skipn_all, Nat.sub_diag.
        reflexivity. }
      rewrite Hskip.
      assert (Hrlen : (List.length rest <= n)%nat).
      { apply (f_equal (@List.length ascii)) in Hs.
        rewrite length_app in Hs. simpl in Hs, Hlen. lia. }
      destruct (IH rest prev' Hrlen) as [H3 Hhead].
      assert (Hnn : head_not_newline rest).
      { destruct rest as [|d rest]; [exact I|]. simpl.
        destruct (is_newline d) eqn:Hd; [|reflexivity].
        apply newline_is_space in Hd. congruence. }
      specialize (Hhead Hnn). fold (blank_sub prev' rest) in *.
      split.
      * simpl app. rewrite three_newlines_cons2 by exact Hhead. exact H3.
      * simpl. intros Hcn. congruence.
    + assert (Hslen : (List.length s <= n)%nat) by (simpl in Hlen; lia).
      destruct (IH s (Some c) Hslen) as [H3 Hhead].
      fold (blank_sub (Some c) s) in *.
      destruct (is_newline c) eqn:Hc.
      * assert (Hnn : head_not_newline s).
        { destruct s as [|d s]; [exact I|]. simpl.
          destruct (is_newline d) eqn:Hd; [|reflexivity].
          exfalso. unfold is_newline in Hc, Hd.
          apply Ascii.eqb_eq in Hc, Hd. subst c d.
          exact (blank_no_match_double prev s Hm). }
        split.
        -- rewrite three_newlines_cons by (right; auto). exact H3.
        -- simpl. intros Hcn. congruence.
      * split.
        -- rewrite three_newlines_cons by (left; exact Hc). exact H3.
        -- intros _. exact Hc.
Qed.

Lemma lstrip_suffix (s : string) :
  exists t, s = (t ++ PyStr.lstrip s)%string.
Proof.
  induction s as [|c s [t IH]]; simpl.
  - exists EmptyString. reflexivity.
  - destruct (PyStr.is_space c).
    + exists (String c t). simpl. now rewrite <- IH.
    + exists EmptyString. reflexivity.
Qed.

Lemma rstrip_prefix (s : string) :
  exists t, s = (PyStr.rstrip s ++ t)%string.
Proof.
  induction s as [|c s [t IH]]; simpl.
  - exists EmptyString. reflexivity.
  - destruct (PyStr.rstrip s) as [|d r] eqn:E.
    + destruct (PyStr.is_space c).
      * exists (String c s). reflexivity.
      * exists s. reflexivity.
    + exists t. simpl in *. now rewrite <- IH.
Qed.

Lemma strip_keeps_collapsed (s : string) :
  three_newlines (list_ascii_of_string s) = false ->
  three_newlines (list_ascii_of_string (PyStr.strip s)) = false.
Proof.
  intros H. unfold PyStr.strip.
  destruct (lstrip_suffix s) as [t Ht].
  destruct (rstrip_prefix (PyStr.lstrip s)) as [u Hu].
  rewrite Ht, las_app in H. apply three_newlines_suffix in H.
  rewrite Hu, las_app in H. apply three_newlines_prefix in H. exact H.
Qed.

End BlankLineFacts.

(** X11.  The substitution of [_fetch_text] leaves no blank line after a blank
    line: whatever the page, the text it returns never has three line
    feeds in a row. *)
Theorem fetch_text_collapses_blank_lines {L : PyLib} {W : Type} {N : Net W}
    (url : Value) (w w' : W) (page_text : string) :
  _fetch_text url w = (w', Ok page_text) ->
  three_newlines (list_ascii_of_string page_text) = false.
Proof.
  unfold _fetch_text, bind.
  destruct (http_get url w) as [w1 [resp|e]]; [|discriminate].
  unfold lift_exc. destruct (raise_for_status resp); [|discriminate].
  unfold ret. intros H. injection H as _ <-.
  apply BlankLineFacts.strip_keeps_collapsed.
  unfold Re.sub. rewrite list_ascii_of_string_of_list_ascii.
  apply (BlankLineFacts.blank_sub_collapses _ _ None (le_n _)).
Qed.

Lemma fetch_text_collapses_blank_lines_witness :
  let page :=
    concat_str ["Question 1"; nl; " "; nl; nl; "  "; nl; "Add the values";
                nl; nl; nl] in
  _fetch_text (L := Mock.lib) (N := Mock.net_fixed page (Mock.reply 200 ""))
    (VStr "https://quiz/start") tt =
    (tt, Ok (concat_str ["Question 1"; nl; nl; "Add the values"])) /\
  three_newlines
    (list_ascii_of_string (concat_str ["Question 1"; nl; nl; "Add the values"]))
  = false.
Proof.
  cbv zeta. split; [reflexivity|].
  apply (fetch_text_collapses_blank_lines (L := Mock.lib)
           (N := Mock.net_fixed
                   (concat_str ["Question 1"; nl; " "; nl; nl; "  "; nl;
                                "Add the values"; nl; nl; nl])
                   (Mock.reply 200 ""))
           (VStr "https://quiz/start") tt tt).
  reflexivity.
Defined.

(* ================================================================= *)
(** ** More on the inference call *)

Lemma py_getitem_first (x : Value) (others : list Value) :
  py_getitem (VList (x :: others)) (SubInt 0) = Ok x.
Proof.
  unfold py_getitem.
  assert (E : ((0 <=? 0) && (0 <? Z.of_nat (List.length (x :: others))))%bool
              = true).
  { apply andb_true_iff. split; [reflexivity|]. apply Z.ltb_lt.
    simpl List.length. lia. }
  change (0 <? 0) with false. cbv iota zeta. rewrite E. reflexivity.
Qed.

(** X12.  When the request of [_call_aipipe] is answered 2xx with a JSON
    object whose [choices] is a non-empty list headed by an object, the
    call returns the [content] of the [message] of that first choice and
    ignores the other choices; it raises [KeyError] when the first choice
    has no [message], or its [message] no [content]. *)
Theorem call_aipipe_first_choice {L : PyLib} {W : Type} {N : Net W}
    (cfg : Config) (messages : Value) (w w' : W) (resp : Response)
    (d choice : Dict) (others : list Value) :
  env_unset (AIPIPE_TOKEN cfg) = false ->
  env_unset (AIPIPE_URL cfg) = false ->
  inference_post cfg messages w = (w', Ok resp) ->
  200 <= status_code resp < 300 ->
  json_loads (text resp) = Ok (VDict d) ->
  dict_get "choices" d = Some (VList (VDict choice :: others)) ->
  (forall message content,
      dict_get "message" choice = Some (VDict message) ->
      dict_get "content" message = Some content ->
      _call_aipipe cfg messages w = (w', Ok content)) /\
  (forall message,
      dict_get "message" choice = Some (VDict message) ->
      dict_get "content" message = None ->
      _call_aipipe cfg messages w =
        (w', Raise (mkExn "KeyError" "'content'"))) /\
  (dict_get "message" choice = None ->
   _call_aipipe cfg messages w = (w', Raise (mkExn "KeyError" "'message'"))).
Proof.
  intros Ht Hu Hpost Hst Hjson Hchoices.
  rewrite (call_aipipe_unfold cfg messages w Ht Hu), Hpost.
  unfold raise_for_status. rewrite (status_ok_true resp Hst), Hjson.
  cbv zeta. rewrite Hchoices.
  change (negb (truthy (VList (VDict choice :: others)))) with false.
  cbv iota. rewrite py_getitem_first. simpl rbind.
  unfold py_getitem. split; [|split].
  - intros message content -> Hc. simpl rbind. rewrite Hc. reflexivity.
  - intros message -> Hc. simpl rbind. rewrite Hc. reflexivity.
  - intros ->. reflexivity.
Qed.

Lemma call_aipipe_first_choice_witness :
  _call_aipipe (L := MockDocs.docs_lib)
    (N := Mock.net_fixed "" (Mock.reply 200 MockDocs.body_two_choices))
    Mock.cfg (VList []) tt = (tt, Ok (VStr "4")).
Proof.
  refine (proj1 (call_aipipe_first_choice (L := MockDocs.docs_lib)
                   (N := Mock.net_fixed ""
                           (Mock.reply 200 MockDocs.body_two_choices))
                   Mock.cfg (VList []) tt tt
                   (Mock.reply 200 MockDocs.body_two_choices)
                   [("choices",
                     VList [MockDocs.choice "4"; MockDocs.choice "5"])]
                   [("message", VDict [("content", VStr "4")])]
                   [MockDocs.choice "5"]
                   eq_refl eq_refl eq_refl _ eq_refl eq_refl)
            [("content", VStr "4")] (VStr "4") eq_refl eq_refl).
  simpl. lia.
Defined.

Section LlmFacts.
Context {L : PyLib} {W : Type} {N : Net W} (cfg : Config).


End LlmFacts.



(* ================================================================= *)
(** ** The records of a chain *)

Lemma process_table_shape {L : PyLib} (df : DataFrame) (context_text : string)
    (v : Value) :
  process_table df context_text = Ok v -> file_answer v.
Proof.
  unfold process_table, file_answer. intros H.
  destruct (PyStr.contains "sum" (PyStr.lower context_text)).
  - destruct (numeric_columns df) as [|name rest].
    + inversion H. right. eauto.
    + destruct (column_named name (df_columns df)) as [c|]; [|discriminate].
      destruct (int_of_column_sum c) as [z|e]; simpl in H; inversion H.
      left. eauto.
  - inversion H. right. eauto.
Qed.

Lemma download_shape {L : PyLib} {W : Type} {N : Net W}
    (file_url context_text : string) (w w' : W) (v : Value) :
  _download_and_process_file file_url context_text w = (w', Ok v) ->
  file_answer v.
Proof.
  unfold _download_and_process_file. intros H.
  apply MonadFacts.bind_ok in H as (w1 & resp & _ & H).
  apply MonadFacts.bind_ok in H as (w2 & u & _ & H).
  apply MonadFacts.bind_ok in H as (w3 & df & _ & H).
  unfold lift_exc in H. inversion H. eapply process_table_shape; eauto.
Qed.

Lemma file_answer_not_none (v : Value) : file_answer v -> is_none v = false.
Proof. intros [[z ->]|[rows ->]]; reflexivity. Qed.

Lemma submit_ok {L : PyLib} {W : Type} {N : Net W} (cfg : Config)
    (email secret : string) (url answer : Value) (w w' : W)
    (res : SubmitResult) :
  _submit_to_analysis cfg email secret url answer w = (w', Ok res) ->
  sr_submitted_answer res = _normalize_answer_for_submission answer.
Proof.
  unfold _submit_to_analysis. intros H.
  apply MonadFacts.bind_ok in H as (w1 & resp & _ & H).
  inversion H. reflexivity.
Qed.

Lemma nonempty_not_empty (s : string) : PyStr.nonempty s = true -> s <> "".
Proof. intros H ->. discriminate H. Qed.

(** One step of the symbolic run of a computation: the case analysis on
    the first call whose result decides how the run goes on. *)
Ltac run_body H :=
  match type of H with
  | context [match ?x with _ => _ end] =>
      lazymatch x with
      | context [match _ with _ => _ end] => fail
      | _download_and_process_file _ _ _ =>
          let E := fresh "E" in
          destruct x as [? [?|?]] eqn:E;
          [pose proof (file_answer_not_none _ (download_shape _ _ _ _ _ E));
           pose proof (download_shape _ _ _ _ _ E)|]
      | _ => let E := fresh "E" in destruct x eqn:E
      end;
      cbv beta iota zeta in H; cbn [fst snd] in H
  end.

Section BodyFacts.
Context {L : PyLib} {W : Type} {N : Net W} (cfg : Config).

Lemma iteration_body_record (email secret : string) (current_url : Value)
    (k : Z) (w w' : W) (r : StepRecord) (x : Exc Value) :
  iteration_body cfg email secret current_url (w, new_record k current_url)
    = ((w', r), x) ->
  cascade_shape r /\
  match x with
  | Ok nu =>
      next_url r = Some nu /\ known_method r /\
      exists c a p,
        submit_status r = Some c /\ raw_answer r = Some a /\
        submitted_answer r = Some (_normalize_answer_for_submission a) /\
        submit_parsed r = Some p /\ nu = next_url_of_parsed p
  | Raise e =>
      next_url r = None /\ submit_status r = None /\
      submitted_answer r = None /\ submit_parsed r = None
  end.
Proof.
  unfold iteration_body, bind, liftW, modify, ret, try_except, lift_exc,
    new_record.
  cbn [fst snd].
  intros H.
  repeat (run_body H).
  all: try discriminate.
  all: inversion H; subst; clear H.
  all: repeat match goal with
         | E : _submit_to_analysis _ _ _ _ _ _ = (_, Ok _) |- _ =>
             apply submit_ok in E
         | E : PyStr.nonempty _ = true |- _ => apply nonempty_not_empty in E
         end.
  all: unfold cascade_shape, known_method; cbn.
  all: repeat match goal with
         | H : Some _ = _ |- _ => discriminate H
         | H : None = Some _ |- _ => discriminate H
         | H : None <> None |- _ => exfalso; apply H; reflexivity
         | |- _ /\ _ => split
         | |- _ -> _ => intro
         | |- exists _, _ => eexists
         end.
  all: try discriminate; try congruence; try reflexivity; try assumption.
  all: auto.
  all: f_equal; assumption.
Qed.

End BodyFacts.

Section LogFacts.
Context {L : PyLib} {W : Type} {N : Net W} (cfg : Config).

(** A property of the record of every iteration, however it ends, holds
    of every record of the log. *)
Lemma chain_loop_forall (P : StepRecord -> Prop) (email secret : string)
    (max_steps : Z) :
  (forall cur k w w' r x,
      iteration_body cfg email secret cur (w, new_record k cur)
        = ((w', r), x) ->
      match x with
      | Ok _ => P r
      | Raise e => P (set_error (exn_str e) r)
      end) ->
  forall fuel current_url step_no steps w,
    Forall P steps ->
    Forall P (snd (chain_loop cfg fuel email secret max_steps current_url
                     step_no steps w)).
Proof.
  intros Hbody.
  induction fuel as [|fuel IH]; intros cur step_no steps w HP;
    [exact HP|].
  rewrite chain_loop_S.
  destruct (truthy cur && (step_no <? max_steps))%bool; [|exact HP].
  destruct (iteration_body cfg email secret cur
              (w, new_record (step_no + 1) cur)) as [[w' r] [nu|e]] eqn:Hb;
    pose proof (Hbody _ _ _ _ _ _ Hb) as Hr; cbv beta iota in Hr.
  - assert (HP' : Forall P (steps ++ [r])).
    { apply Forall_app. split; [exact HP|]. constructor; auto. }
    destruct (negb (truthy nu)); [exact HP'|]. apply IH, HP'.
  - simpl. apply Forall_app. split; [exact HP|]. constructor; auto.
Qed.

Lemma solve_quiz_forall (P : StepRecord -> Prop) (email secret : string)
    (url : Value) (required_min_steps max_steps : Z) (w : W) :
  (forall cur k w w' r x,
      iteration_body cfg email secret cur (w, new_record k cur)
        = ((w', r), x) ->
      match x with
      | Ok _ => P r
      | Raise e => P (set_error (exn_str e) r)
      end) ->
  Forall P (steps (snd (solve_quiz cfg email secret url required_min_steps
                          max_steps w))).
Proof.
  intros Hbody. rewrite solve_quiz_unfold. cbv zeta. simpl.
  apply chain_loop_forall; [exact Hbody|constructor].
Qed.

Lemma last_record_snoc (steps : list StepRecord) (r : StepRecord) :
  last_record (steps ++ [r]) = Some r.
Proof.
  unfold last_record. rewrite length_app. simpl.
  rewrite Nat.add_1_r. simpl.
  rewrite nth_error_app2 by lia. rewrite Nat.sub_diag. reflexivity.
Qed.

Lemma last_record_nil (steps : list StepRecord) :
  last_record steps = None <-> steps = [].
Proof.
  unfold last_record. split.
  - intros H. apply nth_error_None in H.
    destruct steps; [reflexivity|simpl in H; lia].
  - intros ->. reflexivity.
Qed.

Lemma chained_snoc (start : Value) (steps : list StepRecord)
    (r : StepRecord) :
  chained start steps ->
  match last_record steps with
  | Some l => follows l r
  | None => url r = start
  end ->
  chained start (steps ++ [r]).
Proof.
  intros [Hfirst Hnext] Hlast. split.
  - intros r0 H0. destruct steps as [|s0 steps'].
    + simpl in H0. inversion H0; subst. exact Hlast.
    + apply Hfirst. exact H0.
  - intros i a b Ha Hb.
    destruct (Nat.lt_ge_cases (S i) (List.length steps)) as [Hlt|Hge].
    + rewrite nth_error_app1 in Ha by lia.
      rewrite nth_error_app1 in Hb by lia. eapply Hnext; eauto.
    + assert (Hi : (S i < List.length (steps ++ [r]))%nat).
      { apply nth_error_Some. congruence. }
      rewrite length_app in Hi. simpl in Hi.
      assert (Hlen : List.length steps = S i) by lia.
      rewrite nth_error_app1 in Ha by lia.
      rewrite nth_error_app2 in Hb by lia.
      rewrite Hlen, Nat.sub_diag in Hb. inversion Hb; subst b.
      unfold last_record in Hlast. rewrite Hlen in Hlast. simpl in Hlast.
      rewrite Ha in Hlast. exact Hlast.
Qed.

Lemma chain_loop_chained (start : Value) (email secret : string)
    (max_steps : Z) :
  forall fuel current_url step_no steps w,
    chained start steps ->
    match last_record steps with
    | Some l =>
        next_url l = Some current_url /\ truthy current_url = true /\
        error l = None
    | None => current_url = start
    end ->
    chained start (snd (chain_loop cfg fuel email secret max_steps
                          current_url step_no steps w)).
Proof.
  induction fuel as [|fuel IH]; intros cur step_no steps w Hch Hlast;
    [exact Hch|].
  rewrite chain_loop_S.
  destruct (truthy cur && (step_no <? max_steps))%bool; [|exact Hch].
  destruct (iteration_body cfg email secret cur
              (w, new_record (step_no + 1) cur)) as [[w' r] [nu|e]] eqn:Hb;
    pose proof (iteration_body_keeps _ _ _ _ _ _ _ Hb) as (_ & Hurl & Herr);
    pose proof (iteration_body_record _ _ _ _ _ _ _ _ _ Hb) as [_ Hrec];
    simpl in Hurl, Herr.
  - destruct Hrec as (Hnu & _).
    assert (Hch' : chained start (steps ++ [r])).
    { apply chained_snoc; [exact Hch|].
      destruct (last_record steps) as [l|]; [|congruence].
      destruct Hlast as (H1 & H2 & H3). exists cur. auto. }
    destruct (truthy nu) eqn:Ht; [|exact Hch'].
    apply IH; [exact Hch'|]. rewrite last_record_snoc. auto.
  - simpl. apply chained_snoc; [exact Hch|].
    destruct (last_record steps) as [l|]; [|simpl; congruence].
    destruct Hlast as (H1 & H2 & H3). exists cur. auto.
Qed.

Lemma chain_loop_stop (email secret : string) (max_steps : Z) :
  forall fuel current_url step_no steps w,
    Z.of_nat (List.length steps) = step_no ->
    (Z.to_nat (max_steps - step_no) <= fuel)%nat ->
    let out := snd (chain_loop cfg fuel email secret max_steps current_url
                      step_no steps w) in
    (out = steps /\ (truthy current_url = false \/ max_steps <= step_no)) \/
    (exists l,
        last_record out = Some l /\
        (List.length steps < List.length out)%nat /\
        (error l <> None \/
         (error l = None /\
          exists nu, next_url l = Some nu /\ truthy nu = false) \/
         (error l = None /\ Z.of_nat (List.length out) = max_steps /\
          exists nu, next_url l = Some nu /\ truthy nu = true))).
Proof.
  induction fuel as [|fuel IH]; intros cur step_no steps w Hlen Hfuel.
  - left. split; [reflexivity|]. right. lia.
  - cbv zeta. rewrite chain_loop_S.
    destruct (truthy cur) eqn:Hcur; [|left; split; [reflexivity|now left]].
    destruct (step_no <? max_steps) eqn:G;
      [|left; split; [reflexivity|right; apply Z.ltb_ge; exact G]].
    apply Z.ltb_lt in G. simpl andb. cbv iota. right.
    destruct (iteration_body cfg email secret cur
                (w, new_record (step_no + 1) cur)) as [[w' r] [nu|e]] eqn:Hb;
      pose proof (iteration_body_keeps _ _ _ _ _ _ _ Hb) as (_ & _ & Herr);
      pose proof (iteration_body_record _ _ _ _ _ _ _ _ _ Hb) as [_ Hrec];
      simpl in Herr.
    + destruct Hrec as (Hnu & _).
      assert (Hlen' : Z.of_nat (List.length (steps ++ [r])) = step_no + 1).
      { rewrite length_app. simpl. lia. }
      destruct (truthy nu) eqn:Ht; simpl negb; cbv iota.
      * destruct (IH nu (step_no + 1) (steps ++ [r]) w' Hlen' ltac:(lia))
          as [[Hout Hwhy] | (l & Hl & Hgrow & Hwhy)].
        -- rewrite Hout. exists r. rewrite last_record_snoc.
           split; [reflexivity|]. split; [rewrite length_app; simpl; lia|].
           right. right. split; [exact Herr|]. split.
           ++ destruct Hwhy as [Hwhy|Hwhy]; [congruence|lia].
           ++ eauto.
        -- exists l. split; [exact Hl|]. split; [|exact Hwhy].
           rewrite length_app in Hgrow. simpl in Hgrow. lia.
      * simpl. exists r. rewrite last_record_snoc.
        split; [reflexivity|]. split; [rewrite length_app; simpl; lia|].
        right. left. eauto.
    + simpl. exists (set_error (exn_str e) r). rewrite last_record_snoc.
      split; [reflexivity|]. split; [rewrite length_app; simpl; lia|].
      left. simpl. discriminate.
Qed.

End LogFacts.

(** X14.  In the log of [solve_quiz], a record without error is the record of a
    completed iteration: it names one of the three methods and carries
    the raw answer, the status and the parsed body of the grader's
    response, the submitted answer (the normalized raw answer) and the
    next URL read from the parsed body.  A record with an error carries
    none of the submission fields, so it counts as status 500: a run whose
    outcome is "chain_completed" has no record with an error. *)
Theorem log_records_by_outcome {L : PyLib} {W : Type} {N : Net W}
    (cfg : Config) (email secret : string) (url : Value)
    (required_min_steps max_steps : Z) (w : W) :
  let r := snd (solve_quiz cfg email secret url required_min_steps
                  max_steps w) in
  Forall
    (fun s =>
       (error s = None ->
        known_method s /\
        exists c a p,
          submit_status s = Some c /\ raw_answer s = Some a /\
          submitted_answer s = Some (_normalize_answer_for_submission a) /\
          submit_parsed s = Some p /\
          next_url s = Some (next_url_of_parsed p)) /\
       (error s <> None ->
        submit_status s = None /\ submitted_answer s = None /\
        submit_parsed s = None /\ next_url s = None))
    (steps r) /\
  (result r = "chain_completed" ->
   Forall (fun s => error s = None) (steps r)).
Proof.
  cbv zeta.
  match goal with |- ?A /\ _ => assert (Hall : A) end.
  { apply solve_quiz_forall. intros cur k w0 w' r x Hb.
    pose proof (iteration_body_keeps _ _ _ _ _ _ _ Hb) as (_ & _ & Herr).
    pose proof (iteration_body_record _ _ _ _ _ _ _ _ _ Hb) as [_ Hrec].
    simpl in Herr. destruct x as [nu|e].
    - destruct Hrec as (Hnu & Hm & c & a & p & Hc & Ha & Hs & Hp & Hn).
      split; [|congruence]. intros _. split; [exact Hm|].
      exists c, a, p. repeat split; congruence.
    - split; [simpl; discriminate|]. intros _.
      destruct Hrec as (H1 & H2 & H3 & H4). simpl. auto. }
  split; [exact Hall|].
  intros Hres. rewrite solve_quiz_unfold in Hres, Hall. cbv zeta in Hres, Hall.
  rewrite solve_quiz_unfold. cbv zeta. simpl in *.
  set (out := snd (chain_loop cfg (Z.to_nat max_steps) email secret
                     max_steps url 0 [] w)) in *.
  destruct (forallb (fun s => status_or_500 s <? 400) out) eqn:F;
    [|discriminate].
  apply forallb_accepted in F.
  rewrite Forall_forall in *. intros s Hin.
  destruct (F s Hin) as (c & Hc & _).
  destruct (error s) as [e|] eqn:E; [|reflexivity].
  destruct (Hall s Hin) as [_ Hbad].
  destruct Hbad as (Hnone & _); [rewrite E; discriminate|]. congruence.
Qed.

Lemma log_records_by_outcome_witness :
  let r := snd (solve_quiz (L := Mock.lib) (N := Mock.net_down) Mock.cfg
                  "user@example.com" "s3cret" (VStr "https://quiz/start")
                  3 10 tt) in
  exists s,
    steps r = [s] /\ error s <> None /\ submit_status s = None /\
    next_url s = None.
Proof.
  cbv zeta.
  pose proof (proj1 (log_records_by_outcome (L := Mock.lib)
                       (N := Mock.net_down) Mock.cfg
                       "user@example.com" "s3cret"
                       (VStr "https://quiz/start") 3 10 tt)) as H.
  cbv zeta in H.
  destruct (steps (snd (solve_quiz (L := Mock.lib) (N := Mock.net_down)
                          Mock.cfg "user@example.com" "s3cret"
                          (VStr "https://quiz/start") 3 10 tt)))
    as [|s [|s' rest]] eqn:Hlog;
    try (vm_compute in Hlog; discriminate Hlog).
  exists s. split; [reflexivity|].
  assert (E : error s <> None).
  { vm_compute in Hlog. injection Hlog as <-. discriminate. }
  inversion H as [|s0 l [_ Hbad] _]. destruct (Hbad E) as (Hst & _ & _ & Hnu).
  auto.
Defined.

(** X15.  Every record of the log obeys the cascade of methods: a record with a
    file error names the secret extraction or the language model, never
    the file heuristic; a record that names the file heuristic carries an
    integer or a list of row records as raw answer; a record that names
    the secret extraction carries a non-empty string; a record without
    method has neither raw answer nor file error. *)
Theorem log_records_cascade {L : PyLib} {W : Type} {N : Net W}
    (cfg : Config) (email secret : string) (url : Value)
    (required_min_steps max_steps : Z) (w : W) :
  Forall cascade_shape
    (steps (snd (solve_quiz cfg email secret url required_min_steps
                   max_steps w))).
Proof.
  apply solve_quiz_forall. intros cur k w0 w' r x Hb.
  pose proof (iteration_body_record _ _ _ _ _ _ _ _ _ Hb) as [Hshape _].
  destruct x as [nu|e]; [exact Hshape|].
  unfold cascade_shape in *. simpl. exact Hshape.
Qed.

(** X16.  The log is a chain: its first record visits the start URL, and every
    later record visits the next URL recorded by the one before it, which
    is truthy and belongs to a record without error. *)
Theorem log_is_chained {L : PyLib} {W : Type} {N : Net W}
    (cfg : Config) (email secret : string) (url : Value)
    (required_min_steps max_steps : Z) (w : W) :
  chained url
    (steps (snd (solve_quiz cfg email secret url required_min_steps
                   max_steps w))).
Proof.
  rewrite solve_quiz_unfold. cbv zeta. simpl.
  apply chain_loop_chained; [|reflexivity].
  split.
  - intros r H. discriminate H.
  - intros i r r' H. destruct i; discriminate H.
Qed.

Lemma log_is_chained_witness :
  let r := snd (solve_quiz (L := Mock.lib)
                  (N := Mock.net_fixed "page"
                          (Mock.reply 200 Mock.body_next))
                  Mock.cfg "user@example.com" "s3cret"
                  (VStr "https://quiz/start") 3 2 tt) in
  exists r0 r1,
    steps r = [r0; r1] /\ url r0 = VStr "https://quiz/start" /\
    follows r0 r1 /\ url r1 = VStr Mock.url_next.
Proof.
  cbv zeta.
  destruct (log_is_chained (L := Mock.lib)
              (N := Mock.net_fixed "page" (Mock.reply 200 Mock.body_next))
              Mock.cfg "user@example.com" "s3cret"
              (VStr "https://quiz/start") 3 2 tt) as [Hfirst Hnext].
  destruct (steps (snd (solve_quiz (L := Mock.lib)
                          (N := Mock.net_fixed "page"
                                  (Mock.reply 200 Mock.body_next))
                          Mock.cfg "user@example.com" "s3cret"
                          (VStr "https://quiz/start") 3 2 tt)))
    as [|r0 [|r1 [|r2 rest]]] eqn:Hlog;
    try (vm_compute in Hlog; discriminate Hlog).
  exists r0, r1. split; [reflexivity|].
  split; [apply Hfirst; reflexivity|].
  split; [apply (Hnext 0%nat); reflexivity|].
  vm_compute in Hlog. injection Hlog as _ <-. reflexivity.
Defined.

(** X17.  Why a run ends.  The log is empty exactly when the start URL is falsy
    or the cap is not positive.  Otherwise its last record either has an
    error, or records a falsy next URL, or records a truthy next URL that
    is not visited because the log has reached [max_steps] records. *)
Theorem chain_stop_reason {L : PyLib} {W : Type} {N : Net W}
    (cfg : Config) (email secret : string) (url : Value)
    (required_min_steps max_steps : Z) (w : W) :
  let r := snd (solve_quiz cfg email secret url required_min_steps
                  max_steps w) in
  (steps r = [] <-> truthy url = false \/ max_steps <= 0) /\
  (forall l,
      last_record (steps r) = Some l ->
      error l <> None \/
      (error l = None /\
       exists nu, next_url l = Some nu /\ truthy nu = false) \/
      (error l = None /\ steps_done r = max_steps /\
       exists nu, next_url l = Some nu /\ truthy nu = true)).
Proof.
  cbv zeta. rewrite solve_quiz_unfold. cbv zeta. simpl.
  pose proof (chain_loop_stop cfg email secret max_steps (Z.to_nat max_steps)
                url 0 [] w eq_refl ltac:(lia)) as H.
  cbv zeta in H.
  set (out := snd (chain_loop cfg (Z.to_nat max_steps) email secret
                     max_steps url 0 [] w)) in *.
  destruct H as [[Hout Hwhy] | (l & Hl & Hgrow & Hwhy)].
  - rewrite Hout. split.
    + split; [intros _; exact Hwhy|reflexivity].
    + intros l Hl. discriminate Hl.
  - split.
    + split.
      * intros E. rewrite E in Hgrow. simpl in Hgrow. lia.
      * intros Hwhy0. exfalso. subst out.
        destruct (Z.to_nat max_steps) as [|fuel] eqn:F.
        -- simpl in Hgrow. lia.
        -- rewrite chain_loop_S in Hgrow.
           destruct Hwhy0 as [Hu|Hm]; [|lia].
           rewrite Hu in Hgrow. simpl in Hgrow. lia.
    + intros l' Hl'. rewrite Hl in Hl'. inversion Hl'; subst l'.
      exact Hwhy.
Qed.

Lemma chain_stop_reason_witness :
  let r := snd (solve_quiz (L := Mock.lib)
                  (N := Mock.net_fixed "page"
                          (Mock.reply 200 Mock.body_next))
                  Mock.cfg "user@example.com" "s3cret"
                  (VStr "https://quiz/start") 3 2 tt) in
  exists l,
    last_record (steps r) = Some l /\
    (error l <> None \/
     (error l = None /\
      exists nu, next_url l = Some nu /\ truthy nu = false) \/
     (error l = None /\ steps_done r = 2 /\
      exists nu, next_url l = Some nu /\ truthy nu = true)).
Proof.
  cbv zeta. eexists. split; [vm_compute; reflexivity|].
  apply (proj2 (chain_stop_reason (L := Mock.lib)
                  (N := Mock.net_fixed "page"
                          (Mock.reply 200 Mock.body_next))
                  Mock.cfg "user@example.com" "s3cret"
                  (VStr "https://quiz/start") 3 2 tt)).
  vm_compute. reflexivity.
Defined.

(* ================================================================= *)
(** ** The endpoint *)

Lemma differs_from_str_false (v : Value) (q : string) :
  differs_from_str v q = false <-> v = VStr q.
Proof.
  destruct v; simpl; try (split; [discriminate|intros H; discriminate H]).
  rewrite negb_false_iff, String.eqb_eq. split; congruence.
Qed.

Lemma env_set (x : option string) :
  env_unset x = false <-> exists q, x = Some q /\ q <> "".
Proof.
  destruct x as [[|c q]|]; simpl.
  - split; [discriminate|]. intros (q & E & Hq). congruence.
  - split; [|reflexivity]. intros _. eexists. split; [reflexivity|].
    discriminate.
  - split; [discriminate|]. intros (q & E & _). discriminate.
Qed.

(** X18.  The endpoint hands a request to the solver exactly when the server's
    secret is configured, the body is a JSON object whose "email" and
    "url" values are truthy, and its "secret" value is the string equal to
    the server's secret; the solver is then called with these three values
    and with 3 as the required number of steps. *)
Theorem quiz_endpoint_solves_iff {L : PyLib} (QUIZ_SECRET : option string)
    (request_body : string) (email secret url : Value)
    (required_min_steps : Z) :
  quiz_endpoint QUIZ_SECRET request_body =
    Ok (Solve email secret url required_min_steps) <->
  exists q data,
    QUIZ_SECRET = Some q /\ q <> "" /\
    json_loads request_body = Ok (VDict data) /\
    dict_get "secret" data = Some (VStr q) /\ secret = VStr q /\
    email = dict_get_or_none "email" data /\ truthy email = true /\
    url = dict_get_or_none "url" data /\ truthy url = true /\
    required_min_steps = 3.
Proof.
  unfold quiz_endpoint. split.
  - intros H.
    destruct (env_unset QUIZ_SECRET) eqn:Hq; [discriminate|].
    apply env_set in Hq as (q & -> & Hq).
    destruct (json_loads request_body) as [[| | | | | |data]|e];
      try discriminate.
    cbv zeta in H.
    destruct (truthy (dict_get_or_none "email" data)) eqn:He;
      [|discriminate].
    destruct (truthy (dict_get_or_none "secret" data)) eqn:Hs;
      [|discriminate].
    destruct (truthy (dict_get_or_none "url" data)) eqn:Hu; [|discriminate].
    simpl negb in H. cbv iota in H.
    destruct (differs_from_str (dict_get_or_none "secret" data) q) eqn:Hd;
      [discriminate|].
    apply differs_from_str_false in Hd.
    inversion H; subst. exists q, data.
    assert (Hsec : dict_get "secret" data = Some (VStr q)).
    { unfold dict_get_or_none in Hd.
      destruct (dict_get "secret" data); [congruence|discriminate]. }
    repeat split; auto.
  - intros (q & data & -> & Hq & -> & Hs & -> & -> & He & -> & Hu & ->).
    assert (Hset : env_unset (Some q) = false).
    { apply env_set. eauto. }
    rewrite Hset. cbv zeta. rewrite He, Hu.
    assert (Hsec : dict_get_or_none "secret" data = VStr q).
    { unfold dict_get_or_none. rewrite Hs. reflexivity. }
    rewrite Hsec.
    assert (Ht : truthy (VStr q) = true).
    { destruct q; [congruence|reflexivity]. }
    rewrite Ht. simpl negb. cbv iota.
    rewrite (proj2 (differs_from_str_false (VStr q) q) eq_refl).
    reflexivity.
Qed.

Lemma quiz_endpoint_solves_iff_witness :
  quiz_endpoint (L := MockDocs.docs_lib) (Some "s3cret") MockDocs.body_request =
    Ok (Solve (VStr "user@example.com") (VStr "s3cret")
          (VStr "https://quiz/start") 3).
Proof.
  apply (proj2 (quiz_endpoint_solves_iff (L := MockDocs.docs_lib) (Some "s3cret")
                  MockDocs.body_request (VStr "user@example.com")
                  (VStr "s3cret") (VStr "https://quiz/start") 3)).
  exists "s3cret", MockDocs.request.
  repeat split; discriminate.
Defined.

(** The case analysis of [quiz_endpoint]: the configuration, the body, the
    three fields in the order of the checks, and the secret. *)
Ltac endpoint_cases Q body data :=
  unfold quiz_endpoint;
  destruct (env_unset Q) eqn:Hq;
  [ | destruct (json_loads body) as [v|err] eqn:Hj;
      [ destruct v as [| | | | | |data];
        [ | | | | | |
          cbv zeta;
          destruct (truthy (dict_get_or_none "email" data)) eqn:He;
          [ destruct (truthy (dict_get_or_none "secret" data)) eqn:Hs;
            [ destruct (truthy (dict_get_or_none "url" data)) eqn:Hu;
              [ destruct (differs_from_str (dict_get_or_none "secret" data)
                            (match Q with Some q => q | None => "" end))
                  eqn:Hd
              | ]
            | ]
          | ] ]
      | ] ];
  simpl negb; cbv iota.

(** X19.  What the endpoint refuses, and with which status.  Without a
    configured secret it answers 500 whatever the body, and in no other
    case.  It answers 400 exactly in four cases, checked in this order: the
    body is no JSON ("Invalid JSON payload"); the body is a JSON object
    whose "email" value is missing or falsy ("Email missing"); its "email"
    is truthy and its "secret" is not ("Secret missing"); both are truthy
    and its "url" is not ("URL missing").  It answers 403 exactly when the
    three values are truthy and the "secret" value is not the server's
    secret, so a missing field is reported before a wrong secret.  It
    raises [AttributeError] exactly when the secret is configured and the
    body is valid JSON but no object.  No other status is answered. *)
Theorem quiz_endpoint_rejections {L : PyLib} (QUIZ_SECRET : option string)
    (request_body : string) :
  (forall message,
      quiz_endpoint QUIZ_SECRET request_body = Ok (Respond 500 message) <->
      env_unset QUIZ_SECRET = true /\
      message = "Server misconfigured: QUIZ_SECRET not set") /\
  (forall message,
      quiz_endpoint QUIZ_SECRET request_body = Ok (Respond 400 message) <->
      env_unset QUIZ_SECRET = false /\
      ((exists e, json_loads request_body = Raise e) /\
       message = "Invalid JSON payload" \/
       exists data,
         json_loads request_body = Ok (VDict data) /\
         (truthy (dict_get_or_none "email" data) = false /\
          message = "Email missing" \/
          truthy (dict_get_or_none "email" data) = true /\
          truthy (dict_get_or_none "secret" data) = false /\
          message = "Secret missing" \/
          truthy (dict_get_or_none "email" data) = true /\
          truthy (dict_get_or_none "secret" data) = true /\
          truthy (dict_get_or_none "url" data) = false /\
          message = "URL missing"))) /\
  (forall message,
      quiz_endpoint QUIZ_SECRET request_body = Ok (Respond 403 message) <->
      message = "Invalid secret" /\
      exists q data,
        QUIZ_SECRET = Some q /\ q <> "" /\
        json_loads request_body = Ok (VDict data) /\
        truthy (dict_get_or_none "email" data) = true /\
        truthy (dict_get_or_none "secret" data) = true /\
        truthy (dict_get_or_none "url" data) = true /\
        dict_get_or_none "secret" data <> VStr q) /\
  (forall e,
      quiz_endpoint QUIZ_SECRET request_body = Raise e <->
      env_unset QUIZ_SECRET = false /\
      exists data,
        json_loads request_body = Ok data /\ (forall d, data <> VDict d) /\
        e = AttributeError data "get") /\
  (forall status message,
      quiz_endpoint QUIZ_SECRET request_body = Ok (Respond status message) ->
      status = 500 \/ status = 400 \/ status = 403).
Proof.
  split; [|split; [|split; [|split]]].
  - intros message. endpoint_cases QUIZ_SECRET request_body data;
      (split; [intros H; inversion H; auto
              |intros [H1 H2]; try discriminate H1; subst; reflexivity]).
  - intros message. endpoint_cases QUIZ_SECRET request_body data;
      (split;
       [intros H;
        first
          [ discriminate H
          | inversion H; subst; split; [reflexivity|]; eauto 10 ]
       |intros [H0 H];
        first
          [ discriminate H0
          | destruct H as [[[e' He'] ->] | (data' & Hj' & H)];
            [ first [discriminate He' | reflexivity]
            | first
                [ discriminate Hj'
                | injection Hj' as <-;
                  destruct H
                    as [[H1 ->] | [(H1 & H2 & ->) | (H1 & H2 & H3 & ->)]];
                  first [congruence | reflexivity] ] ] ]]).
  - intros message. endpoint_cases QUIZ_SECRET request_body data;
      (split;
       [intros H;
        first
          [ discriminate H
          | inversion H; subst; split; [reflexivity|];
            apply env_set in Hq as (q & -> & Hq); exists q, data;
            repeat (split; [solve [auto]|]);
            intros E; apply differs_from_str_false in E; congruence ]
       |intros (-> & q & data' & -> & Hq' & Hj' & H1 & H2 & H3 & H4);
        first
          [ destruct q; [contradiction Hq'; reflexivity|discriminate Hq]
          | discriminate Hj'
          | injection Hj' as <-;
            first
              [ congruence
              | reflexivity
              | exfalso; apply H4, differs_from_str_false; exact Hd ] ]]).
  - intros e. endpoint_cases QUIZ_SECRET request_body data;
      (split;
       [intros H;
        first
          [ discriminate H
          | inversion H; subst; split; [reflexivity|];
            eexists; split; [reflexivity|];
            split; [discriminate|reflexivity] ]
       |intros (H0 & data' & Hj' & Hnd & ->);
        first
          [ discriminate H0
          | discriminate Hj'
          | injection Hj' as <-;
            first [reflexivity | exfalso; eapply Hnd; reflexivity] ]]).
  - intros status message.
    endpoint_cases QUIZ_SECRET request_body data;
      intros H; inversion H; auto.
Qed.

Lemma quiz_endpoint_rejections_witness :
  quiz_endpoint (L := MockDocs.docs_lib) (Some "other")
    MockDocs.body_request = Ok (Respond 403 "Invalid secret") /\
  quiz_endpoint (L := MockDocs.docs_lib) (Some "s3cret")
    Mock.body_correct = Ok (Respond 400 "Email missing") /\
  quiz_endpoint (L := MockDocs.docs_lib) (Some "s3cret") "[]" =
    Raise (AttributeError (VList []) "get").
Proof.
  split; [|split].
  - apply (proj1 (proj2 (proj2 (quiz_endpoint_rejections
                                  (L := MockDocs.docs_lib) (Some "other")
                                  MockDocs.body_request)))).
    split; [reflexivity|]. exists "other", MockDocs.request.
    repeat split; discriminate.
  - apply (proj1 (proj2 (quiz_endpoint_rejections
                           (L := MockDocs.docs_lib) (Some "s3cret")
                           Mock.body_correct))).
    split; [reflexivity|]. right. exists [("correct", VBool true)].
    split; [reflexivity|]. left. split; reflexivity.
  - apply (proj1 (proj2 (proj2 (proj2 (quiz_endpoint_rejections
                                         (L := MockDocs.docs_lib)
                                         (Some "s3cret") "[]"))))).
    split; [reflexivity|]. exists (VList []).
    split; [reflexivity|]. split; [discriminate|reflexivity].
Defined.

(* ================================================================= *)
(** ** The submission and the prompt *)

(** X20.  [_submit_to_analysis] posts the normalized answer and reports whatever
    response comes back: no status is an error.  The parsed body is the
    JSON value of the body, or the mapping [{"raw": body}] when the body
    is no JSON; in that case no next URL is read from it.  The only
    exception is the one of the request itself. *)
Theorem submit_reports_any_response {L : PyLib} {W : Type} {N : Net W}
    (cfg : Config) (email secret : string) (url answer : Value) (w w' : W) :
  let payload :=
    VDict [("email", VStr email); ("secret", VStr secret); ("url", url);
           ("answer", _normalize_answer_for_submission answer)] in
  (forall resp,
      http_post (ANALYSIS_SUBMIT_URL cfg) [] payload w = (w', Ok resp) ->
      exists res,
        _submit_to_analysis cfg email secret url answer w = (w', Ok res) /\
        sr_status_code res = status_code resp /\
        sr_raw_text res = text resp /\
        sr_submitted_answer res = _normalize_answer_for_submission answer /\
        (forall j, json_loads (text resp) = Ok j -> sr_parsed res = j) /\
        (forall e,
            json_loads (text resp) = Raise e ->
            sr_parsed res = VDict [("raw", VStr (text resp))] /\
            next_url_of_parsed (sr_parsed res) = VNone)) /\
  (forall e,
      http_post (ANALYSIS_SUBMIT_URL cfg) [] payload w = (w', Raise e) ->
      _submit_to_analysis cfg email secret url answer w = (w', Raise e)).
Proof.
  cbv zeta. unfold _submit_to_analysis, bind. split.
  - intros resp ->. unfold ret. eexists. split; [reflexivity|]. simpl.
    repeat split.
    + intros j ->. reflexivity.
    + rewrite H. reflexivity.
    + rewrite H. reflexivity.
  - intros e ->. reflexivity.
Qed.

Lemma submit_reports_any_response_witness :
  exists res,
    _submit_to_analysis (L := Mock.lib)
      (N := Mock.net_fixed "" (Mock.reply 502 "Bad Gateway"))
      Mock.cfg "user@example.com" "s3cret" (VStr "https://quiz/start")
      (VInt 4) tt = (tt, Ok res) /\
    sr_status_code res = 502 /\
    sr_parsed res = VDict [("raw", VStr "Bad Gateway")].
Proof.
  destruct (proj1 (submit_reports_any_response (L := Mock.lib)
                     (N := Mock.net_fixed "" (Mock.reply 502 "Bad Gateway"))
                     Mock.cfg "user@example.com" "s3cret"
                     (VStr "https://quiz/start") (VInt 4) tt tt)
              (Mock.reply 502 "Bad Gateway") eq_refl)
    as (res & Hres & Hst & _ & _ & _ & Hraw).
  exists res. split; [exact Hres|]. split; [exact Hst|].
  exact (proj1 (Hraw Mock.JSONDecodeError eq_refl)).
Defined.

Lemma take_app_long (n : nat) (t extra : string) :
  (n <= String.length t)%nat ->
  PyStr.take n (t ++ extra)%string = PyStr.take n t.
Proof.
  unfold PyStr.take. revert n. induction t as [|c t IH]; intros n Hn.
  - simpl in Hn. assert (n = 0%nat) by lia. subst n.
    destruct extra; reflexivity.
  - destruct n as [|n]; [reflexivity|]. simpl in *.
    rewrite IH by lia. reflexivity.
Qed.

Lemma repeat_char_length (c : ascii) (n : nat) :
  String.length (repeat_char c n) = n.
Proof. induction n as [|n IH]; simpl; congruence. Qed.

(** X21.  The language model sees at most the first 15000 characters of the
    page: whatever follows them changes neither the prompt nor the run of
    [_solve_page_with_llm]. *)
Theorem prompt_ignores_text_beyond_limit {L : PyLib} {W : Type} {N : Net W}
    (cfg : Config) (page_url : Value) (page_text extra : string) :
  (PAGE_TEXT_LIMIT <= String.length page_text)%nat ->
  user_prompt page_url (page_text ++ extra)%string =
    user_prompt page_url page_text /\
  _solve_page_with_llm cfg page_url (page_text ++ extra)%string =
    _solve_page_with_llm cfg page_url page_text.
Proof.
  intros Hlen.
  assert (E : user_prompt page_url (page_text ++ extra)%string =
              user_prompt page_url page_text).
  { unfold user_prompt. rewrite take_app_long; [reflexivity|exact Hlen]. }
  split; [exact E|]. unfold _solve_page_with_llm. rewrite E. reflexivity.
Qed.

Lemma prompt_ignores_text_beyond_limit_witness :
  user_prompt (L := Mock.lib) (VStr "https://quiz/start")
    (repeat_char "a" PAGE_TEXT_LIMIT ++ "tds{late}")%string =
  user_prompt (L := Mock.lib) (VStr "https://quiz/start")
    (repeat_char "a" PAGE_TEXT_LIMIT).
Proof.
  apply (prompt_ignores_text_beyond_limit (L := Mock.lib)
           (N := Mock.net_down) Mock.cfg).
  rewrite repeat_char_length. apply le_n.
Defined.
